(** * Dataset utilities of dpdi: IMDB-Wiki and LFW annotation handling

    A shallow embedding of [dpdi/datasets/imdb_wiki.py] and
    [dpdi/datasets/lfw_dataset.py].

    - Python exceptions are values of [exn]; a computation that may raise
      returns a [result]; a method that also mutates [self], draws from the
      global random generator or prints runs in the state monad [Run].
    - Double precision numbers are [spec_float]s of the binary64 format and
      use the IEEE operations of [SpecFloat] (round to nearest even).
    - A pandas table is a list of rows, each carrying its index label and a
      finite map from column names to cells.
    - The libraries the code calls (pandas, numpy, scikit-learn, torchvision)
      are modelled by what they do here; what cannot be computed (the random
      generator, image decoding, the text of a formatted float) is a
      parameter. *)

From Stdlib Require Import ZArith Floats.SpecFloat.
From stdpp Require Import base gmap strings list pretty.
From Stdlib Require Import Ascii.

Set Default Proof Using "Type".

(** ** Exceptions and the two monads *)

Inductive exn : Set :=
  | AssertionError
  | AttributeError
  | FileNotFoundError
  | IndexError
  | KeyError
  | NotImplementedError
  | OverflowError
  | TypeError
  | ValueError
  | ZeroDivisionError.

Global Instance exn_eq_dec : EqDecision exn.
Proof. solve_decision. Defined.

Inductive result (A : Type) : Type :=
  | Ok (a : A)
  | Raise (e : exn).
Arguments Ok {A} a.
Arguments Raise {A} e.

Global Instance result_eq_dec {A} `{EqDecision A} : EqDecision (result A).
Proof. solve_decision. Defined.

Global Instance result_ret : MRet result := λ A a, Ok a.
Global Instance result_bind : MBind result := λ A B f m,
  match m with
  | Ok a => f a
  | Raise e => Raise e
  end.
Global Instance result_fmap : FMap result := λ A B f m,
  match m with
  | Ok a => Ok (f a)
  | Raise e => Raise e
  end.

(** [assert c] of Python. *)
Definition assert (c : bool) : result () :=
  if c then Ok () else Raise AssertionError.

(** A computation over a mutable state [S]: the state reached when an
    exception is raised is kept, as in Python. *)
Definition Run (S A : Type) : Type := S → result A * S.

Definition run_ret {S A} (a : A) : Run S A := λ s, (Ok a, s).
Definition run_bind {S A B} (m : Run S A) (k : A → Run S B) : Run S B := λ s,
  match m s with
  | (Ok a, s') => k a s'
  | (Raise e, s') => (Raise e, s')
  end.
Definition run_lift {S A} (m : result A) : Run S A := λ s, (m, s).

Declare Scope run_scope.
Delimit Scope run_scope with run.
Notation "x <~ m ;; k" := (run_bind m (λ x, k))
  (at level 100, m at next level, right associativity) : run_scope.
Notation "m ;;; k" := (run_bind m (λ _, k))
  (at level 100, right associativity) : run_scope.

(** ** Binary64 *)

Module F64.
Definition prec : Z := 53.
Definition emax : Z := 1024.
Abbreviation float := spec_float.

Definition nan : float := S754_nan.

(** Conversion of a Python integer; Python refuses what does not fit. *)
Definition of_Z_raw (z : Z) : float := binary_normalize prec emax z 0 false.
Definition of_Z (z : Z) : result float :=
  match of_Z_raw z with
  | S754_infinity _ => Raise OverflowError
  | x => Ok x
  end.

Definition mul : float → float → float := SFmul prec emax.
Definition sub : float → float → float := SFsub prec emax.
Definition div : float → float → float := SFdiv prec emax.
Definition abs : float → float := SFabs.
Definition eqb : float → float → bool := SFeqb.
Definition ltb : float → float → bool := SFltb.
Definition leb : float → float → bool := SFleb.

Definition is_zero (x : float) : bool :=
  match x with S754_zero _ => true | _ => false end.

(** [bool(x)]: every float but the two zeros is true, the NaN too. *)
Definition truthy (x : float) : bool := negb (is_zero x).

(** [int(x)]: truncation towards zero. *)
Definition to_int (x : float) : result Z :=
  match x with
  | S754_nan => Raise ValueError
  | S754_infinity _ => Raise OverflowError
  | S754_zero _ => Ok 0%Z
  | S754_finite s m e => Ok (cond_Zopp s (Z.shiftl (Z.pos m) e))
  end.

(** Python's [x / y] on floats raises on a zero divisor. *)
Definition py_div (x y : float) : result float :=
  if is_zero y then Raise ZeroDivisionError else Ok (div x y).

(** The literals of the source, rounded as the parser rounds them. *)
Definition zero : float := S754_zero false.
Definition one : float := of_Z_raw 1.
Definition lit_0_001 : float := div (of_Z_raw 1) (of_Z_raw 1000).

(** Narrowing to single precision, [tensor.float()]. *)
Definition to_f32 (x : float) : float :=
  match x with
  | S754_finite s m e => binary_normalize 24 128 (cond_Zopp s (Z.pos m)) e s
  | _ => x
  end.
End F64.

Global Instance spec_float_eq_dec : EqDecision spec_float.
Proof. solve_decision. Defined.

(** Two's complement wrap-around of numpy's [int64]. *)
Definition wrap64 (z : Z) : Z :=
  ((z + 2 ^ 63) `mod` 2 ^ 64 - 2 ^ 63)%Z.

(** ** A fragment of pandas *)

(** A cell holds a Python string, an integer or a double; a missing value is
    the NaN double. [pd.read_csv] yields a string cell only where the text
    is not a number. *)
Inductive cell : Type :=
  | CStr (s : string)
  | CInt (z : Z)
  | CFloat (x : F64.float).

Global Instance cell_eq_dec : EqDecision cell.
Proof. solve_decision. Defined.
Global Instance cell_inhabited : Inhabited cell := populate (CFloat F64.nan).

Abbreviation row := (gmap string cell).

(** The rows are kept with their index label; [columns] lists the column
    names in order. The index is unnamed and has one level, which is what
    [read_csv], boolean selection and [iloc] produce. *)
Record DataFrame : Type := mkDF {
  columns : list string;
  body : list (cell * row)
}.

Definition df_len (df : DataFrame) : nat := length (body df).

(** Every row has a value for exactly the columns of the frame. *)
Definition wf_frame (df : DataFrame) : Prop :=
  ∀ lr, lr ∈ body df → ∀ c, c ∈ columns df ↔ is_Some (lr.2 !! c).

(** [df[c]] read as a list of values; [KeyError] for an unknown column. *)
Definition getitem (df : DataFrame) (c : string) : result (list cell) :=
  if decide (c ∈ columns df) then Ok ((λ lr, lr.2 !!! c) <$> body df)
  else Raise KeyError.

(** [df[c] = v], for a series [v] aligned with the frame: a new name goes
    to the end of the columns. *)
Definition add_column (c : string) (cols : list string) : list string :=
  if decide (c ∈ cols) then cols else cols ++ [c].

Definition setitem (df : DataFrame) (c : string) (v : list cell) : DataFrame :=
  {| columns := add_column c (columns df);
     body := zip_with (λ lr x, (lr.1, <[c:=x]> lr.2)) (body df) v |}.

(** [df[mask]] for a boolean series. *)
Fixpoint boolean_index {A} (mask : list bool) (l : list A) : list A :=
  match mask, l with
  | b :: mask', x :: l' =>
      if b then x :: boolean_index mask' l' else boolean_index mask' l'
  | _, _ => []
  end.

Definition select (mask : list bool) (df : DataFrame) : DataFrame :=
  {| columns := columns df; body := boolean_index mask (body df) |}.

(** [df.reset_index()]: the old labels become a column, named [index], or
    [level_0] when [index] is taken; inserting a name that exists is
    refused. The new labels are 0, 1, ... *)
Definition reset_index (df : DataFrame) : result DataFrame :=
  let name := if decide ("index" ∈ columns df) then "level_0" else "index" in
  if decide (name ∈ columns df) then Raise ValueError
  else Ok {| columns := name :: columns df;
             body := imap (λ i lr, (CInt (Z.of_nat i), <[name:=lr.1]> lr.2))
                          (body df) |}.

(** [df.drop(columns=c)]. *)
Definition drop_column (c : string) (df : DataFrame) : result DataFrame :=
  if decide (c ∈ columns df)
  then Ok {| columns := filter (λ c', c' ≠ c) (columns df);
             body := (λ lr, (lr.1, delete c lr.2)) <$> body df |}
  else Raise KeyError.

(** [df.iloc[idx]] for an array of positions, negative ones counted from
    the end. *)
Definition position (n : nat) (i : Z) : result nat :=
  if decide (0 ≤ i < Z.of_nat n)%Z then Ok (Z.to_nat i)
  else if decide (- Z.of_nat n ≤ i < 0)%Z then Ok (Z.to_nat (Z.of_nat n + i))
  else Raise IndexError.

Definition take_at {A} (l : list A) (i : Z) : result A :=
  p ← position (length l) i;
  match l !! p with Some x => Ok x | None => Raise IndexError end.

Definition iloc (df : DataFrame) (idx : list Z) : result DataFrame :=
  rows ← mapM (take_at (body df)) idx;
  Ok {| columns := columns df; body := rows |}.

(** Element-wise [abs] and [>=] against a float, as numpy computes them:
    an [int64] is converted to a double before the comparison, and a string
    is a [TypeError]. *)
Definition cell_abs (c : cell) : result cell :=
  match c with
  | CStr _ => Raise TypeError
  | CInt z => Ok (CInt (wrap64 (Z.abs z)))
  | CFloat x => Ok (CFloat (F64.abs x))
  end.

Definition cell_float (c : cell) : result F64.float :=
  match c with
  | CStr _ => Raise TypeError
  | CInt z => Ok (F64.of_Z_raw z)
  | CFloat x => Ok x
  end.

Definition cell_ge (thresh : F64.float) (c : cell) : result bool :=
  x ← cell_float c; Ok (F64.leb thresh x).

(** The values a function returned for [Series.apply], as the series
    holds them: integers beside a float become floats. *)
Definition is_float_cell (c : cell) : bool :=
  match c with CFloat _ => true | _ => false end.

Definition is_str_cell (c : cell) : bool :=
  match c with CStr _ => true | _ => false end.

Definition maybe_convert_objects (vals : list cell) : list cell :=
  if existsb is_float_cell vals && negb (existsb is_str_cell vals)
  then (λ c, match c with CInt z => CFloat (F64.of_Z_raw z) | _ => c end)
         <$> vals
  else vals.

(** ** Strings and paths *)

(** [s.replace(a, b)] for single characters. *)
Fixpoint replace_char (a b : Ascii.ascii) (s : string) : string :=
  match s with
  | EmptyString => EmptyString
  | String c s' => String (if decide (c = a) then b else c) (replace_char a b s')
  end.

Definition ends_with_slash (s : string) : bool :=
  match String.rev s with
  | String c _ => bool_decide (c = "/"%char)
  | EmptyString => false
  end.

Definition starts_with_slash (s : string) : bool :=
  match s with
  | String c _ => bool_decide (c = "/"%char)
  | EmptyString => false
  end.

(** [posixpath.join] of two components, and of more by folding. *)
Definition path_join (a b : string) : string :=
  if starts_with_slash b then b
  else if bool_decide (a = "") || ends_with_slash a then a +:+ b
  else a +:+ "/" +:+ b.

(** The tabulator, the delimiter of the LFW files. *)
Definition TAB : string := String (ascii_of_nat 9) EmptyString.

(** [f'{z:04}'] for an integer: at least four characters, zeros after the
    sign. *)
Fixpoint zeros (n : nat) : string :=
  match n with O => "" | S n' => String "0" (zeros n') end.

Definition format_int_04 (z : Z) : string :=
  let digits := pretty (Z.abs z) in
  if decide (z < 0)%Z
  then "-" +:+ zeros (3 - String.length digits) +:+ digits
  else zeros (4 - String.length digits) +:+ digits.

(** ** A fragment of Python's [re] and [os.path] *)

(** A pattern is a sequence of pieces: a literal text, a character class
    taken once or more, as often as possible first, or a class taken a
    fixed number of times. A piece marked [true] is a group. Characters are
    bytes: a digit is one of 0 to 9. *)
Inductive piece : Type :=
  | Literal (t : string)
  | OneOrMore (class : Ascii.ascii → bool)
  | Exactly (n : nat) (class : Ascii.ascii → bool).

Definition regex : Type := list (bool * piece).

Definition is_digit (c : Ascii.ascii) : bool :=
  (48 <=? nat_of_ascii c) && (nat_of_ascii c <=? 57).

Definition non_digit (c : Ascii.ascii) : bool := negb (is_digit c).

Fixpoint strip_prefix (t s : string) : option string :=
  match t with
  | EmptyString => Some s
  | String c t' =>
      match s with
      | EmptyString => None
      | String d s' => if decide (c = d) then strip_prefix t' s' else None
      end
  end.

Fixpoint take_exactly (n : nat) (class : Ascii.ascii → bool) (s : string)
    : option (string * string) :=
  match n with
  | O => Some (EmptyString, s)
  | S n' =>
      match s with
      | EmptyString => None
      | String c s' =>
          if class c
          then (λ mr : string * string, (String c mr.1, mr.2))
                 <$> take_exactly n' class s'
          else None
      end
  end.

(** The length of the longest prefix inside the class. *)
Fixpoint run_length (class : Ascii.ascii → bool) (s : string) : nat :=
  match s with
  | EmptyString => 0
  | String c s' => if class c then S (run_length class s') else 0
  end.

Fixpoint str_take (k : nat) (s : string) : string :=
  match k, s with
  | S k', String c s' => String c (str_take k' s')
  | _, _ => EmptyString
  end.

Fixpoint str_drop (k : nat) (s : string) : string :=
  match k, s with
  | S k', String _ s' => str_drop k' s'
  | _, _ => s
  end.

(** Backtracking over a greedy repetition: the longest match first, then
    one character less, down to one character. *)
Fixpoint longest_first {A} (k : nat) (s : string)
    (continue : string → string → option A) : option A :=
  match k with
  | O => None
  | S k' =>
      match continue (str_take k s) (str_drop k s) with
      | Some r => Some r
      | None => longest_first k' s continue
      end
  end.

(** [re.match(r, s)]: the groups of the match of [r] at the start of [s],
    or [None]. *)
Fixpoint re_match (r : regex) (s : string) : option (list string) :=
  match r with
  | [] => Some []
  | (group, pc) :: r' =>
      let continue (m rest : string) : option (list string) :=
        (λ gs, if group : bool then m :: gs else gs) <$> re_match r' rest in
      match pc with
      | Literal t =>
          match strip_prefix t s with
          | Some rest => continue t rest
          | None => None
          end
      | Exactly n class =>
          match take_exactly n class s with
          | Some (m, rest) => continue m rest
          | None => None
          end
      | OneOrMore class => longest_first (run_length class s) s continue
      end
  end.

Fixpoint has_slash (s : string) : bool :=
  match s with
  | EmptyString => false
  | String c s' => bool_decide (c = "/"%char) || has_slash s'
  end.

(** [posixpath.basename]: what follows the last slash. *)
Fixpoint basename (s : string) : string :=
  match s with
  | EmptyString => EmptyString
  | String c s' =>
      if has_slash s' then basename s'
      else if bool_decide (c = "/"%char) then s' else s
  end.

(** ** torchvision transforms *)

(** A decimal literal [digits * 10 ^ -scale], kept as it is written. *)
Record decimal : Set := Dec { dec_digits : Z; dec_scale : nat }.

Inductive transform : Set :=
  | Resize (size : list Z)
  | RandomRotation (degrees : Z)
  | RandomCrop (size : list Z)
  | RandomHorizontalFlip
  | ToTensor
  | Normalize (mean std : list decimal)
  | CenterCrop (size : list Z).

Inductive Compose : Set := MkCompose (steps : list transform).

Definition steps_of (t : Compose) : list transform :=
  match t with MkCompose l => l end.

Global Instance decimal_eq_dec : EqDecision decimal.
Proof. solve_decision. Defined.
Global Instance transform_eq_dec : EqDecision transform.
Proof. solve_decision. Defined.
Global Instance Compose_eq_dec : EqDecision Compose.
Proof. solve_decision. Defined.

(** The name of a step, without its parameters. *)
Inductive step_name : Set :=
  | resize | random_rotation | random_crop | random_horizontal_flip
  | to_tensor | normalize_step | center_crop.

Definition name_of (t : transform) : step_name :=
  match t with
  | Resize _ => resize
  | RandomRotation _ => random_rotation
  | RandomCrop _ => random_crop
  | RandomHorizontalFlip => random_horizontal_flip
  | ToTensor => to_tensor
  | Normalize _ _ => normalize_step
  | CenterCrop _ => center_crop
  end.

(** ** Tensors handed to the training loop *)

Inductive tensor : Type :=
  | Int64Scalar (z : Z)
  | Float32Vector (v : list F64.float).

(** The index a loader passes: a Python integer or a tensor holding one;
    [tolist] turns the second into the first. *)
Inductive py_index : Set :=
  | IdxInt (i : Z)
  | IdxTensor (i : Z).

Definition tolist (idx : py_index) : Z :=
  match idx with IdxInt i | IdxTensor i => i end.

(** ** What the code takes from its platform *)

(** Events the code leaves on the terminal. *)
Inductive event : Type :=
  | DebugSampling (group : string) (n : Z) (available : nat) (keys : list Z)
  | WarnFetch (idxs : list Z) (e : exn)
  | Breakpoint.

(** The file system as [pd.read_csv] and the image loader see it,
    torchvision's pipelines, and numpy's random generator: the global one,
    and the one [RandomState(seed)] creates. [permutation n] yields an
    arrangement of [0 .. n-1]; which one is up to the generator. *)
Class Platform : Type := {
  image : Type;
  np_random : Type;
  torch_random : Type;
  read_csv : string → string → result DataFrame;
  default_loader : string → result image;
  apply_compose : Compose → image → torch_random → result image * torch_random;
  format_float_04 : F64.float → string;
  random_state : Z → np_random;
  permutation : nat → np_random → list nat * np_random;
  permutation_perm : ∀ n s, (permutation n s).1 ≡ₚ seq 0 n
}.

(** The interpreter state next to [self]. *)
Record World `{Platform} : Type := mkWorld {
  np_rng : np_random;
  torch_rng : torch_random;
  stdout : list event
}.

(** ** numpy, scikit-learn and torchvision calls *)

Section libraries.
Context `{Platform}.

Definition set_np_rng (g : np_random) (w : World) : World :=
  {| np_rng := g; torch_rng := torch_rng w; stdout := stdout w |}.

Definition print (e : event) : Run World () := λ w,
  (Ok (), {| np_rng := np_rng w; torch_rng := torch_rng w;
             stdout := stdout w ++ [e] |}).

(** [np.random.choice(a, size=size, replace=False)] on the global
    generator: the first [size] entries of a permutation of the positions
    of [a], read in [a]. An empty [a] is accepted when nothing is drawn
    (numpy 1.17 and later); a size that is negative or above the
    population is a [ValueError]. *)
Definition choice (a : list nat) (size : Z) : Run World (list nat) := λ w,
  let pop_size := length a in
  if decide (pop_size = 0 ∧ size ≠ 0%Z) then (Raise ValueError, w)
  else if decide (Z.of_nat pop_size < size)%Z then (Raise ValueError, w)
  else if decide (size < 0)%Z then (Raise ValueError, w)
  else
    let '(p, g) := permutation pop_size (np_rng w) in
    (Ok ((λ i, a !!! i) <$> take (Z.to_nat size) p), set_np_rng g w).

(** [np.isin(x, keys)] on one element, for integer keys. *)
Definition cell_is (k : Z) (x : cell) : bool :=
  match x with
  | CStr _ => false
  | CInt z => bool_decide (z = k)
  | CFloat v => F64.eqb v (F64.of_Z_raw k)
  end.

Definition isin_keys (keys : list Z) (x : cell) : bool :=
  existsb (λ k, cell_is k x) keys.

(** [np.argwhere(mask).flatten()]. *)
Fixpoint argwhere_from (i : nat) (mask : list bool) : list nat :=
  match mask with
  | [] => []
  | b :: mask' =>
      if b then i :: argwhere_from (S i) mask' else argwhere_from (S i) mask'
  end.
Definition argwhere (mask : list bool) : list nat := argwhere_from 0 mask.

(** [array.astype(float)] on one element. *)
Definition astype_float (x : cell) : result F64.float :=
  match x with
  | CStr _ => Raise ValueError
  | CInt z => Ok (F64.of_Z_raw z)
  | CFloat v => Ok v
  end.

(** [train_test_split(df, train_size=0.9, random_state=seed)]: the sizes
    are [floor(0.9 * n)] and the rest, an empty part is refused, and the
    rows are dealt from a permutation, the test rows first. With a seed
    the permutation is drawn by a generator made from it and the global
    generator is left alone; without one the global generator draws.
    scikit-learn multiplies in double precision; below 2^49 rows the
    result is the integer quotient written here. *)
Definition train_test_split (df : DataFrame) (random_state_arg : option Z)
    : Run World (DataFrame * DataFrame) := λ w,
  let n_samples := df_len df in
  let n_train := (9 * n_samples) `div` 10 in
  let n_test := n_samples - n_train in
  if decide (n_train = 0) then (Raise ValueError, w)
  else
    let '(perm, w) :=
      match random_state_arg with
      | Some seed => ((permutation n_samples (random_state seed)).1, w)
      | None => let '(p, g) := permutation n_samples (np_rng w) in
                (p, set_np_rng g w)
      end in
    let ind_test := take n_test perm in
    let ind_train := take n_train (drop n_test perm) in
    (train ← iloc df (Z.of_nat <$> ind_train);
     test ← iloc df (Z.of_nat <$> ind_test);
     Ok (train, test), w).

(** Calling a pipeline on an image; the random steps draw from torch's
    generator. *)
Definition call_compose (c : Compose) (img : image) : Run World image :=
  λ w,
    let '(r, g) := apply_compose c img (torch_rng w) in
    (r, {| np_rng := np_rng w; torch_rng := g; stdout := stdout w |}).
End libraries.

(** ** dpdi/datasets/lfw_dataset.py *)

Module LfwDataset.
Section with_platform.
Context `{Platform}.

(** [(\D+)_(\d{4})\.jpg] *)
Definition LFW_FILENAME_REGEX : regex :=
  [(true, OneOrMore non_digit); (false, Literal "_");
   (true, Exactly 4 is_digit); (false, Literal ".jpg")].

Definition LABEL_COLNAME : string := "label".
Definition ATTR_COLNAME : string := "attr".

(** [res.group(n)], and [None] where [res] is [None]: the
    [AttributeError] is handled. *)
Definition group (n : nat) (res : option (list string)) : option string :=
  match res with
  | Some groups => groups !! (n - 1)
  | None => None
  end.

Definition extract_person_from_filename (x : string) : option string :=
  let res := re_match LFW_FILENAME_REGEX (basename x) in
  group 1 res.

Definition extract_imagenum_from_filename (x : string) : option string :=
  let res := re_match LFW_FILENAME_REGEX (basename x) in
  group 2 res.

Definition apply_thresh (df : DataFrame) (colname : string)
    (thresh : F64.float) (use_abs : bool) : result DataFrame :=
  col ← getitem df colname;
  mask ← (if use_abs
          then a ← mapM cell_abs col; mapM (cell_ge thresh) a
          else mapM (cell_ge thresh) col);
  df' ← reset_index (select mask df);
  drop_column "index" df'.

(** The lambdas and the arithmetic of [get_anno_df], cell by cell. *)
Definition imagenum_str (x : cell) : result cell :=
  match x with
  | CInt z => Ok (CStr (format_int_04 z))
  | CFloat v => Ok (CStr (format_float_04 v))
  | CStr _ => Raise ValueError
  end.

Definition person_underscored (x : cell) : result cell :=
  match x with
  | CStr s => Ok (CStr (replace_char " " "_" s))
  | _ => Raise AttributeError
  end.

(** [person + '/' + person + '_' + imagenum_str + '.jpg']; the two
    columns hold strings when the code gets here. *)
Definition img_basepath (person num : cell) : result cell :=
  match person, num with
  | CStr p, CStr n => Ok (CStr (p +:+ "/" +:+ p +:+ "_" +:+ n +:+ ".jpg"))
  | _, _ => Raise TypeError
  end.

Definition one_minus (x : cell) : result cell :=
  match x with
  | CInt z => Ok (CInt (wrap64 (1 - z)))
  | CFloat v => Ok (CFloat (F64.sub F64.one v))
  | CStr _ => Raise TypeError
  end.

Fixpoint zip_result {A B C} (f : A → B → result C) (l : list A) (k : list B)
    : result (list C) :=
  match l, k with
  | x :: l', y :: k' => z ← f x y; r ← zip_result f l' k'; Ok (z :: r)
  | _, _ => Ok []
  end.

(** [series.isin(labels)]. *)
Definition isin (series labels : list cell) : list bool :=
  (λ x, bool_decide (x ∈ labels)) <$> series.

Definition index_labels (df : DataFrame) : list cell := fst <$> body df.

Definition threshold_given (label_threshold : option F64.float) : bool :=
  match label_threshold with
  | Some t => F64.truthy t
  | None => false
  end.

Definition get_anno_df (root_dir partition label_colname : string)
    (label_threshold : option F64.float) : result DataFrame :=
  let anno_fp := path_join root_dir "lfw_attributes_cleaned.txt" in
  let train_fp := path_join root_dir "peopleDevTrain.txt" in
  let test_fp := path_join root_dir "peopleDevTest.txt" in
  anno_df ← read_csv anno_fp TAB;
  anno_df ← match label_threshold with
            | Some t => if F64.truthy t
                        then apply_thresh anno_df label_colname t true
                        else Ok anno_df
            | None => Ok anno_df
            end;
  nums ← getitem anno_df "imagenum";
  strs ← mapM imagenum_str nums;
  let anno_df := setitem anno_df "imagenum_str" strs in
  people ← getitem anno_df "person";
  people ← mapM person_underscored people;
  let anno_df := setitem anno_df "person" people in
  p ← getitem anno_df "person";
  s ← getitem anno_df "imagenum_str";
  paths ← zip_result img_basepath p s;
  let anno_df := setitem anno_df "img_basepath" paths in
  closed ← getitem anno_df "Mouth_Closed";
  opened ← mapM one_minus closed;
  let anno_df := setitem anno_df "Mouth_Open" opened in
  partition_ids ←
    (if decide (partition = "train") then read_csv train_fp TAB
     else if decide (partition = "test") then read_csv test_fp TAB
     else Raise ValueError);
  p ← getitem anno_df "person";
  let partition_idx := isin p (index_labels partition_ids) in
  df ← reset_index (select partition_idx anno_df);
  drop_column "index" df.

Definition make_lfw_file_pattern (dirname : string) : string :=
  path_join dirname "*/*.jpg".

Definition mu_data : list decimal :=
  [Dec 463666 6; Dec 390829 6; Dec 339801 6].
Definition std_data : list decimal :=
  [Dec 282721 6; Dec 253934 6; Dec 247486 6].
Definition im_size : list Z := [80; 80]%Z.
Definition crop_size : list Z := [64; 64]%Z.

Definition get_lfw_transforms (partition : string) (normalize : bool)
    : result Compose :=
  let resize := Resize im_size in
  let rotate := RandomRotation 30 in
  let random_crop := RandomCrop crop_size in
  let flip_aug := RandomHorizontalFlip in
  let normalize_aug := Normalize mu_data std_data in
  let center_crop := CenterCrop crop_size in
  let transform_train :=
    MkCompose [resize; rotate; random_crop; flip_aug; ToTensor; normalize_aug] in
  let transform_test :=
    MkCompose [resize; center_crop; ToTensor; normalize_aug] in
  let transform_test_unnormalized :=
    MkCompose [resize; center_crop; ToTensor] in
  if decide (partition = "train") then Ok transform_train
  else if decide (partition = "test") then
    if negb normalize then Ok transform_test_unnormalized
    else Ok transform_test
  else Raise ValueError.

Record LFWDataset : Type := mkLFW {
  anno : DataFrame;
  root_dir : string;
  transform : option Compose;
  target_colname : string;
  attribute_colname : string;
  threshold : option F64.float;
  image_subdirectory : string
}.

Definition __init__ (root_dir target_colname attribute_colname : string)
    (label_threshold : option F64.float) (transform : option Compose)
    (partition image_subdirectory : string) : result LFWDataset :=
  anno ← get_anno_df root_dir partition target_colname label_threshold;
  Ok {| anno := anno; root_dir := root_dir; transform := transform;
        target_colname := target_colname;
        attribute_colname := attribute_colname;
        threshold := label_threshold;
        image_subdirectory := image_subdirectory |}.

Definition __len__ (self : LFWDataset) : nat := df_len (anno self).

Definition cell_path (root sub : string) (c : cell) : result string :=
  match c with
  | CStr s => Ok (path_join (path_join root sub) s)
  | _ => Raise TypeError
  end.

(** [(soft_labels > 0).astype(int)] on one value. *)
Definition hard_label (soft : cell) : result Z :=
  match soft with
  | CStr _ => Raise TypeError
  | CInt z => Ok (if decide (0 < z)%Z then 1 else 0)%Z
  | CFloat x => Ok (if F64.ltb F64.zero x then 1 else 0)%Z
  end.

Definition run_transform (t : option Compose) (img : image)
    : Run World image :=
  match t with
  | Some c => call_compose c img
  | None => run_ret img
  end.

Definition __getitem__ (self : LFWDataset) (idx : py_index)
    : Run World (image * Z * tensor) :=
  (let idx := tolist idx in
   img_name <~ run_lift (paths ← getitem (anno self) "img_basepath";
                         c ← take_at paths idx;
                         cell_path (root_dir self) (image_subdirectory self) c) ;;
   image <~ run_lift (default_loader img_name) ;;
   soft_labels <~ run_lift (r ← take_at (body (anno self)) idx;
                            if decide (target_colname self ∈ columns (anno self))
                            then Ok (r.2 !!! target_colname self)
                            else Raise KeyError) ;;
   hard_labels <~ run_lift (hard_label soft_labels) ;;
   let label := Int64Scalar hard_labels in
   image <~ run_transform (transform self) image ;;
   run_ret (image, idx, label))%run.

(** [_revalue_fn]: the negation of the threshold comes first, and fails
    on [None]. *)
Definition revalue (threshold : option F64.float) (x : cell) : result cell :=
  match threshold with
  | None => Raise TypeError
  | Some t =>
      v ← cell_float x;
      if F64.ltb v (SFopp t) then Ok (CInt 0)
      else if F64.ltb t v then Ok (CInt 1)
      else Ok (CFloat F64.nan)
  end.

(** The series of the revalued attribute at the given positions, with
    the labels of the rows. *)
Definition get_attribute_annotations (self : LFWDataset) (idxs : list Z)
    : result (list (cell * cell)) :=
  rows ← iloc (anno self) idxs;
  idx_annos ← (vals ← getitem rows (attribute_colname self);
               Ok (zip (index_labels rows) vals));
  applied ← mapM (λ lx : cell * cell, revalue (threshold self) lx.2)
                 idx_annos;
  Ok (zip (fst <$> idx_annos) (maybe_convert_objects applied)).
End with_platform.
End LfwDataset.

(** ** dpdi/datasets/imdb_wiki.py *)

Module ImdbWiki.
Section with_platform.
Context `{Platform}.

Definition TRAIN_TEST_SPLIT_SEED : Z := 948292.

(** [meta_df.replace({"male": 1, "female": 0})], on one cell. *)
Definition replace_gender (x : cell) : cell :=
  match x with
  | CStr s => if decide (s = "male") then CInt 1
              else if decide (s = "female") then CInt 0 else x
  | _ => x
  end.

Definition replace_all (df : DataFrame) : DataFrame :=
  {| columns := columns df;
     body := (λ lr : cell * row, (lr.1, replace_gender <$> lr.2)) <$> body df |}.

Definition get_anno_df (root_dir : string) (is_train : bool)
    : Run World DataFrame :=
  (meta_df <~ run_lift (read_csv (path_join root_dir "meta.csv") ",") ;;
   let meta_df := replace_all meta_df in
   parts <~ train_test_split meta_df (Some TRAIN_TEST_SPLIT_SEED) ;;
   let '(train, test) := parts in
   if is_train then run_ret train else run_ret test)%run.

Definition mu : list decimal := [Dec 465727 6; Dec 377981 6; Dec 331473 6].
Definition std : list decimal := [Dec 286456 6; Dec 254825 6; Dec 248889 6].

Definition get_transforms (is_train normalize : bool) : result Compose :=
  let resize := Resize [80; 80]%Z in
  let rotate := RandomRotation 30 in
  let crop_size := [64; 64]%Z in
  let random_crop := RandomCrop crop_size in
  let flip_aug := RandomHorizontalFlip in
  let normalize_transf := Normalize mu std in
  let center_crop := CenterCrop crop_size in
  let transform_train :=
    MkCompose [resize; rotate; random_crop; flip_aug; ToTensor;
             normalize_transf] in
  let trasform_test :=
    MkCompose [resize; center_crop; ToTensor; normalize_transf] in
  let transform_test_unnormalized :=
    MkCompose [resize; center_crop; ToTensor] in
  if is_train then _ ← assert normalize; Ok transform_train
  else if normalize then Ok trasform_test
  else Ok transform_test_unnormalized.

Record IMDBWikiDataset : Type := mkIMDB {
  root_dir : string;
  is_train : bool;
  normalize : bool;
  anno : DataFrame;
  transform : Compose;
  target_colname : string;
  attribute_colname : string;
  fp_colname : string;
  majority_group_keys : list Z;
  minority_group_keys : list Z
}.

Definition __init__ (root_dir : string) (is_train normalize : bool)
    (target_colname attribute_colname : string)
    : Run World IMDBWikiDataset :=
  (anno <~ get_anno_df root_dir is_train ;;
   transform <~ run_lift (get_transforms is_train normalize) ;;
   run_ret {| root_dir := root_dir; is_train := is_train;
              normalize := normalize;
              anno := anno; transform := transform;
              target_colname := target_colname;
              attribute_colname := attribute_colname;
              fp_colname := "path";
              majority_group_keys := [1%Z];
              minority_group_keys := [0%Z] |})%run.

Definition set_anno (a : DataFrame) (self : IMDBWikiDataset)
    : IMDBWikiDataset :=
  {| root_dir := root_dir self; is_train := is_train self;
     normalize := normalize self; anno := a; transform := transform self;
     target_colname := target_colname self;
     attribute_colname := attribute_colname self;
     fp_colname := fp_colname self;
     majority_group_keys := majority_group_keys self;
     minority_group_keys := minority_group_keys self |}.

Definition __len__ (self : IMDBWikiDataset) : nat := df_len (anno self).

Definition filepaths (self : IMDBWikiDataset) : result (list cell) :=
  getitem (anno self) (fp_colname self).

Definition attributes (self : IMDBWikiDataset) : result (list cell) :=
  getitem (anno self) (attribute_colname self).

Definition targets (self : IMDBWikiDataset) : result (list (list F64.float)) :=
  col ← getitem (anno self) (target_colname self);
  mapM (λ x, v ← astype_float x; Ok [v]) col.

Definition majority_idxs (self : IMDBWikiDataset) : result (list nat) :=
  a ← attributes self;
  Ok (argwhere (isin_keys (majority_group_keys self) <$> a)).

Definition minority_idxs (self : IMDBWikiDataset) : result (list nat) :=
  a ← attributes self;
  Ok (argwhere (isin_keys (minority_group_keys self) <$> a)).

Definition join_cell (root : string) (c : cell) : result string :=
  match c with
  | CStr s => Ok (path_join root s)
  | _ => Raise TypeError
  end.

Definition __getitem__ (self : IMDBWikiDataset) (idx : py_index)
    : Run World (image * Z * tensor) :=
  (let idx := tolist idx in
   img_fp <~ run_lift (paths ← filepaths self;
                       c ← take_at paths idx;
                       join_cell (root_dir self) c) ;;
   image <~ run_lift (default_loader img_fp) ;;
   label <~ run_lift (t ← targets self;
                      v ← take_at t idx;
                      Ok (Float32Vector (F64.to_f32 <$> v))) ;;
   image <~ call_compose (transform self) image ;;
   run_ret (image, idx, label))%run.

(** Methods that may assign to [self] run on the pair of the object and
    the world. *)
Definition on_world {A} (m : Run World A)
    : Run (IMDBWikiDataset * World) A := λ s,
  let '(r, w) := m s.2 in (r, (s.1, w)).

Definition on_self {A} (f : IMDBWikiDataset → result A)
    : Run (IMDBWikiDataset * World) A := λ s, (f s.1, s).

Definition assign_anno (a : DataFrame) : Run (IMDBWikiDataset * World) () :=
  λ s, (Ok (), (set_anno a s.1, s.2)).

(** [try: ... except Exception as e: ...] *)
Definition try_except {S A} (body : Run S A) (handler : exn → Run S A)
    : Run S A := λ s,
  match body s with
  | (Ok a, s') => (Ok a, s')
  | (Raise e, s') => handler e s'
  end.

(** The handler prints, stops in the debugger and falls off the end of
    the method, so the caller receives [None]. *)
Definition get_attribute_annotations (idxs : list Z)
    : Run (IMDBWikiDataset * World) (option (list cell)) :=
  try_except
    (idx_annos <~ on_self (λ self, a ← attributes self;
                                    mapM (take_at a) idxs) ;;
     run_ret (Some idx_annos))%run
    (λ e,
      on_world (print (WarnFetch idxs e)) ;;;
      on_world (print Breakpoint) ;;;
      run_ret None)%run.


Definition truthy_int (n : option Z) : bool :=
  match n with
  | Some z => negb (z =? 0)%Z
  | None => false
  end.

Definition apply_alpha_to_dataset (alpha : option F64.float)
    (n_train : option Z) : Run (IMDBWikiDataset * World) () :=
  match alpha with
  | Some alpha =>
    (sizes <~
       match n_train with
       | Some n =>
         if truthy_int n_train then
           (maj <~ on_self majority_idxs ;;
            min <~ on_self minority_idxs ;;
            run_lift (assert (bool_decide
              (n ≤ Z.of_nat (length maj) + Z.of_nat (length min))%Z)) ;;;
            n_maj <~ run_lift (x ← F64.of_Z n; F64.to_int (F64.mul alpha x)) ;;
            let n_min := (n - n_maj)%Z in
            run_ret (n_maj, n_min))
         else run_lift (Raise NotImplementedError)
       | None => run_lift (Raise NotImplementedError)
       end ;;
     let '(n_maj, n_min) := sizes in
     maj <~ on_self majority_idxs ;;
     keys <~ on_self (λ self, Ok (majority_group_keys self)) ;;
     on_world (print (DebugSampling "n_maj" n_maj (length maj) keys)) ;;;
     min <~ on_self minority_idxs ;;
     keys <~ on_self (λ self, Ok (minority_group_keys self)) ;;
     on_world (print (DebugSampling "n_min" n_min (length min) keys)) ;;;
     maj <~ on_self majority_idxs ;;
     sample_idx_1 <~ on_world (choice maj n_maj) ;;
     min <~ on_self minority_idxs ;;
     sample_idx_0 <~ on_world (choice min n_min) ;;
     let idx_sample := sample_idx_1 ++ sample_idx_0 in
     a <~ on_self (λ self, iloc (anno self) (Z.of_nat <$> idx_sample)) ;;
     assign_anno a ;;;
     l <~ on_self (λ self, Ok (__len__ self)) ;;
     run_lift (assert (bool_decide (Z.of_nat l = n_min + n_maj)%Z)) ;;;
     l <~ on_self (λ self, Ok (__len__ self)) ;;
     run_lift (
       x ← F64.of_Z (Z.of_nat (length sample_idx_0));
       d ← F64.of_Z (Z.of_nat l);
       q ← F64.py_div x d;
       assert (F64.ltb (F64.abs (F64.sub q (F64.sub F64.one alpha)))
                       F64.lit_0_001)))%run
  | None => run_ret ()
  end.
End with_platform.
End ImdbWiki.

(** ** Vocabulary of the statements *)

(** The rows under fresh labels 0, 1, ... *)
Definition relabel (rows : list (cell * row)) : list (cell * row) :=
  imap (λ i lr, (CInt (Z.of_nat i), lr.2)) rows.

(** A number whose absolute value fits an [int64] too. *)
Definition numeric (c : cell) : Prop :=
  match c with
  | CStr _ => False
  | CInt z => (- 2 ^ 63 < z < 2 ^ 63)%Z
  | CFloat _ => True
  end.

(** [|v| >= t], or [v >= t], for the value of a cell. *)
Definition meets (t : F64.float) (use_abs : bool) (c : cell) : bool :=
  match c with
  | CStr _ => false
  | CInt z => F64.leb t (F64.of_Z_raw (if use_abs then Z.abs z else z))
  | CFloat v => F64.leb t (if use_abs then F64.abs v else v)
  end.

(** ** A small platform to run the code on *)

Module Demo.
(** Tables are written as a header and the rows' values, and get the
    labels [read_csv] gives them. *)
Definition frame (header : list string) (rows : list (list cell))
    : DataFrame :=
  {| columns := header;
     body := imap (λ i vals, (CInt (Z.of_nat i),
                              (list_to_map (zip header vals) : row))) rows |}.

(** The same with explicit labels, for files whose first column is read
    as the index. *)
Definition labelled (header : list string) (rows : list (cell * list cell))
    : DataFrame :=
  {| columns := header;
     body := (λ r : cell * list cell,
                (r.1, (list_to_map (zip header r.2) : row))) <$> rows |}.

(** A generator that alternates between the identity and the reversal. *)
Definition permute (n s : nat) : list nat * nat :=
  (if Nat.even s then seq 0 n else reverse (seq 0 n), S s).

(** Files are given by [fs]; an image is the path it was loaded from, and
    pipelines leave images alone. *)
Definition platform (fs : string → result DataFrame) : Platform :=
  {| image := string;
     np_random := nat;
     torch_random := ();
     read_csv := λ path _, fs path;
     default_loader := λ path, Ok path;
     apply_compose := λ _ img g, (Ok img, g);
     format_float_04 := λ _, "nan";
     random_state := Z.to_nat;
     permutation := permute;
     permutation_perm := λ n s,
       match Nat.even s as b
         return (if b then seq 0 n else reverse (seq 0 n)) ≡ₚ seq 0 n
       with
       | true => reflexivity _
       | false => reverse_Permutation _
       end |}.

Definition no_files : string → result DataFrame :=
  λ _, Raise FileNotFoundError.

Definition world0 : @World (platform no_files) :=
  @mkWorld (platform no_files) 0%nat () [].

Definition f (n d : Z) : F64.float :=
  F64.div (F64.of_Z_raw n) (F64.of_Z_raw d).
End Demo.

(** The two selections of steps the pipelines are built from. *)
Definition train_steps : list step_name :=
  [resize; random_rotation; random_crop; random_horizontal_flip; to_tensor;
   normalize_step].

Definition test_steps (normalize : bool) : list step_name :=
  [resize; center_crop; to_tensor]
  ++ (if normalize then [normalize_step] else []).

Definition names (p : Compose) : list step_name := name_of <$> steps_of p.

Module Samples.
Import Demo.

(** Three people of the IMDB-Wiki table after the genders are replaced:
    one of the majority group, one of the minority group, one unknown. *)
Definition meta : DataFrame :=
  frame ["path"; "age"; "gender"]
        [[CStr "a.jpg"; CInt 30; CInt 1];
         [CStr "b.jpg"; CInt 40; CInt 0];
         [CStr "c.jpg"; CInt 41; CFloat F64.nan]].

Definition pair : DataFrame :=
  frame ["path"; "age"; "gender"]
        [[CStr "a.jpg"; CInt 30; CInt 1];
         [CStr "b.jpg"; CInt 40; CInt 0]].

Definition second_row : cell * row := body meta !!! 1%nat.

Definition imdb (anno : DataFrame)
    : @ImdbWiki.IMDBWikiDataset :=
  {| ImdbWiki.root_dir := "root"; ImdbWiki.is_train := true;
     ImdbWiki.normalize := true; ImdbWiki.anno := anno;
     ImdbWiki.transform := MkCompose [ToTensor];
     ImdbWiki.target_colname := "age";
     ImdbWiki.attribute_colname := "gender";
     ImdbWiki.fp_colname := "path";
     ImdbWiki.majority_group_keys := [1%Z];
     ImdbWiki.minority_group_keys := [0%Z] |}.
End Samples.

(** The world after the given events were printed. *)
Definition printed `{Platform} (es : list event) (w : World) : World :=
  {| np_rng := np_rng w; torch_rng := torch_rng w; stdout := stdout w ++ es |}.

(** A position inside a list of the given length. *)
Definition in_range (n : nat) (i : Z) : Prop := (0 ≤ i < Z.of_nat n)%Z.

(** A cell that holds a number (a NaN counts). *)
Definition is_number (c : cell) : Prop :=
  match c with CStr _ => False | _ => True end.

(** The value of a numeric cell as a double. *)
Definition as_float (c : cell) : F64.float :=
  match c with
  | CStr _ => F64.nan
  | CInt z => F64.of_Z_raw z
  | CFloat v => v
  end.

(** [v > 0] for the value of a cell. *)
Definition positive (c : cell) : bool :=
  match c with
  | CStr _ => false
  | CInt z => bool_decide (0 < z)%Z
  | CFloat v => F64.ltb F64.zero v
  end.

(** The same LFW dataset, had it been constructed with another threshold
    over the same table. *)
Definition with_threshold `{Platform} (t : option F64.float)
    (self : LfwDataset.LFWDataset) : LfwDataset.LFWDataset :=
  {| LfwDataset.anno := LfwDataset.anno self;
     LfwDataset.root_dir := LfwDataset.root_dir self;
     LfwDataset.transform := LfwDataset.transform self;
     LfwDataset.target_colname := LfwDataset.target_colname self;
     LfwDataset.attribute_colname := LfwDataset.attribute_colname self;
     LfwDataset.threshold := t;
     LfwDataset.image_subdirectory := LfwDataset.image_subdirectory self |}.

(** The rows of a table at the given positions. *)
Definition rows_at (df : DataFrame) (idx : list nat) : list (cell * row) :=
  (λ i, body df !!! i) <$> idx.

(** The size of the train part as scikit-learn computes it, in doubles. *)
Definition n_train_in_double (n : Z) : result Z :=
  F64.to_int (F64.mul (F64.div (F64.of_Z_raw 9) (F64.of_Z_raw 10))
                      (F64.of_Z_raw n)).

(** Table sizes to compare the two computations on: the small ones, and a
    few of the order of the IMDB-Wiki table and beyond. *)
Definition sizes_checked : list Z :=
  (seqZ 0 201 ++ [1000; 65536; 460723; 523051; 1000000007; 2 ^ 40 + 9])%Z.

Module SplitSamples.
Import Demo.

(** [meta.csv] with two rows, and with one. *)
Definition two : DataFrame :=
  frame ["path"; "age"; "gender"]
        [[CStr "a.jpg"; CInt 30; CStr "male"];
         [CStr "b.jpg"; CInt 40; CStr "female"]].
Definition one : DataFrame :=
  frame ["path"; "age"; "gender"] [[CStr "a.jpg"; CInt 30; CStr "male"]].

Definition fs (meta : DataFrame) (path : string) : result DataFrame :=
  if decide (path = "root/meta.csv") then Ok meta
  else Raise FileNotFoundError.

Definition world (meta : DataFrame) : @World (platform (fs meta)) :=
  @mkWorld (platform (fs meta)) 0%nat () [].
End SplitSamples.

(** The last check of [apply_alpha_to_dataset] on the sizes it ends with:
    the minority fraction [n_min / n], less [1 - alpha], is below 0.001 in
    absolute value, all in doubles. *)
Definition ratio_within (alpha : F64.float) (n_min n : Z) : result () :=
  x ← F64.of_Z n_min;
  d ← F64.of_Z n;
  q ← F64.py_div x d;
  assert (F64.ltb (F64.abs (F64.sub q (F64.sub F64.one alpha))) F64.lit_0_001).

(** [int(alpha * n)], the number of majority rows asked for. *)
Definition majority_share (alpha : F64.float) (n : Z) : result Z :=
  x ← F64.of_Z n; F64.to_int (F64.mul alpha x).

(** ** Vocabulary for the LFW annotations *)

Section lfw_vocabulary.
Context `{Platform}.

Definition is_string (c : cell) : Prop :=
  match c with CStr _ => True | _ => False end.

Definition value (m : result cell) : cell :=
  match m with Ok c => c | Raise _ => CFloat F64.nan end.

(** The person of a row as the partition files spell it. *)
Definition person_of (r : row) : cell :=
  value (LfwDataset.person_underscored (r !!! "person")).

(** A row with the columns [get_anno_df] rewrites or adds. *)
Definition derived (r : row) : row :=
  let num := value (LfwDataset.imagenum_str (r !!! "imagenum")) in
  <["Mouth_Open" := value (LfwDataset.one_minus (r !!! "Mouth_Closed"))]>
    (<["img_basepath" := value (LfwDataset.img_basepath (person_of r) num)]>
       (<["person" := person_of r]> (<["imagenum_str" := num]> r))).

(** The row passes the label threshold, when one is given. *)
Definition kept (label_threshold : option F64.float) (label_colname : string)
    (r : row) : bool :=
  match label_threshold with
  | Some t => if F64.truthy t then meets t true (r !!! label_colname)
              else true
  | None => true
  end.

(** The person of the row is among the labels of the partition file. *)
Definition listed (partition_ids : DataFrame) (r : row) : bool :=
  bool_decide (person_of r ∈ LfwDataset.index_labels partition_ids).

Definition partition_path (root_dir partition : string) : string :=
  path_join root_dir (if decide (partition = "train")
                      then "peopleDevTrain.txt" else "peopleDevTest.txt").

Definition relabel_rows (rs : list row) : list (cell * row) :=
  imap (λ i r, (CInt (Z.of_nat i), r)) rs.
End lfw_vocabulary.

Module LfwSamples.
Import Demo.

(** Two lines of [lfw_attributes_cleaned.txt], and the two partition
    files, whose first column pandas reads as the index. *)
Definition attributes_file : DataFrame :=
  frame ["person"; "imagenum"; "Mouth_Closed"; "Smiling"]
        [[CStr "Aaron Eckhart"; CInt 1; CFloat (f 1 2); CFloat (f 1 4)];
         [CStr "Abba Eban"; CInt 12; CFloat (f (-1) 2); CFloat (f 3 2)]].

Definition train_file : DataFrame :=
  labelled ["4038"] [(CStr "Aaron_Eckhart", [CInt 1])].
Definition test_file : DataFrame :=
  labelled ["1711"] [(CStr "Abba_Eban", [CInt 1])].

Definition fs (path : string) : result DataFrame :=
  if decide (path = "lfw/lfw_attributes_cleaned.txt") then Ok attributes_file
  else if decide (path = "lfw/peopleDevTrain.txt") then Ok train_file
  else if decide (path = "lfw/peopleDevTest.txt") then Ok test_file
  else Raise FileNotFoundError.

Definition world : @World (platform fs) := @mkWorld (platform fs) 0%nat () [].

(** The train partition as [get_anno_df] returns it without threshold. *)
Definition train_anno : DataFrame :=
  frame ["person"; "imagenum"; "Mouth_Closed"; "Smiling"; "imagenum_str";
         "img_basepath"; "Mouth_Open"]
        [[CStr "Aaron_Eckhart"; CInt 1; CFloat (f 1 2); CFloat (f 1 4);
          CStr "0001"; CStr "Aaron_Eckhart/Aaron_Eckhart_0001.jpg";
          CFloat (f 1 2)]].

Definition lfw (t : option F64.float) : @LfwDataset.LFWDataset :=
  {| LfwDataset.anno := train_anno;
     LfwDataset.root_dir := "lfw";
     LfwDataset.transform := None;
     LfwDataset.target_colname := "Smiling";
     LfwDataset.attribute_colname := "Mouth_Closed";
     LfwDataset.threshold := t;
     LfwDataset.image_subdirectory := "lfw-deepfunneled" |}.

Definition first_row : cell * row := body train_anno !!! 0%nat.
Definition first_path : string :=
  "lfw/lfw-deepfunneled/Aaron_Eckhart/Aaron_Eckhart_0001.jpg".

(** A table that already has a column called [index]. *)
Definition indexed : DataFrame :=
  frame ["index"; "x"] [[CInt 7; CFloat (f 1 1)]].
End LfwSamples.

(** ** Vocabulary for the further properties *)

(** Every character of the string is in the class. *)
Fixpoint str_all (class : Ascii.ascii → bool) (s : string) : bool :=
  match s with
  | EmptyString => true
  | String c s' => class c && str_all class s'
  end.

(** The name [p +:+ "_" +:+ d +:+ ".jpg"], possibly followed by more text,
    of a person [p] without digits and an image number [d] of four
    digits. *)
Definition lfw_name (name p d : string) : Prop :=
  (∃ rest, name = p +:+ "_" +:+ d +:+ ".jpg" +:+ rest)
  ∧ p ≠ "" ∧ str_all non_digit p = true
  ∧ String.length d = 4 ∧ str_all is_digit d = true.

(** The columns of the table [get_anno_df] of LFW returns, given those of
    the annotation file. *)
Definition lfw_columns (cols : list string) : list string :=
  add_column "Mouth_Open"
    (add_column "img_basepath"
       (add_column "person" (add_column "imagenum_str" cols))).

(** The rows [get_anno_df] of LFW returns, before they are labelled. *)
Definition lfw_rows `{Platform} (label_threshold : option F64.float)
    (label_colname : string) (partition_ids raw : DataFrame) : list row :=
  derived <$> filter (λ r, kept label_threshold label_colname r
                           ∧ listed partition_ids r)
                     (snd <$> body raw).

(** The annotation file has what [get_anno_df] reads: no column [index],
    string persons, numeric image numbers and [Mouth_Closed], and numeric
    labels when a threshold is to be applied. *)
Definition lfw_table (label_threshold : option F64.float)
    (label_colname : string) (raw : DataFrame) : Prop :=
  ("index" ∉ columns raw)
  ∧ ("person" ∈ columns raw) ∧ ("imagenum" ∈ columns raw)
  ∧ ("Mouth_Closed" ∈ columns raw)
  ∧ (∀ lr, lr ∈ body raw →
           lr.2 !! "index" = None
           ∧ is_string (lr.2 !!! "person")
           ∧ is_number (lr.2 !!! "imagenum")
           ∧ is_number (lr.2 !!! "Mouth_Closed"))
  ∧ (LfwDataset.threshold_given label_threshold = true →
     label_colname ∈ columns raw
     ∧ ∀ lr, lr ∈ body raw → numeric (lr.2 !!! label_colname)).

Definition not_space (c : Ascii.ascii) : bool := bool_decide (c ≠ " "%char).

(** A row of the table [get_anno_df] of LFW returns hangs together: the
    person has no space, the path is built from the person and the padded
    image number, and [Mouth_Open] is one minus [Mouth_Closed]. *)
Definition lfw_row_consistent (r : row) : Prop :=
  ∃ p n : string,
    r !!! "person" = CStr p
    ∧ str_all not_space p = true
    ∧ r !!! "imagenum_str" = CStr n
    ∧ r !!! "img_basepath" = CStr (p +:+ "/" +:+ p +:+ "_" +:+ n +:+ ".jpg")
    ∧ LfwDataset.one_minus (r !!! "Mouth_Closed") = Ok (r !!! "Mouth_Open").

(** The partition file [get_anno_df] of LFW reads, as it reads it. *)
Definition partition_file `{Platform} (root_dir partition : string)
    : result DataFrame :=
  if decide (partition = "train")
  then read_csv (path_join root_dir "peopleDevTrain.txt") TAB
  else if decide (partition = "test")
       then read_csv (path_join root_dir "peopleDevTest.txt") TAB
       else Raise ValueError.

(** A character of the ASCII range, where a byte is a character and the
    digits of [\d] are 0 to 9. *)
Definition is_ascii (c : Ascii.ascii) : bool := nat_of_ascii c <? 128.





(** The outcome of fetching an item, with the index replaced. *)
Definition reindexed `{Platform} (z : Z)
    (r : result (image * Z * tensor) * World)
    : result (image * Z * tensor) * World :=
  (match r.1 with
   | Ok (img, _, label) => Ok (img, z, label)
   | Raise e => Raise e
   end, r.2).

(** A cell that still spells a gender. *)
Definition spells_gender (x : cell) : Prop :=
  x = CStr "male" ∨ x = CStr "female".

(** A list of positions that goes up. *)
Definition increasing (l : list nat) : Prop :=
  ∀ a b x y, l !! a = Some x → l !! b = Some y → a < b → x < y.

(** A run that starts in [P] ends in [Q] when it returns and in [E] when
    it raises. *)
Definition triple {S A} (P : S → Prop) (m : Run S A) (Q : A → S → Prop)
    (E : S → Prop) : Prop :=
  ∀ s, P s → match m s with
             | (Ok a, s') => Q a s'
             | (Raise _, s') => E s'
             end.

(** What a method of the IMDB-Wiki dataset may have done to the object and
    the world when only the table is its to change: the other fields are
    as they were, the table has the same columns and only rows it had,
    torch's generator is as it was and nothing printed is lost. *)
Definition same_but_table `{Platform}
    (s0 s : ImdbWiki.IMDBWikiDataset * World) : Prop :=
  s.1 = ImdbWiki.set_anno (ImdbWiki.anno s.1) s0.1
  ∧ columns (ImdbWiki.anno s.1) = columns (ImdbWiki.anno s0.1)
  ∧ (∀ lr, lr ∈ body (ImdbWiki.anno s.1) → lr ∈ body (ImdbWiki.anno s0.1))
  ∧ torch_rng s.2 = torch_rng s0.2
  ∧ stdout s0.2 `prefix_of` stdout s.2.

(** * Properties *)

(** ** The monads and the table operations *)

Section table_facts.

Lemma mapM_fmap_ok {A B C} (f : B → result C) (g : A → C) (h : A → B)
    (l : list A) :
  (∀ x, x ∈ l → f (h x) = Ok (g x)) → mapM f (h <$> l) = Ok (g <$> l).
Proof.
  induction l as [|x l IH]; intros Hl; [done|].
  cbn. rewrite (Hl x) by left. cbn.
  rewrite IH; [done|]. intros y Hy. apply Hl. by right.
Qed.

Lemma mapM_ok_length {A B} (f : A → result B) l k :
  mapM f l = Ok k → length k = length l.
Proof.
  revert k. induction l as [|x l IH]; intros k; cbn.
  - by intros [= <-].
  - destruct (f x); [|done]. cbn. destruct (mapM f l); [|done].
    cbn. intros [= <-]. cbn. f_equal. by apply IH.
Qed.

Lemma boolean_index_fmap {A} (p : A → bool) (l : list A) :
  boolean_index (p <$> l) l = filter (λ x, p x) l.
Proof.
  induction l as [|x l IH]; [done|].
  rewrite fmap_cons, filter_cons. cbn [boolean_index]. rewrite IH.
  destruct (p x); by case_decide.
Qed.

Lemma filter_all {A} (P : A → Prop) `{∀ x, Decision (P x)} (l : list A) :
  Forall P l → filter P l = l.
Proof.
  induction 1 as [|x l Hx _ IH]; [done|].
  rewrite filter_cons_True by done. by rewrite IH.
Qed.

Lemma filter_fmap {A B} (P : B → Prop) `{∀ x, Decision (P x)} (f : A → B)
    (l : list A) :
  filter P (f <$> l) = f <$> filter (λ x, P (f x)) l.
Proof.
  induction l as [|x l IH]; [done|].
  rewrite fmap_cons, !filter_cons, IH. by case_decide.
Qed.

Lemma zip_with_fmap_r {A B C} (f : A → B → C) (g : A → B) (l : list A) :
  zip_with f l (g <$> l) = (λ x, f x (g x)) <$> l.
Proof. induction l; cbn; congruence. Qed.

Lemma getitem_ok df c :
  c ∈ columns df → getitem df c = Ok ((λ lr, lr.2 !!! c) <$> body df).
Proof. intros Hc. unfold getitem. by rewrite decide_True. Qed.

Lemma getitem_missing df c : c ∉ columns df → getitem df c = Raise KeyError.
Proof. intros Hc. unfold getitem. by rewrite decide_False. Qed.

Lemma relabel_length rows : length (relabel rows) = length rows.
Proof. apply length_imap. Qed.

Lemma relabel_lookup rows i :
  relabel rows !! i = (λ lr, (CInt (Z.of_nat i), lr.2)) <$> rows !! i.
Proof. apply list_lookup_imap. Qed.

(** Saving the old labels in a column and dropping that column leaves the
    rows as they were, when the table has no column of that name. *)
Lemma reset_then_drop df :
  "index" ∉ columns df →
  (∀ lr, lr ∈ body df → lr.2 !! "index" = None) →
  reset_index df ≫= drop_column "index"
  = Ok {| columns := columns df; body := relabel (body df) |}.
Proof.
  intros Hc Hrows. unfold reset_index.
  rewrite (decide_False (P := "index" ∈ columns df)) by done.
  rewrite decide_False by done.
  change (drop_column "index"
    {| columns := "index" :: columns df;
       body := imap (λ i lr, (CInt (Z.of_nat i), <["index":=lr.1]> lr.2))
                    (body df) |}
    = Ok {| columns := columns df; body := relabel (body df) |}).
  unfold drop_column. cbn [columns body]. rewrite decide_True by left.
  f_equal. f_equal.
  - rewrite filter_cons_False by naive_solver.
    apply filter_all, Forall_forall. by intros c Hin ->.
  - apply list_eq. intros i.
    rewrite list_lookup_fmap, relabel_lookup, list_lookup_imap.
    destruct (body df !! i) as [lr|] eqn:Hi; [|done]. cbn.
    rewrite delete_insert_id; [done|].
    apply Hrows. by eapply list_elem_of_lookup_2.
Qed.
End table_facts.

(** ** Thresholding a column (lfw_dataset.py) *)

Section thresholding.
Import LfwDataset.

Lemma wrap64_small z : (- 2 ^ 63 ≤ z < 2 ^ 63)%Z → wrap64 z = z.
Proof. intros Hz. unfold wrap64. rewrite Z.mod_small; lia. Qed.

Lemma cell_ge_meets t c : numeric c → cell_ge t c = Ok (meets t false c).
Proof. by destruct c. Qed.

Lemma cell_abs_ge_meets t c :
  numeric c → cell_abs c ≫= cell_ge t = Ok (meets t true c).
Proof.
  destruct c as [s|z|x]; cbn; [done| |done].
  intros Hz. rewrite wrap64_small; [done|lia].
Qed.

Lemma threshold_mask df colname t (use_abs : bool) :
  (∀ lr, lr ∈ body df → numeric (lr.2 !!! colname)) →
  (let col := (λ lr : cell * row, lr.2 !!! colname) <$> body df in
   if use_abs then a ← mapM cell_abs col; mapM (cell_ge t) a
   else mapM (cell_ge t) col)
  = Ok ((λ lr, meets t use_abs (lr.2 !!! colname)) <$> body df).
Proof.
  intros Hnum. cbn zeta. destruct use_abs.
  - induction (body df) as [|lr l IH]; [done|].
    rewrite !fmap_cons.
    assert (numeric (lr.2 !!! colname)) as Hlr by (apply Hnum; left).
    apply (cell_abs_ge_meets t) in Hlr.
    cbn [mapM]. destruct (cell_abs (lr.2 !!! colname)) as [c'|]; [|done].
    cbn in Hlr |- *.
    assert (∀ x, x ∈ l → numeric (x.2 !!! colname)) as Hl
      by (intros x Hx; apply Hnum; by right).
    specialize (IH Hl).
    destruct (mapM cell_abs _) as [a|]; [|done]. cbn in IH |- *.
    rewrite Hlr. cbn. rewrite IH. done.
  - apply (mapM_fmap_ok (cell_ge t)). intros lr Hlr.
    by apply cell_ge_meets, Hnum.
Qed.

(** On a table that has no column called [index], [apply_thresh] keeps
    exactly the rows that meet the threshold, in order, under fresh
    labels. *)
Lemma apply_thresh_filters df colname t use_abs :
  colname ∈ columns df →
  "index" ∉ columns df →
  (∀ lr, lr ∈ body df → lr.2 !! "index" = None) →
  (∀ lr, lr ∈ body df → numeric (lr.2 !!! colname)) →
  apply_thresh df colname t use_abs
  = Ok {| columns := columns df;
          body := relabel (filter (λ lr, meets t use_abs (lr.2 !!! colname))
                                  (body df)) |}.
Proof.
  intros Hcol Hidx Hrows Hnum. unfold apply_thresh.
  rewrite getitem_ok by done.
  change (Ok ?x ≫= ?f) with (f x). cbn beta.
  pose proof (threshold_mask df colname t use_abs Hnum) as Hmask.
  cbn zeta in Hmask. rewrite Hmask.
  change (Ok ?x ≫= ?f) with (f x). cbn beta.
  unfold select. rewrite boolean_index_fmap.
  apply (reset_then_drop {| columns := columns df; body := _ |}); [done|].
  cbn [body]. intros lr [_ Hlr]%list_elem_of_filter. by apply Hrows.
Qed.

(** In a well-formed table a name that is no column has no values. *)
Lemma wf_frame_no_values df c :
  wf_frame df → c ∉ columns df → ∀ lr, lr ∈ body df → lr.2 !! c = None.
Proof.
  intros Hwf Hc lr Hlr. apply eq_None_not_Some. intros Hsome.
  by apply Hc, (Hwf lr Hlr).
Qed.
End thresholding.

(** ** Image pipelines *)

Section pipelines.

(** The pipelines with their parameters. *)
Lemma get_transforms_test normalize :
  ImdbWiki.get_transforms false normalize
  = Ok (MkCompose ([Resize [80; 80]%Z; CenterCrop [64; 64]%Z; ToTensor]
                 ++ if normalize
                    then [Normalize ImdbWiki.mu ImdbWiki.std] else [])).
Proof. by destruct normalize. Qed.

Lemma get_lfw_transforms_test normalize :
  LfwDataset.get_lfw_transforms "test" normalize
  = Ok (MkCompose ([Resize [80; 80]%Z; CenterCrop [64; 64]%Z; ToTensor]
                 ++ if normalize
                    then [Normalize LfwDataset.mu_data LfwDataset.std_data]
                    else [])).
Proof. by destruct normalize. Qed.

(** C4, amended: the train selection is resize, random rotation, random
    crop, random horizontal flip, to-tensor, normalize, which
    [get_lfw_transforms] returns whatever the flag and [get_transforms]
    returns when the flag is set, failing its assertion otherwise; the
    test selection is resize, center crop, to-tensor, then normalize
    exactly when the flag is set. *)
Theorem transforms_selected_by_flag (normalize : bool) :
  (∃ p, LfwDataset.get_lfw_transforms "train" normalize = Ok p
        ∧ names p = train_steps)
  ∧ (∃ p, ImdbWiki.get_transforms true true = Ok p ∧ names p = train_steps)
  ∧ ImdbWiki.get_transforms true false = Raise AssertionError
  ∧ (∃ p, LfwDataset.get_lfw_transforms "test" normalize = Ok p
          ∧ names p = test_steps normalize)
  ∧ (∃ p, ImdbWiki.get_transforms false normalize = Ok p
          ∧ names p = test_steps normalize).
Proof.
  split_and!; [| |done| |].
  - by eexists.
  - by eexists.
  - rewrite get_lfw_transforms_test. eexists; split; [done|].
    by destruct normalize.
  - rewrite get_transforms_test. eexists; split; [done|].
    by destruct normalize.
Qed.
End pipelines.

(** ** Running methods *)

Section running.
Context {S A B : Type}.

Lemma run_bind_ok (m : Run S A) (k : A → Run S B) s a s' :
  m s = (Ok a, s') → run_bind m k s = k a s'.
Proof. unfold run_bind. by intros ->. Qed.

Lemma run_bind_raise (m : Run S A) (k : A → Run S B) s e s' :
  m s = (Raise e, s') → run_bind m k s = (Raise e, s').
Proof. unfold run_bind. by intros ->. Qed.
End running.

(** ** Subsampling to a mixing ratio (imdb_wiki.py) *)

Section alpha.
Context `{Platform}.
Import ImdbWiki.

(** C8: without an [alpha] the call changes nothing, whatever [n_train]:
    the table, and with it the length, the file paths, the attributes,
    the targets and the two groups, are as before, and so are the
    generator and the terminal. *)
Theorem apply_alpha_none_is_noop (n_train : option Z)
    (self : IMDBWikiDataset) (w : World) :
  ∃ self' w',
    apply_alpha_to_dataset None n_train (self, w) = (Ok (), (self', w'))
    ∧ self' = self ∧ w' = w
    ∧ anno self' = anno self
    ∧ __len__ self' = __len__ self
    ∧ filepaths self' = filepaths self
    ∧ attributes self' = attributes self
    ∧ targets self' = targets self
    ∧ majority_idxs self' = majority_idxs self
    ∧ minority_idxs self' = minority_idxs self.
Proof. by exists self, w. Qed.

(** C9: with an [alpha], a missing or zero [n_train] raises
    [NotImplementedError], and an [n_train] above the number of majority
    plus minority items fails the assertion; both leave the object and
    the world as they were. *)
Theorem apply_alpha_errors_keep_table (alpha : F64.float)
    (n_train : option Z) (self : IMDBWikiDataset) (w : World) :
  (truthy_int n_train = false →
   apply_alpha_to_dataset (Some alpha) n_train (self, w)
   = (Raise NotImplementedError, (self, w)))
  ∧ (∀ n maj min,
       n_train = Some n →
       majority_idxs self = Ok maj →
       minority_idxs self = Ok min →
       (Z.of_nat (length maj) + Z.of_nat (length min) < n)%Z →
       apply_alpha_to_dataset (Some alpha) n_train (self, w)
       = (Raise AssertionError, (self, w))).
Proof.
  split.
  - intros Hfalsy. unfold apply_alpha_to_dataset.
    destruct n_train as [n|]; [|done].
    by rewrite Hfalsy.
  - intros n maj min -> Hmaj Hmin Hn. unfold apply_alpha_to_dataset.
    assert (truthy_int (Some n) = true) as ->.
    { cbn. apply negb_true_iff, Z.eqb_neq. lia. }
    unfold run_bind at 1. unfold run_bind at 1.
    unfold on_self at 1. cbn [fst]. rewrite Hmaj.
    unfold run_bind at 1. unfold on_self at 1. cbn [fst]. rewrite Hmin.
    unfold run_bind at 1. unfold run_lift at 1.
    rewrite bool_decide_eq_false_2 by lia. done.
Qed.
End alpha.

(** ** Reading by position *)

Section positions.

Lemma take_at_in_range {A} `{Inhabited A} (l : list A) i :
  in_range (length l) i → take_at l i = Ok (l !!! Z.to_nat i).
Proof.
  intros Hi. unfold take_at, position. rewrite decide_True by done. cbn.
  destruct (lookup_lt_is_Some_2 l (Z.to_nat i)) as [x Hx];
    [unfold in_range in Hi; lia|].
  rewrite Hx. f_equal. symmetry. by apply list_lookup_total_correct.
Qed.

Lemma take_at_lookup {A} (l : list A) i x :
  in_range (length l) i → l !! Z.to_nat i = Some x → take_at l i = Ok x.
Proof.
  intros Hi Hx. unfold take_at, position. rewrite decide_True by done. cbn.
  by rewrite Hx.
Qed.

Lemma take_at_out_of_range {A} (l : list A) i :
  (i < - Z.of_nat (length l) ∨ Z.of_nat (length l) ≤ i)%Z →
  take_at l i = Raise IndexError.
Proof.
  intros Hi. unfold take_at, position.
  rewrite decide_False by lia. by rewrite decide_False by lia.
Qed.

Lemma take_at_raises {A} (l : list A) i e :
  take_at l i = Raise e → e = IndexError.
Proof.
  unfold take_at, position. repeat case_decide; cbn; try congruence.
  - destruct (l !! _); congruence.
  - destruct (l !! _); congruence.
Qed.

Lemma mapM_take_at_in_range {A} `{Inhabited A} (l : list A) idxs :
  Forall (in_range (length l)) idxs →
  mapM (take_at l) idxs = Ok ((λ i, l !!! Z.to_nat i) <$> idxs).
Proof.
  intros Hall.
  rewrite <-(list_fmap_id idxs) at 1.
  apply mapM_fmap_ok. intros i Hi. apply take_at_in_range.
  by eapply Forall_forall in Hall.
Qed.

Lemma mapM_take_at_out_of_range {A} (l : list A) idxs :
  Exists (λ i, i < - Z.of_nat (length l) ∨ Z.of_nat (length l) ≤ i)%Z idxs →
  mapM (take_at l) idxs = Raise IndexError.
Proof.
  induction idxs as [|i idxs IH]; intros Hex; [by inversion Hex|].
  cbn. destruct (take_at l i) as [x|e] eqn:Hi.
  - cbn. inversion Hex as [?? Hbad|?? Hrest]; subst.
    + by rewrite take_at_out_of_range in Hi.
    + by rewrite IH.
  - cbn. f_equal. by eapply take_at_raises.
Qed.
End positions.

(** ** Reading the attribute annotations (imdb_wiki.py) *)

Section annotations.
Context `{Platform}.
Import ImdbWiki.

(** C7: the method returns the values of the attribute column at the
    given positions; when fetching them raises, it prints the warning,
    stops at the breakpoint and returns [None], and the object is as it
    was. Fetching raises [KeyError] when the table has no attribute
    column and [IndexError] when a position is outside the table. *)
Theorem get_attribute_annotations_handler (idxs : list Z)
    (self : IMDBWikiDataset) (w : World) :
  (∀ a, attributes self = Ok a →
        Forall (in_range (length a)) idxs →
        get_attribute_annotations idxs (self, w)
        = (Ok (Some ((λ i, a !!! Z.to_nat i) <$> idxs)), (self, w)))
  ∧ (∀ e, (a ← attributes self; mapM (take_at a) idxs) = Raise e →
          get_attribute_annotations idxs (self, w)
          = (Ok None, (self, printed [WarnFetch idxs e; Breakpoint] w)))
  ∧ (attribute_colname self ∉ columns (anno self) →
     (a ← attributes self; mapM (take_at a) idxs) = Raise KeyError)
  ∧ (∀ a, attributes self = Ok a →
          Exists (λ i, ¬ (- Z.of_nat (length a) ≤ i < Z.of_nat (length a))%Z)
                 idxs →
          (a ← attributes self; mapM (take_at a) idxs) = Raise IndexError).
Proof.
  split_and!.
  - intros a Ha Hidx.
    unfold get_attribute_annotations, try_except, run_bind, on_self.
    cbn [fst]. rewrite Ha. cbn.
    by rewrite mapM_take_at_in_range.
  - intros e He.
    unfold get_attribute_annotations, try_except, run_bind, on_self.
    cbn [fst]. rewrite He.
    unfold on_world, print, printed. cbn.
    by rewrite <-(assoc_L (++)).
  - intros Hcol. unfold attributes. by rewrite getitem_missing.
  - intros a Ha Hex. rewrite Ha. cbn.
    apply mapM_take_at_out_of_range.
    eapply Exists_impl; [done|]. cbn. intros i Hi. lia.
Qed.
End annotations.

(** ** Items of the two datasets *)

Section items.
Context `{Platform}.

Lemma astype_float_number c : is_number c → astype_float c = Ok (as_float c).
Proof. by destruct c. Qed.

Lemma hard_label_number c :
  is_number c →
  LfwDataset.hard_label c = Ok (if positive c then 1 else 0)%Z.
Proof.
  destruct c as [s|z|x]; cbn; [done| |done].
  intros _. f_equal. case_decide.
  - by rewrite bool_decide_eq_true_2.
  - by rewrite bool_decide_eq_false_2.
Qed.

(** An item of the IMDB-Wiki dataset: the image of the row's file, put
    through the pipeline, the index, and the row's target as a single
    precision vector of one entry. *)
Lemma imdb_getitem_row (self : ImdbWiki.IMDBWikiDataset) (i : py_index)
    (w w' : World) (r : cell * row) (p : string) (img img' : image) :
  (0 ≤ tolist i)%Z →
  body (ImdbWiki.anno self) !! Z.to_nat (tolist i) = Some r →
  ImdbWiki.fp_colname self ∈ columns (ImdbWiki.anno self) →
  ImdbWiki.target_colname self ∈ columns (ImdbWiki.anno self) →
  r.2 !!! ImdbWiki.fp_colname self = CStr p →
  (∀ lr, lr ∈ body (ImdbWiki.anno self) →
         is_number (lr.2 !!! ImdbWiki.target_colname self)) →
  default_loader (path_join (ImdbWiki.root_dir self) p) = Ok img →
  call_compose (ImdbWiki.transform self) img w = (Ok img', w') →
  ImdbWiki.__getitem__ self i w
  = (Ok (img', tolist i,
         Float32Vector
           [F64.to_f32 (as_float (r.2 !!! ImdbWiki.target_colname self))]),
     w').
Proof.
  intros Hpos Hr Hfp Htc Hp Hnum Himg Htr.
  assert (in_range (length (body (ImdbWiki.anno self))) (tolist i)) as Hin.
  { apply lookup_lt_Some in Hr. unfold in_range. lia. }
  unfold ImdbWiki.__getitem__. cbn zeta.
  erewrite run_bind_ok; last first.
  { unfold run_lift, ImdbWiki.filepaths. rewrite getitem_ok by done. cbn.
    erewrite take_at_lookup; [| by rewrite length_fmap
                               | by rewrite list_lookup_fmap, Hr].
    cbn. rewrite Hp. cbn. done. }
  erewrite run_bind_ok; last by (unfold run_lift; rewrite Himg).
  erewrite run_bind_ok; last first.
  { unfold run_lift, ImdbWiki.targets. rewrite getitem_ok by done. cbn.
    rewrite (mapM_fmap_ok _ (λ lr : cell * row,
               [as_float (lr.2 !!! ImdbWiki.target_colname self)])).
    2:{ intros lr Hlr. cbn. by rewrite astype_float_number by auto. }
    cbn. erewrite take_at_lookup; [| by rewrite length_fmap
                                    | by rewrite list_lookup_fmap, Hr].
    cbn. done. }
  erewrite run_bind_ok; last done.
  done.
Qed.

(** An item of the LFW dataset: the image, the index, and 1 or 0 as the
    row's target is above zero or not. *)
Lemma lfw_getitem_row (self : LfwDataset.LFWDataset) (i : py_index)
    (w w' : World) (r : cell * row) (p : string) (img img' : image) :
  (0 ≤ tolist i)%Z →
  body (LfwDataset.anno self) !! Z.to_nat (tolist i) = Some r →
  "img_basepath" ∈ columns (LfwDataset.anno self) →
  LfwDataset.target_colname self ∈ columns (LfwDataset.anno self) →
  r.2 !!! "img_basepath" = CStr p →
  is_number (r.2 !!! LfwDataset.target_colname self) →
  default_loader
    (path_join (path_join (LfwDataset.root_dir self)
                          (LfwDataset.image_subdirectory self)) p) = Ok img →
  LfwDataset.run_transform (LfwDataset.transform self) img w = (Ok img', w') →
  LfwDataset.__getitem__ self i w
  = (Ok (img', tolist i,
         Int64Scalar
           (if positive (r.2 !!! LfwDataset.target_colname self)
            then 1 else 0)%Z),
     w').
Proof.
  intros Hpos Hr Hfp Htc Hp Hnum Himg Htr.
  assert (in_range (length (body (LfwDataset.anno self))) (tolist i)) as Hin.
  { apply lookup_lt_Some in Hr. unfold in_range. lia. }
  unfold LfwDataset.__getitem__. cbn zeta.
  erewrite run_bind_ok; last first.
  { unfold run_lift. rewrite getitem_ok by done. cbn.
    erewrite take_at_lookup; [| by rewrite length_fmap
                               | by rewrite list_lookup_fmap, Hr].
    cbn. rewrite Hp. cbn. done. }
  erewrite run_bind_ok; last by (unfold run_lift; rewrite Himg).
  erewrite run_bind_ok; last first.
  { unfold run_lift. erewrite take_at_lookup by done. cbn.
    by rewrite decide_True by done. }
  erewrite run_bind_ok; last by (unfold run_lift; rewrite hard_label_number).
  erewrite run_bind_ok; last done.
  done.
Qed.

(** C6: for both datasets [__len__] is the number of rows of the table,
    and the item at a position inside the table is the triple of the
    image, the position and a label computed from the target column of
    the row at that position: its value in single precision for
    IMDB-Wiki, its sign test for LFW. *)
Theorem len_and_getitem :
  (∀ self : ImdbWiki.IMDBWikiDataset,
     ImdbWiki.__len__ self = length (body (ImdbWiki.anno self)))
  ∧ (∀ self : LfwDataset.LFWDataset,
       LfwDataset.__len__ self = length (body (LfwDataset.anno self)))
  ∧ (∀ (self : ImdbWiki.IMDBWikiDataset) i w w' r p img img',
       in_range (ImdbWiki.__len__ self) (tolist i) →
       body (ImdbWiki.anno self) !! Z.to_nat (tolist i) = Some r →
       ImdbWiki.fp_colname self ∈ columns (ImdbWiki.anno self) →
       ImdbWiki.target_colname self ∈ columns (ImdbWiki.anno self) →
       r.2 !!! ImdbWiki.fp_colname self = CStr p →
       (∀ lr, lr ∈ body (ImdbWiki.anno self) →
              is_number (lr.2 !!! ImdbWiki.target_colname self)) →
       default_loader (path_join (ImdbWiki.root_dir self) p) = Ok img →
       call_compose (ImdbWiki.transform self) img w = (Ok img', w') →
       ImdbWiki.__getitem__ self i w
       = (Ok (img', tolist i,
              Float32Vector
                [F64.to_f32
                   (as_float (r.2 !!! ImdbWiki.target_colname self))]),
          w'))
  ∧ (∀ (self : LfwDataset.LFWDataset) i w w' r p img img',
       in_range (LfwDataset.__len__ self) (tolist i) →
       body (LfwDataset.anno self) !! Z.to_nat (tolist i) = Some r →
       "img_basepath" ∈ columns (LfwDataset.anno self) →
       LfwDataset.target_colname self ∈ columns (LfwDataset.anno self) →
       r.2 !!! "img_basepath" = CStr p →
       is_number (r.2 !!! LfwDataset.target_colname self) →
       default_loader
         (path_join (path_join (LfwDataset.root_dir self)
                               (LfwDataset.image_subdirectory self)) p)
       = Ok img →
       LfwDataset.run_transform (LfwDataset.transform self) img w
       = (Ok img', w') →
       LfwDataset.__getitem__ self i w
       = (Ok (img', tolist i,
              Int64Scalar
                (if positive (r.2 !!! LfwDataset.target_colname self)
                 then 1 else 0)%Z),
          w')).
Proof.
  split_and!; [done|done| |].
  - intros self i w w' r p img img' [Hpos _]. by apply imdb_getitem_row.
  - intros self i w w' r p img img' [Hpos _]. by apply lfw_getitem_row.
Qed.

(** C10: the label of an LFW item is 1 exactly when the target of its row
    is above zero, and 0 otherwise, and the threshold the dataset was
    constructed with plays no part in it. *)
Theorem lfw_label_is_sign_test (self : LfwDataset.LFWDataset)
    (i : py_index) (w w' : World) (r : cell * row) (p : string)
    (img img' : image) :
  in_range (LfwDataset.__len__ self) (tolist i) →
  body (LfwDataset.anno self) !! Z.to_nat (tolist i) = Some r →
  "img_basepath" ∈ columns (LfwDataset.anno self) →
  LfwDataset.target_colname self ∈ columns (LfwDataset.anno self) →
  r.2 !!! "img_basepath" = CStr p →
  is_number (r.2 !!! LfwDataset.target_colname self) →
  default_loader
    (path_join (path_join (LfwDataset.root_dir self)
                          (LfwDataset.image_subdirectory self)) p) = Ok img →
  LfwDataset.run_transform (LfwDataset.transform self) img w = (Ok img', w') →
  ∃ label : Z,
    LfwDataset.__getitem__ self i w
    = (Ok (img', tolist i, Int64Scalar label), w')
    ∧ (label = 1%Z ↔ positive (r.2 !!! LfwDataset.target_colname self) = true)
    ∧ (label = 0%Z ↔ positive (r.2 !!! LfwDataset.target_colname self) = false)
    ∧ ∀ t, LfwDataset.__getitem__ (with_threshold t self) i w
           = LfwDataset.__getitem__ self i w.
Proof.
  intros [Hpos _] Hr Hfp Htc Hp Hnum Himg Htr.
  exists (if positive (r.2 !!! LfwDataset.target_colname self) then 1 else 0)%Z.
  split_and!.
  - by eapply lfw_getitem_row.
  - by destruct (positive _).
  - by destruct (positive _).
  - done.
Qed.
End items.

(** ** The train/test split (imdb_wiki.py) *)

Section split.
Context `{Platform}.
Import ImdbWiki.

Lemma rows_at_seq df : rows_at df (seq 0 (df_len df)) = body df.
Proof.
  unfold rows_at, df_len. apply list_eq. intros i.
  rewrite list_lookup_fmap.
  destruct (decide (i < length (body df))) as [Hi|Hi].
  - rewrite lookup_seq_lt by done. cbn.
    destruct (lookup_lt_is_Some_2 (body df) i Hi) as [x Hx].
    rewrite Hx. f_equal. by apply list_lookup_total_correct.
  - rewrite lookup_seq_ge by lia. cbn. symmetry.
    apply lookup_ge_None. lia.
Qed.

Lemma iloc_positions df (idx : list nat) :
  Forall (λ i, i < df_len df) idx →
  iloc df (Z.of_nat <$> idx)
  = Ok {| columns := columns df; body := rows_at df idx |}.
Proof.
  intros Hidx. unfold iloc.
  rewrite (mapM_fmap_ok _ (λ i, body df !!! i)); [done|].
  intros i Hi. rewrite take_at_in_range.
  - by rewrite Nat2Z.id.
  - eapply Forall_forall in Hidx; [|done]. unfold in_range, df_len in *. lia.
Qed.

Lemma permutation_below n s :
  Forall (λ i, i < n) (permutation n s).1.
Proof.
  apply Forall_forall. intros i Hi.
  rewrite (permutation_perm n s) in Hi.
  apply elem_of_seq in Hi. lia.
Qed.

Lemma train_size_positive n : 2 ≤ n → 0 < (9 * n) `div` 10 ∧ (9 * n) `div` 10 < n.
Proof.
  intros Hn. split.
  - apply Nat.div_str_pos. lia.
  - apply Nat.Div0.div_lt_upper_bound. lia.
Qed.

(** The split made with a seed: the rows are dealt from one permutation,
    the first [n - 9n/10] to the test part and the others to the train
    part, and the world is not touched. *)
Lemma train_test_split_seeded df seed (w : World) :
  2 ≤ df_len df →
  let n := df_len df in
  let perm := (permutation n (random_state seed)).1 in
  train_test_split df (Some seed) w
  = (Ok ({| columns := columns df;
            body := rows_at df (drop (n - (9 * n) `div` 10) perm) |},
         {| columns := columns df;
            body := rows_at df (take (n - (9 * n) `div` 10) perm) |}), w).
Proof.
  intros Hn n perm. unfold train_test_split. fold n.
  destruct (train_size_positive n Hn) as [Hpos Hlt].
  rewrite decide_False by lia. fold perm.
  assert (length perm = n) as Hlen.
  { unfold perm. rewrite (permutation_perm n _). apply length_seq. }
  assert (take ((9 * n) `div` 10) (drop (n - (9 * n) `div` 10) perm)
          = drop (n - (9 * n) `div` 10) perm) as ->.
  { apply take_ge. rewrite length_drop. lia. }
  pose proof (permutation_below n (random_state seed)) as Hbelow.
  fold perm in Hbelow.
  rewrite !iloc_positions; [done| |].
  - by apply Forall_drop.
  - by apply Forall_take.
Qed.

(** C3, amended: on a table of at least two rows the train part and the
    test part are made of rows at disjoint positions that together are
    all positions, so the two parts put together are the table; the
    train part has [9n/10] rows, rounded down, and the test part the
    rest; and every call returns this same split and leaves the world as
    it is, whatever the state of the global generator. *)
Theorem split_is_partition (root : string) (meta : DataFrame) :
  read_csv (path_join root "meta.csv") "," = Ok meta →
  2 ≤ df_len meta →
  ∃ (train test : DataFrame) (ind_train ind_test : list nat),
    (∀ w, get_anno_df root true w = (Ok train, w))
    ∧ (∀ w, get_anno_df root false w = (Ok test, w))
    ∧ body train = rows_at (replace_all meta) ind_train
    ∧ body test = rows_at (replace_all meta) ind_test
    ∧ ind_train ++ ind_test ≡ₚ seq 0 (df_len meta)
    ∧ NoDup (ind_train ++ ind_test)
    ∧ body train ++ body test ≡ₚ body (replace_all meta)
    ∧ df_len train = (9 * df_len meta) `div` 10
    ∧ df_len test = df_len meta - (9 * df_len meta) `div` 10.
Proof.
  intros Hread Hn.
  set (df := replace_all meta).
  assert (df_len df = df_len meta) as Hlen
    by (unfold df, replace_all, df_len; cbn; apply length_fmap).
  set (n := df_len meta) in *.
  set (perm := (permutation n (random_state TRAIN_TEST_SPLIT_SEED)).1).
  assert (perm ≡ₚ seq 0 n) as Hperm by apply permutation_perm.
  assert (length perm = n) as Hplen by (rewrite Hperm; apply length_seq).
  set (k := n - (9 * n) `div` 10).
  destruct (train_size_positive n Hn) as [Hpos Hlt].
  assert (∀ b w, get_anno_df root b w
                 = (Ok (if b then {| columns := columns df;
                                     body := rows_at df (drop k perm) |}
                        else {| columns := columns df;
                                body := rows_at df (take k perm) |}), w))
    as Hcall.
  { intros b w. unfold get_anno_df.
    erewrite run_bind_ok; last by (unfold run_lift; rewrite Hread).
    fold df. erewrite run_bind_ok; last first.
    { rewrite train_test_split_seeded by lia. rewrite Hlen. done. }
    by destruct b. }
  assert (drop k perm ++ take k perm ≡ₚ seq 0 n) as Hall.
  { rewrite (comm (++)), take_drop. done. }
  eexists _, _, (drop k perm), (take k perm). split_and!.
  - intros w. apply (Hcall true).
  - intros w. apply (Hcall false).
  - done.
  - done.
  - done.
  - rewrite Hall. apply NoDup_seq.
  - cbn [body]. unfold rows_at. rewrite <-fmap_app, Hall.
    change (rows_at df (seq 0 n) ≡ₚ body df).
    by rewrite <-Hlen, rows_at_seq.
  - unfold df_len at 1. cbn [body]. unfold rows_at.
    rewrite length_fmap, length_drop. unfold k. lia.
  - unfold df_len at 1. cbn [body]. unfold rows_at.
    rewrite length_fmap, length_take. unfold k. lia.
Qed.
End split.

(** ** Sampling without replacement *)

Section sampling.
Context `{Platform}.

Lemma argwhere_from_elem k mask i :
  i ∈ argwhere_from k mask ↔ ∃ j, i = k + j ∧ mask !! j = Some true.
Proof.
  revert k. induction mask as [|b mask IH]; intros k; cbn.
  - split; [by intros ?%not_elem_of_nil|by intros (j & _ & ?)].
  - destruct b.
    + rewrite elem_of_cons, IH. split.
      * intros [->|(j & -> & Hj)]; [exists 0|exists (S j)]; split; done || lia.
      * intros ([|j] & -> & Hj); [left; lia|right].
        exists j. split; [lia|done].
    + rewrite IH. split.
      * intros (j & -> & Hj). exists (S j). split; [lia|done].
      * intros ([|j] & -> & Hj); [done|]. exists j. split; [lia|done].
Qed.

Lemma argwhere_from_NoDup k mask : NoDup (argwhere_from k mask).
Proof.
  revert k. induction mask as [|b mask IH]; intros k; cbn; [constructor|].
  destruct b; [|done]. constructor; [|done].
  rewrite argwhere_from_elem. intros (j & Hj & _). lia.
Qed.

Lemma argwhere_from_length k mask :
  length (argwhere_from k mask) = length (filter (λ b, b = true) mask).
Proof.
  revert k. induction mask as [|b mask IH]; intros k; [done|].
  rewrite filter_cons. cbn [argwhere_from].
  destruct b; case_decide; try done. cbn. by rewrite IH.
Qed.

Lemma argwhere_elem mask i : i ∈ argwhere mask ↔ mask !! i = Some true.
Proof.
  unfold argwhere. rewrite argwhere_from_elem. split.
  - by intros (j & -> & Hj).
  - intros Hi. by exists i.
Qed.

Lemma argwhere_below mask i : i ∈ argwhere mask → i < length mask.
Proof. rewrite argwhere_elem. apply lookup_lt_Some. Qed.

(** A draw of [size] entries of [a] without replacement: as many distinct
    entries of [a], and only the generator moves. *)
Lemma choice_draws (a : list nat) (size : Z) (w : World) :
  NoDup a →
  (0 ≤ size ≤ Z.of_nat (length a))%Z →
  ∃ s g, choice a size w = (Ok s, set_np_rng g w)
         ∧ length s = Z.to_nat size ∧ NoDup s ∧ s ⊆ a.
Proof.
  intros Ha Hsize. unfold choice.
  rewrite decide_False by lia. rewrite decide_False by lia.
  rewrite decide_False by lia.
  pose proof (permutation_perm (length a) (np_rng w)) as Hperm.
  destruct (permutation (length a) (np_rng w)) as [p g]. cbn in Hperm.
  assert (length p = length a) as Hlen by (rewrite Hperm; apply length_seq).
  assert (∀ i, i ∈ take (Z.to_nat size) p → i < length a) as Hbelow.
  { intros i Hi%subseteq_take. rewrite Hperm in Hi.
    apply elem_of_seq in Hi. lia. }
  eexists _, g. split_and!; [done| | |].
  - rewrite length_fmap, length_take. lia.
  - apply NoDup_fmap_2_strong.
    + intros i j Hi%Hbelow Hj%Hbelow Heq.
      destruct (lookup_lt_is_Some_2 a i Hi) as [x Hx].
      destruct (lookup_lt_is_Some_2 a j Hj) as [y Hy].
      rewrite (list_lookup_total_correct _ _ _ Hx) in Heq.
      rewrite (list_lookup_total_correct _ _ _ Hy) in Heq. subst y.
      by eapply NoDup_lookup.
    + eapply sublist_NoDup; [|apply sublist_take].
      rewrite Hperm. apply NoDup_seq.
  - intros x (i & -> & Hi%Hbelow)%list_elem_of_fmap.
    by apply list_elem_of_lookup_total_2.
Qed.
End sampling.

(** ** Subsampling to a mixing ratio: the successful call (imdb_wiki.py) *)

Section mixing.
Context `{Platform}.
Import ImdbWiki.

Lemma group_idxs_inv (self : IMDBWikiDataset) keys idxs :
  (a ← attributes self; Ok (argwhere (isin_keys keys <$> a))) = Ok idxs →
  attribute_colname self ∈ columns (anno self)
  ∧ idxs = argwhere ((λ lr : cell * row,
                        isin_keys keys (lr.2 !!! attribute_colname self))
                     <$> body (anno self)).
Proof.
  unfold attributes, getitem. case_decide as Hc; [|done].
  cbn. intros [= <-]. split; [done|]. by rewrite <-list_fmap_compose.
Qed.

Lemma group_member (self : IMDBWikiDataset) keys i :
  i ∈ argwhere ((λ lr : cell * row,
                   isin_keys keys (lr.2 !!! attribute_colname self))
                <$> body (anno self)) →
  i < df_len (anno self)
  ∧ isin_keys keys ((body (anno self) !!! i).2 !!! attribute_colname self)
    = true.
Proof.
  rewrite argwhere_elem, list_lookup_fmap. intros Hi.
  destruct (body (anno self) !! i) as [lr|] eqn:Hlr; [|done].
  cbn in Hi. injection Hi as Hi. split.
  - by apply lookup_lt_Some in Hlr.
  - by rewrite (list_lookup_total_correct _ _ _ Hlr).
Qed.

Lemma count_group (f : nat → bool) (s1 s0 : list nat) :
  (∀ i, i ∈ s1 → f i = false) → (∀ i, i ∈ s0 → f i = true) →
  length (filter (λ b, b = true) (f <$> (s1 ++ s0))) = length s0.
Proof.
  intros H1 H0. rewrite fmap_app, filter_app, length_app.
  assert (filter (λ b, b = true) (f <$> s1) = []) as ->.
  { induction s1 as [|i s1 IH]; [done|].
    rewrite fmap_cons, filter_cons_False.
    - apply IH. intros j Hj. apply H1. by right.
    - rewrite H1 by left. done. }
  rewrite filter_all, length_fmap; [done|].
  apply Forall_fmap, Forall_forall. intros i Hi. cbn. by apply H0.
Qed.

(** C1, amended: when the two sizes [int(alpha * n_train)] and
    [n_train - int(alpha * n_train)] can be drawn from the majority and
    the minority group and the minority fraction they give passes the
    last check, the call returns, and the table is then made of
    [int(alpha * n_train)] distinct rows of the majority group followed
    by the other distinct rows of the minority group: [n_train] rows, of
    which exactly the second part are minority rows, so that the minority
    fraction is within 0.001 of [1 - alpha] as the check computes it. *)
Theorem apply_alpha_samples_groups (alpha : F64.float) (n n_maj : Z)
    (self : IMDBWikiDataset) (w : World) (maj min : list nat) :
  majority_idxs self = Ok maj →
  minority_idxs self = Ok min →
  n ≠ 0%Z →
  majority_share alpha n = Ok n_maj →
  (0 ≤ n_maj ≤ Z.of_nat (length maj))%Z →
  (0 ≤ n - n_maj ≤ Z.of_nat (length min))%Z →
  ratio_within alpha (n - n_maj) n = Ok () →
  (∀ x, isin_keys (majority_group_keys self) x = true →
        isin_keys (minority_group_keys self) x = false) →
  ∃ (s1 s0 : list nat) (self' : IMDBWikiDataset) (w' : World)
    (min' : list nat),
    apply_alpha_to_dataset (Some alpha) (Some n) (self, w)
    = (Ok (), (self', w'))
    ∧ self' = set_anno {| columns := columns (anno self);
                          body := rows_at (anno self) (s1 ++ s0) |} self
    ∧ Z.of_nat (length s1) = n_maj
    ∧ Z.of_nat (length s0) = (n - n_maj)%Z
    ∧ NoDup s1 ∧ NoDup s0 ∧ s1 ⊆ maj ∧ s0 ⊆ min
    ∧ Z.of_nat (__len__ self') = n
    ∧ minority_idxs self' = Ok min'
    ∧ Z.of_nat (length min') = (n - n_maj)%Z
    ∧ ratio_within alpha (Z.of_nat (length min')) (Z.of_nat (__len__ self'))
      = Ok ().
Proof.
  intros Hmaj Hmin Hn Hshare Hnmaj Hnmin Hratio Hkeys.
  destruct (group_idxs_inv _ _ _ Hmaj) as [Hcol Hmaj'].
  destruct (group_idxs_inv _ _ _ Hmin) as [_ Hmin'].
  set (wp := printed [DebugSampling "n_maj" n_maj (length maj)
                        (majority_group_keys self);
                      DebugSampling "n_min" (n - n_maj) (length min)
                        (minority_group_keys self)] w).
  destruct (choice_draws maj n_maj wp) as (s1 & g1 & Hc1 & Hl1 & Hd1 & Hs1);
    [rewrite Hmaj'; apply argwhere_from_NoDup|done|].
  destruct (choice_draws min (n - n_maj) (set_np_rng g1 wp))
    as (s0 & g0 & Hc0 & Hl0 & Hd0 & Hs0);
    [rewrite Hmin'; apply argwhere_from_NoDup|done|].
  set (anno' := {| columns := columns (anno self);
                   body := rows_at (anno self) (s1 ++ s0) |}).
  assert (Forall (λ i, i < df_len (anno self)) (s1 ++ s0)) as Hbelow.
  { apply Forall_app. split; apply Forall_forall; intros i Hi.
    - apply Hs1 in Hi. rewrite Hmaj' in Hi. by apply group_member in Hi as [? ?].
    - apply Hs0 in Hi. rewrite Hmin' in Hi. by apply group_member in Hi as [? ?]. }
  assert (Z.of_nat (df_len anno') = n) as Hlen'.
  { unfold df_len, anno', rows_at. cbn [body].
    rewrite length_fmap, length_app. lia. }
  assert (minority_idxs (set_anno anno' self)
          = Ok (argwhere ((λ i, isin_keys (minority_group_keys self)
                            ((body (anno self) !!! i).2
                               !!! attribute_colname self))
                          <$> (s1 ++ s0)))) as Hmin''.
  { unfold minority_idxs, attributes. cbn [anno attribute_colname set_anno
      minority_group_keys]. rewrite getitem_ok by done. cbn [body anno'].
    unfold rows_at. cbn. by rewrite <-!list_fmap_compose. }
  assert (length (argwhere ((λ i, isin_keys (minority_group_keys self)
                            ((body (anno self) !!! i).2
                               !!! attribute_colname self))
                          <$> (s1 ++ s0))) = length s0) as Hcount.
  { unfold argwhere. rewrite argwhere_from_length. apply count_group.
    - intros i Hi. apply Hkeys. apply Hs1 in Hi. rewrite Hmaj' in Hi.
      by apply group_member in Hi as [? ?].
    - intros i Hi. apply Hs0 in Hi. rewrite Hmin' in Hi.
      by apply group_member in Hi as [? ?]. }
  exists s1, s0, (set_anno anno' self), (set_np_rng g0 (set_np_rng g1 wp)).
  eexists. split_and!; [|done|lia|lia|done|done|done|done|done|exact Hmin''| |].
  2:{ rewrite Hcount. lia. }
  2:{ rewrite Hcount. unfold __len__. cbn [anno set_anno].
      rewrite Hlen'.
      by replace (Z.of_nat (length s0)) with (n - n_maj)%Z by lia. }
  unfold apply_alpha_to_dataset.
  assert (truthy_int (Some n) = true) as ->
    by (cbn; by apply negb_true_iff, Z.eqb_neq).
  erewrite run_bind_ok; last first.
  { erewrite run_bind_ok; last by (unfold on_self; cbn [fst]; rewrite Hmaj).
    erewrite run_bind_ok; last by (unfold on_self; cbn [fst]; rewrite Hmin).
    erewrite run_bind_ok; last first.
    { unfold run_lift. by rewrite bool_decide_eq_true_2 by lia. }
    erewrite run_bind_ok; last first.
    { unfold run_lift. fold (majority_share alpha n). by rewrite Hshare. }
    done. }
  cbn beta iota zeta.
  erewrite run_bind_ok; last by (unfold on_self; cbn [fst]; rewrite Hmaj).
  erewrite run_bind_ok; last by (unfold on_self; cbn [fst]).
  erewrite run_bind_ok; last by (unfold on_world, print; cbn [fst snd]).
  erewrite run_bind_ok; last by (unfold on_self; cbn [fst]; rewrite Hmin).
  erewrite run_bind_ok; last by (unfold on_self; cbn [fst]).
  erewrite run_bind_ok; last by (unfold on_world, print; cbn [fst snd]).
  erewrite run_bind_ok; last by (unfold on_self; cbn [fst]; rewrite Hmaj).
  erewrite run_bind_ok; last first.
  { unfold on_world. cbn [fst snd].
    replace ({| np_rng := _; torch_rng := _; stdout := _ |}) with wp.
    - by rewrite Hc1.
    - unfold wp, printed. cbn. by rewrite <-(assoc_L (++)). }
  erewrite run_bind_ok; last by (unfold on_self; cbn [fst]; rewrite Hmin).
  erewrite run_bind_ok; last by (unfold on_world; cbn [fst snd]; rewrite Hc0).
  erewrite run_bind_ok; last first.
  { unfold on_self. cbn [fst]. by rewrite iloc_positions. }
  erewrite run_bind_ok; last by unfold assign_anno.
  cbn [fst snd]. fold anno'.
  erewrite run_bind_ok; last by unfold on_self.
  erewrite run_bind_ok; last first.
  { unfold run_lift. cbn [fst]. unfold __len__. cbn [anno set_anno].
    by rewrite bool_decide_eq_true_2 by lia. }
  erewrite run_bind_ok; last by unfold on_self.
  unfold run_lift. cbn [fst]. unfold __len__. cbn [anno set_anno].
  rewrite Hlen'. replace (Z.of_nat (length s0)) with (n - n_maj)%Z by lia.
  fold (ratio_within alpha (n - n_maj) n). by rewrite Hratio.
Qed.
End mixing.

(** ** The annotations of a partition (lfw_dataset.py) *)

Section partition.
Context `{Platform}.
Import LfwDataset.

Lemma zip_result_fmap {A B C D} (f : B → C → result D) (a : A → B)
    (b : A → C) (g : A → D) (l : list A) :
  (∀ x, x ∈ l → f (a x) (b x) = Ok (g x)) →
  zip_result f (a <$> l) (b <$> l) = Ok (g <$> l).
Proof.
  induction l as [|x l IH]; intros Hl; [done|].
  cbn. rewrite (Hl x) by left. cbn.
  rewrite IH; [done|]. intros y Hy. apply Hl. by right.
Qed.

Lemma boolean_index_fmap_both {A B} (p : A → bool) (f : A → B) (l : list A) :
  boolean_index (p <$> l) (f <$> l) = f <$> filter (λ x, p x) l.
Proof.
  induction l as [|x l IH]; [done|].
  rewrite !fmap_cons, filter_cons. cbn [boolean_index]. rewrite IH.
  destruct (p x); by case_decide.
Qed.

Lemma zip_with_fmap_both {A B C D} (f : B → C → D) (a : A → B) (b : A → C)
    (l : list A) :
  zip_with f (a <$> l) (b <$> l) = (λ x, f (a x) (b x)) <$> l.
Proof. induction l; cbn; congruence. Qed.

Lemma elem_of_add_column c c' cols :
  c' ∈ add_column c cols ↔ c' ∈ cols ∨ c' = c.
Proof.
  unfold add_column. case_decide.
  - split; [by left|]. by intros [?| ->].
  - rewrite elem_of_app, list_elem_of_singleton. done.
Qed.

Lemma getitem_mapped {A} cols (F : A → cell * row) (l : list A) c :
  c ∈ cols →
  getitem {| columns := cols; body := F <$> l |} c
  = Ok ((λ x, (F x).2 !!! c) <$> l).
Proof.
  intros Hc. rewrite getitem_ok by done. cbn [body].
  by rewrite <-list_fmap_compose.
Qed.

Lemma setitem_mapped {A} cols (F : A → cell * row) (l : list A) c
    (g : A → cell) :
  setitem {| columns := cols; body := F <$> l |} c (g <$> l)
  = {| columns := add_column c cols;
       body := (λ x, ((F x).1, <[c:=g x]> (F x).2)) <$> l |}.
Proof. unfold setitem. cbn [columns body]. by rewrite zip_with_fmap_both. Qed.

Lemma setitem_rows cols (rows : list (cell * row)) c
    (g : cell * row → cell) :
  setitem {| columns := cols; body := rows |} c (g <$> rows)
  = {| columns := add_column c cols;
       body := (λ lr, (lr.1, <[c:=g lr]> lr.2)) <$> rows |}.
Proof. unfold setitem. cbn [columns body]. by rewrite zip_with_fmap_r. Qed.

Lemma relabel_rows_snd rows : relabel rows = relabel_rows (snd <$> rows).
Proof. unfold relabel, relabel_rows. by rewrite imap_fmap. Qed.

Lemma snd_relabel rows : snd <$> relabel rows = snd <$> rows.
Proof.
  unfold relabel. rewrite fmap_imap. apply list_eq. intros i.
  rewrite list_lookup_imap, list_lookup_fmap. by destruct (rows !! i).
Qed.

(** The part of [get_anno_df] after the threshold: the four columns are
    computed row by row, and the rows of the listed people are kept. *)
Lemma columns_then_partition (df partition_ids : DataFrame)
    (rest : DataFrame → result DataFrame) (fp : string) :
  (∀ anno_df, rest anno_df =
     (nums ← getitem anno_df "imagenum";
      strs ← mapM imagenum_str nums;
      let anno_df := setitem anno_df "imagenum_str" strs in
      people ← getitem anno_df "person";
      people ← mapM person_underscored people;
      let anno_df := setitem anno_df "person" people in
      p ← getitem anno_df "person";
      s ← getitem anno_df "imagenum_str";
      paths ← zip_result img_basepath p s;
      let anno_df := setitem anno_df "img_basepath" paths in
      closed ← getitem anno_df "Mouth_Closed";
      opened ← mapM one_minus closed;
      let anno_df := setitem anno_df "Mouth_Open" opened in
      partition_ids ← read_csv fp TAB;
      p ← getitem anno_df "person";
      let partition_idx := isin p (index_labels partition_ids) in
      df ← reset_index (select partition_idx anno_df);
      drop_column "index" df)) →
  read_csv fp TAB = Ok partition_ids →
  "index" ∉ columns df →
  "person" ∈ columns df → "imagenum" ∈ columns df →
  "Mouth_Closed" ∈ columns df →
  (∀ lr, lr ∈ body df →
         lr.2 !! "index" = None
         ∧ is_string (lr.2 !!! "person")
         ∧ is_number (lr.2 !!! "imagenum")
         ∧ is_number (lr.2 !!! "Mouth_Closed")) →
  ∃ out, rest df = Ok out
         ∧ body out
           = relabel_rows (derived <$> filter (λ r, listed partition_ids r)
                                              (snd <$> body df)).
Proof.
  intros Hrest Hread Hidx Hperson Hnum Hclosed Hrows. rewrite Hrest.
  destruct df as [cols rows]. cbn [columns body] in *.
  set (g1 := λ lr : cell * row, value (imagenum_str (lr.2 !!! "imagenum"))).
  set (g2 := λ lr : cell * row, person_of lr.2).
  set (g3 := λ lr : cell * row, value (img_basepath (g2 lr) (g1 lr))).
  set (g4 := λ lr : cell * row, value (one_minus (lr.2 !!! "Mouth_Closed"))).
  (* imagenum_str *)
  rewrite getitem_ok by done. cbn [mbind result_bind body].
  rewrite (mapM_fmap_ok _ g1).
  2:{ intros lr (_ & _ & Hn & _)%Hrows. unfold g1. cbn.
      by destruct (lr.2 !!! "imagenum"). }
  cbn [mbind result_bind]. cbn zeta.
  rewrite setitem_rows.
  (* person *)
  rewrite getitem_mapped by (apply elem_of_add_column; by left).
  cbn [mbind result_bind].
  rewrite (mapM_fmap_ok _ g2).
  2:{ intros lr (_ & Hs & _)%Hrows. cbn.
      rewrite lookup_total_insert_ne by done. unfold g2, person_of.
      by destruct (lr.2 !!! "person"). }
  cbn [mbind result_bind]. cbn zeta. rewrite setitem_mapped.
  (* img_basepath *)
  rewrite getitem_mapped by (rewrite !elem_of_add_column; auto).
  cbn [mbind result_bind].
  rewrite getitem_mapped by (rewrite !elem_of_add_column; auto).
  cbn [mbind result_bind].
  rewrite (zip_result_fmap _ _ _ g3).
  2:{ intros lr (_ & Hs & Hn & _)%Hrows. cbn.
      rewrite lookup_total_insert_eq, lookup_total_insert_ne by done.
      rewrite lookup_total_insert_eq. unfold g3, g2, g1, person_of.
      destruct (lr.2 !!! "person"); [|done|done].
      by destruct (lr.2 !!! "imagenum"). }
  cbn [mbind result_bind]. cbn zeta. rewrite setitem_mapped.
  (* Mouth_Open *)
  rewrite getitem_mapped by (rewrite !elem_of_add_column; auto).
  cbn [mbind result_bind].
  rewrite (mapM_fmap_ok _ g4).
  2:{ intros lr (_ & _ & _ & Hc)%Hrows. cbn.
      rewrite !lookup_total_insert_ne by done. unfold g4.
      by destruct (lr.2 !!! "Mouth_Closed"). }
  cbn [mbind result_bind]. cbn zeta. rewrite setitem_mapped.
  (* the partition *)
  rewrite Hread. cbn [mbind result_bind].
  rewrite getitem_mapped by (rewrite !elem_of_add_column; auto).
  cbn [mbind result_bind]. cbn zeta.
  unfold isin, select. cbn [columns body].
  rewrite <-list_fmap_compose, boolean_index_fmap_both.
  cbn [fst snd].
  eexists. split.
  { apply reset_then_drop; cbn [columns body].
    - rewrite !elem_of_add_column. intros [[[[?|?]|?]|?]|?]; done.
    - intros lr' (lr & -> & [_ Hin]%list_elem_of_filter)%list_elem_of_fmap.
      cbn [snd]. rewrite !lookup_insert_ne by done. by apply Hrows. }
  cbn [body].
  rewrite relabel_rows_snd. f_equal.
  rewrite filter_fmap, <-!list_fmap_compose.
  erewrite (list_filter_iff _ (λ x : cell * row, listed partition_ids x.2)).
  - done.
  - intros lr. unfold compose. cbn [snd].
    rewrite !lookup_total_insert_ne by done.
    by rewrite lookup_total_insert_eq.
Qed.

(** C2, amended: for a partition in {train, test}, [get_anno_df] returns
    the annotation rows that pass the label threshold, when one is given,
    and whose person, spaces replaced by underscores, is a label of the
    partition file; they come in the order of the annotation file, under
    fresh labels, with the columns [imagenum_str], [person],
    [img_basepath] and [Mouth_Open] computed. The table is taken to have
    no column called [index]. *)
Theorem partition_selects_listed_people (root_dir partition : string)
    (label_colname : string) (label_threshold : option F64.float)
    (raw partition_ids : DataFrame) :
  partition = "train" ∨ partition = "test" →
  read_csv (path_join root_dir "lfw_attributes_cleaned.txt") TAB = Ok raw →
  read_csv (partition_path root_dir partition) TAB = Ok partition_ids →
  "index" ∉ columns raw →
  "person" ∈ columns raw → "imagenum" ∈ columns raw →
  "Mouth_Closed" ∈ columns raw →
  (∀ lr, lr ∈ body raw →
         lr.2 !! "index" = None
         ∧ is_string (lr.2 !!! "person")
         ∧ is_number (lr.2 !!! "imagenum")
         ∧ is_number (lr.2 !!! "Mouth_Closed")) →
  (threshold_given label_threshold = true →
   label_colname ∈ columns raw
   ∧ ∀ lr, lr ∈ body raw → numeric (lr.2 !!! label_colname)) →
  ∃ out,
    get_anno_df root_dir partition label_colname label_threshold = Ok out
    ∧ body out
      = relabel_rows
          (derived <$> filter (λ r, kept label_threshold label_colname r
                                    ∧ listed partition_ids r)
                              (snd <$> body raw)).
Proof.
  intros Hpart Hraw Hids Hidx Hperson Hnum Hclosed Hrows Hthr.
  unfold get_anno_df. cbn zeta. rewrite Hraw. cbn [mbind result_bind].
  match goal with
  | |- context [mbind ?k _] => set (rest := k)
  end.
  assert (∀ df, "index" ∉ columns df →
                "person" ∈ columns df → "imagenum" ∈ columns df →
                "Mouth_Closed" ∈ columns df →
                (∀ lr, lr ∈ body df → ∃ lr', lr' ∈ body raw ∧ lr'.2 = lr.2) →
                ∃ out, rest df = Ok out
                       ∧ body out
                         = relabel_rows
                             (derived <$> filter (λ r, listed partition_ids r)
                                                 (snd <$> body df)))
    as Hrest.
  { intros df Hi Hp Hn Hc Hsub.
    apply (columns_then_partition df partition_ids rest
             (partition_path root_dir partition)); try done.
    - intros anno_df. unfold rest, partition_path.
      destruct Hpart as [-> | ->]; reflexivity.
    - intros lr (lr' & Hlr' & Heq)%Hsub. rewrite <-Heq.
      by apply Hrows. }
  destruct label_threshold as [t|]; cbn [kept threshold_given] in *.
  - destruct (F64.truthy t) eqn:Ht.
    + destruct (Hthr eq_refl) as [Hlabel Hnumeric].
      rewrite apply_thresh_filters; [|done|done| |done].
      2:{ intros lr Hlr. by apply Hrows. }
      cbn [mbind result_bind].
      destruct (Hrest {| columns := columns raw;
                         body := relabel (filter
                           (λ lr, meets t true (lr.2 !!! label_colname))
                           (body raw)) |}) as (out & Hout & Hbody);
        try done.
      { cbn [body]. intros lr (i & Hi)%list_elem_of_lookup_1.
        rewrite relabel_lookup in Hi.
        destruct (filter _ (body raw) !! i) as [lr'|] eqn:Hlr'; [|done].
        injection Hi as <-. exists lr'. split; [|done].
        apply list_elem_of_lookup_2 in Hlr'.
        by apply list_elem_of_filter in Hlr' as [_ ?]. }
      exists out. split; [done|]. rewrite Hbody. cbn [body].
      rewrite snd_relabel, !(filter_fmap _ snd), list_filter_filter.
      do 3 f_equal. apply list_filter_iff. intros lr. cbn. tauto.
    + cbn [mbind result_bind].
      destruct (Hrest raw) as (out & Hout & Hbody); try done.
      { intros lr Hlr. by exists lr. }
      exists out. split; [done|]. rewrite Hbody. do 2 f_equal.
      apply list_filter_iff. intros r. cbn. tauto.
  - cbn [mbind result_bind].
    destruct (Hrest raw) as (out & Hout & Hbody); try done.
    { intros lr Hlr. by exists lr. }
    exists out. split; [done|]. rewrite Hbody. do 2 f_equal.
    apply list_filter_iff. intros r. cbn. tauto.
Qed.
End partition.

(** * The code on concrete inputs *)

(** ** Arithmetic of the sizes *)

(** The double precision product scikit-learn floors agrees with the integer
    quotient of the model on the sizes checked. *)
Lemma train_size_in_double_agrees :
  forallb (λ n, bool_decide (n_train_in_double n = Ok ((9 * n) `div` 10)%Z))
          sizes_checked = true.
Proof. vm_compute. reflexivity. Qed.

(** The literals are the doubles Python reads. *)
Lemma literals_are_doubles :
  F64.lit_0_001 = S754_finite false 4611686018427388 (-62)
  ∧ F64.one = S754_finite false 4503599627370496 (-52)
  ∧ F64.to_int (F64.mul (Demo.f 7 10) (F64.of_Z_raw 10)) = Ok 7%Z.
Proof. vm_compute. done. Qed.

Lemma format_int_04_examples :
  format_int_04 7 = "0007" ∧ format_int_04 (-5) = "-005"
  ∧ format_int_04 12345 = "12345".
Proof. vm_compute. done. Qed.

Lemma path_join_examples :
  path_join "a" "/b" = "/b" ∧ path_join "a/" "b" = "a/b"
  ∧ path_join "" "b" = "b" ∧ path_join "a" "" = "a/"
  ∧ path_join (path_join "a" "b") "c" = "a/b/c".
Proof. vm_compute. done. Qed.

(** The keys of the two groups that [__init__] sets pick different cells. *)
Lemma default_keys_disjoint (x : cell) :
  isin_keys [1%Z] x = true → isin_keys [0%Z] x = false.
Proof.
  destruct x as [s|z|v]; cbn; [done| |].
  - rewrite !orb_false_r. intros Hz%bool_decide_eq_true.
    apply bool_decide_eq_false. lia.
  - rewrite !orb_false_r. by destruct v as [[]|[]| |[] m e].
Qed.

(** ** C1: the mixing ratio *)

Section mixing_examples.
Import Demo Samples.

(** C1, as the claim has it, fails: with [alpha = 0.5] and [n_train = 1]
    on one majority and one minority row the call draws no majority row
    and one minority row, and its last assertion fails on the fraction 1
    against 0.5; with [alpha = 1] and [n_train = 2] it asks the majority
    group for two rows and the draw is refused. *)
Lemma apply_alpha_raises_in_range :
  F64.leb F64.zero (f 1 2) = true ∧ F64.leb (f 1 2) F64.one = true
  ∧ (0 < 1 ≤ Z.of_nat (ImdbWiki.__len__ (imdb pair)))%Z
  ∧ (@ImdbWiki.apply_alpha_to_dataset (platform no_files)
       (Some (f 1 2)) (Some 1%Z) (imdb pair, world0)).1
    = Raise AssertionError
  ∧ (@ImdbWiki.apply_alpha_to_dataset (platform no_files)
       (Some (f 1 1)) (Some 2%Z) (imdb pair, world0)).1
    = Raise ValueError.
Proof. vm_compute. split_and!; (done || lia). Qed.

(** C1, amended, on one majority row, one minority row and one row of
    neither group, with [alpha = 0.5] and [n_train = 2]. *)
Lemma apply_alpha_samples_groups_witness :
  ∃ s1 s0 self' w' min',
    @ImdbWiki.apply_alpha_to_dataset (platform no_files)
      (Some (f 1 2)) (Some 2%Z) (imdb meta, world0) = (Ok (), (self', w'))
    ∧ self' = ImdbWiki.set_anno
                {| columns := columns meta;
                   body := rows_at meta (s1 ++ s0) |} (imdb meta)
    ∧ Z.of_nat (length s1) = 1%Z
    ∧ Z.of_nat (length s0) = (2 - 1)%Z
    ∧ NoDup s1 ∧ NoDup s0 ∧ s1 ⊆ [0] ∧ s0 ⊆ [1]
    ∧ Z.of_nat (ImdbWiki.__len__ self') = 2%Z
    ∧ ImdbWiki.minority_idxs self' = Ok min'
    ∧ Z.of_nat (length min') = (2 - 1)%Z
    ∧ ratio_within (f 1 2) (Z.of_nat (length min'))
        (Z.of_nat (ImdbWiki.__len__ self')) = Ok ().
Proof.
  apply (@apply_alpha_samples_groups (platform no_files)
           (f 1 2) 2 1 (imdb meta) world0 [0] [1]).
  - vm_compute. reflexivity.
  - vm_compute. reflexivity.
  - lia.
  - vm_compute. reflexivity.
  - cbn. lia.
  - cbn. lia.
  - vm_compute. reflexivity.
  - exact default_keys_disjoint.
Defined.
End mixing_examples.

(** ** C9, C7: errors of the IMDB-Wiki dataset *)

Section error_examples.
Import Demo Samples.

(** C9 on the three sample rows: [n_train] zero, missing, and three
    against two rows in the groups. *)
Lemma apply_alpha_errors_keep_table_witness :
  @ImdbWiki.apply_alpha_to_dataset (platform no_files)
    (Some (f 1 2)) (Some 0%Z) (imdb meta, world0)
  = (Raise NotImplementedError, (imdb meta, world0))
  ∧ @ImdbWiki.apply_alpha_to_dataset (platform no_files)
      (Some (f 1 2)) None (imdb meta, world0)
    = (Raise NotImplementedError, (imdb meta, world0))
  ∧ @ImdbWiki.apply_alpha_to_dataset (platform no_files)
      (Some (f 1 2)) (Some 3%Z) (imdb meta, world0)
    = (Raise AssertionError, (imdb meta, world0)).
Proof.
  split_and!.
  - apply (@apply_alpha_errors_keep_table (platform no_files)
             (f 1 2) (Some 0%Z) (imdb meta) world0). reflexivity.
  - apply (@apply_alpha_errors_keep_table (platform no_files)
             (f 1 2) None (imdb meta) world0). reflexivity.
  - apply (proj2 (@apply_alpha_errors_keep_table (platform no_files)
                    (f 1 2) (Some 3%Z) (imdb meta) world0) 3%Z [0] [1]).
    + reflexivity.
    + vm_compute. reflexivity.
    + vm_compute. reflexivity.
    + cbn. lia.
Defined.

(** C7 on the three sample rows: positions inside the table, and one
    outside. *)
Lemma get_attribute_annotations_handler_witness :
  @ImdbWiki.get_attribute_annotations (platform no_files) [0; 2]%Z
    (imdb meta, world0)
  = (Ok (Some [CInt 1; CFloat F64.nan]), (imdb meta, world0))
  ∧ @ImdbWiki.get_attribute_annotations (platform no_files) [0; 5]%Z
      (imdb meta, world0)
    = (Ok None,
       (imdb meta,
        @printed (platform no_files)
          [WarnFetch [0; 5]%Z IndexError; Breakpoint] world0)).
Proof.
  destruct (@get_attribute_annotations_handler (platform no_files)
              [0; 2]%Z (imdb meta) world0) as (Hvalues & _).
  destruct (@get_attribute_annotations_handler (platform no_files)
              [0; 5]%Z (imdb meta) world0) as (_ & Hraise & _ & Hrange).
  split.
  - apply (Hvalues [CInt 1; CInt 0; CFloat F64.nan]).
    + vm_compute. reflexivity.
    + repeat constructor; cbn; lia.
  - apply Hraise.
    apply (Hrange [CInt 1; CInt 0; CFloat F64.nan]).
    + vm_compute. reflexivity.
    + apply Exists_cons_tl, Exists_cons_hd. cbn. lia.
Defined.
End error_examples.

(** ** C3: the split *)

Section split_examples.
Import Demo SplitSamples.

(** C3, as the claim has it, fails: of two rows the train part holds one,
    which is half of them and not 0.9; and a table of one row is not
    split at all. *)
Lemma split_of_small_tables :
  df_len two = 2
  ∧ (∃ train,
       (@ImdbWiki.get_anno_df (platform (fs two)) "root" true (world two)).1
       = Ok train
       ∧ df_len train = 1)
  ∧ (@ImdbWiki.get_anno_df (platform (fs one)) "root" true (world one)).1
    = Raise ValueError.
Proof.
  split_and!.
  - reflexivity.
  - eexists. split; vm_compute; reflexivity.
  - vm_compute. reflexivity.
Qed.

(** C3, amended, on the table of two rows. *)
Lemma split_is_partition_witness :
  ∃ (train test : DataFrame) (ind_train ind_test : list nat),
    (∀ w, @ImdbWiki.get_anno_df (platform (fs two)) "root" true w
          = (Ok train, w))
    ∧ (∀ w, @ImdbWiki.get_anno_df (platform (fs two)) "root" false w
            = (Ok test, w))
    ∧ body train = rows_at (ImdbWiki.replace_all two) ind_train
    ∧ body test = rows_at (ImdbWiki.replace_all two) ind_test
    ∧ ind_train ++ ind_test ≡ₚ seq 0 (df_len two)
    ∧ NoDup (ind_train ++ ind_test)
    ∧ body train ++ body test ≡ₚ body (ImdbWiki.replace_all two)
    ∧ df_len train = (9 * df_len two) `div` 10
    ∧ df_len test = df_len two - (9 * df_len two) `div` 10.
Proof.
  apply (@split_is_partition (platform (fs two)) "root" two).
  - reflexivity.
  - vm_compute. lia.
Defined.
End split_examples.

(** ** C4: the pipelines *)

(** C4, as the claim has it, fails: the train selection of [get_transforms]
    with the flag unset is an assertion failure and no pipeline. *)
Lemma get_transforms_train_needs_normalize :
  ImdbWiki.get_transforms true false = Raise AssertionError.
Proof. reflexivity. Qed.

(** ** C5, C2: the LFW annotations *)

Section lfw_examples.
Import Demo LfwSamples.

(** C5 fails on a table that has a column called [index]: the only row
    meets the threshold, and it comes back without its [index] value 7
    and with its old label in a column [level_0], so what is returned is
    not the table of the rows that meet the threshold. *)
Lemma apply_thresh_loses_index_column :
  LfwDataset.apply_thresh indexed "x" (f 1 2) true
  = Ok (frame ["level_0"; "x"] [[CInt 0; CFloat (f 1 1)]])
  ∧ filter (λ lr : cell * row, meets (f 1 2) true (lr.2 !!! "x"))
           (body indexed) = body indexed
  ∧ LfwDataset.apply_thresh indexed "x" (f 1 2) true ≠ Ok indexed.
Proof. split_and!; [vm_compute; reflexivity..|discriminate]. Qed.

(** C2, as the claim has it, fails: Aaron Eckhart is in the train file,
    and his row is not returned when the threshold 0.5 is applied to the
    column [Smiling], where he has 0.25. *)
Lemma thresholded_person_is_not_returned :
  (∃ lr, lr ∈ body attributes_file
         ∧ listed train_file lr.2 = true)
  ∧ ∃ out, @LfwDataset.get_anno_df (platform fs) "lfw" "train" "Smiling"
             (Some (f 1 2)) = Ok out
           ∧ body out = [].
Proof.
  split.
  - eexists. split; [left|]. vm_compute. reflexivity.
  - eexists. split; vm_compute; reflexivity.
Qed.

(** C2, amended, on the sample files without a threshold. *)
Lemma partition_selects_listed_people_witness :
  ∃ out,
    @LfwDataset.get_anno_df (platform fs) "lfw" "train" "Smiling" None
    = Ok out
    ∧ body out
      = relabel_rows
          (@derived (platform fs)
             <$> filter (λ r, kept None "Smiling" r
                              ∧ listed train_file r)
                        (snd <$> body attributes_file)).
Proof.
  apply (@partition_selects_listed_people (platform fs) "lfw" "train"
           "Smiling" None attributes_file train_file).
  - by left.
  - reflexivity.
  - reflexivity.
  - vm_compute. intros Hin. repeat (apply elem_of_cons in Hin as [Hin|Hin];
      [discriminate Hin|]). by apply not_elem_of_nil in Hin.
  - do 0 right. left.
  - right. left.
  - right. right. left.
  - apply Forall_forall. repeat constructor; vm_compute; reflexivity.
  - intros Hthr. discriminate Hthr.
Defined.

(** The train partition of the sample files, computed. *)
Lemma train_partition_example :
  @LfwDataset.get_anno_df (platform fs) "lfw" "train" "Smiling" None
  = Ok train_anno.
Proof. vm_compute. reflexivity. Qed.
End lfw_examples.

(** ** C6, C10: items *)

Section item_examples.
Import Demo.

(** C10 on the first item of the sample train partition. *)
Lemma lfw_label_is_sign_test_witness :
  ∃ label : Z,
    @LfwDataset.__getitem__ (platform LfwSamples.fs)
      (LfwSamples.lfw (Some (f 1 2))) (IdxInt 0) LfwSamples.world
    = (Ok (LfwSamples.first_path, 0%Z, Int64Scalar label), LfwSamples.world)
    ∧ (label = 1%Z ↔ positive (LfwSamples.first_row.2 !!! "Smiling") = true)
    ∧ (label = 0%Z ↔ positive (LfwSamples.first_row.2 !!! "Smiling") = false)
    ∧ ∀ t, @LfwDataset.__getitem__ (platform LfwSamples.fs)
             (@with_threshold (platform LfwSamples.fs) t
                (LfwSamples.lfw (Some (f 1 2)))) (IdxInt 0)
             LfwSamples.world
           = @LfwDataset.__getitem__ (platform LfwSamples.fs)
               (LfwSamples.lfw (Some (f 1 2))) (IdxInt 0) LfwSamples.world.
Proof.
  apply (@lfw_label_is_sign_test (platform LfwSamples.fs)
           (LfwSamples.lfw (Some (f 1 2))) (IdxInt 0)
           LfwSamples.world LfwSamples.world LfwSamples.first_row
           "Aaron_Eckhart/Aaron_Eckhart_0001.jpg"
           LfwSamples.first_path LfwSamples.first_path).
  - unfold in_range. cbn. lia.
  - reflexivity.
  - do 5 right. left.
  - do 3 right. left.
  - vm_compute. reflexivity.
  - vm_compute. exact I.
  - reflexivity.
  - reflexivity.
Defined.

(** C6 on the sample datasets. *)
Lemma len_and_getitem_witness :
  ImdbWiki.__len__ (Samples.imdb Samples.meta) = 3
  ∧ LfwDataset.__len__ (LfwSamples.lfw None) = 1
  ∧ @ImdbWiki.__getitem__ (platform no_files) (Samples.imdb Samples.meta)
      (IdxTensor 1) world0
    = (Ok ("root/b.jpg", 1%Z,
           Float32Vector
             [F64.to_f32 (as_float (Samples.second_row.2 !!! "age"))]),
       world0)
  ∧ @LfwDataset.__getitem__ (platform LfwSamples.fs) (LfwSamples.lfw None)
      (IdxInt 0) LfwSamples.world
    = (Ok (LfwSamples.first_path, 0%Z,
           Int64Scalar
             (if positive (LfwSamples.first_row.2 !!! "Smiling")
              then 1 else 0)%Z),
       LfwSamples.world).
Proof.
  destruct (@len_and_getitem (platform no_files)) as (Hlen & _ & Himdb & _).
  destruct (@len_and_getitem (platform LfwSamples.fs))
    as (_ & Hlen' & _ & Hlfw).
  split_and!.
  - rewrite Hlen. reflexivity.
  - rewrite Hlen'. reflexivity.
  - apply (Himdb (Samples.imdb Samples.meta) (IdxTensor 1) world0 world0
             Samples.second_row "b.jpg" "root/b.jpg" "root/b.jpg").
    + unfold in_range. cbn. lia.
    + reflexivity.
    + left.
    + right. left.
    + vm_compute. reflexivity.
    + apply Forall_forall. repeat constructor; vm_compute; exact I.
    + reflexivity.
    + reflexivity.
  - apply (Hlfw (LfwSamples.lfw None) (IdxInt 0)
             LfwSamples.world LfwSamples.world LfwSamples.first_row
             "Aaron_Eckhart/Aaron_Eckhart_0001.jpg"
             LfwSamples.first_path LfwSamples.first_path).
    + unfold in_range. cbn. lia.
    + reflexivity.
    + do 5 right. left.
    + do 3 right. left.
    + vm_compute. reflexivity.
    + vm_compute. exact I.
    + reflexivity.
    + reflexivity.
Defined.
End item_examples.

(** * Further properties *)

(** ** Strings *)

Section string_facts.
Local Arguments String.append : simpl nomatch.

Lemma app_assoc_s (a b c : string) : (a +:+ b) +:+ c = a +:+ (b +:+ c).
Proof. induction a as [|x a IH]; cbn; congruence. Qed.

Lemma app_length_s (a b : string) :
  String.length (a +:+ b) = String.length a + String.length b.
Proof. induction a as [|x a IH]; cbn; congruence. Qed.

Lemma app_inv_head_s (a b c : string) : a +:+ b = a +:+ c → b = c.
Proof. induction a as [|x a IH]; cbn; [done|]. intros [= ?]. auto. Qed.

Lemma app_inv_length_s (a a' b b' : string) :
  String.length a = String.length a' → a +:+ b = a' +:+ b' → a = a' ∧ b = b'.
Proof.
  revert a'. induction a as [|x a IH]; intros [|y a']; cbn; try done.
  intros [= Hlen] [= -> Heq]. destruct (IH _ Hlen Heq) as [-> ->]. done.
Qed.

Lemma strip_prefix_app t s r : strip_prefix t s = Some r ↔ s = t +:+ r.
Proof.
  revert s. induction t as [|c t IH]; intros s; cbn.
  - split; [by intros [= ->]|by intros ->].
  - destruct s as [|d s]; [done|]. case_decide as Hcd.
    + subst d. rewrite IH. split; [by intros ->|by intros [= ->]].
    + split; [done|]. intros [= -> _]. done.
Qed.

Lemma take_exactly_app n class s m r :
  take_exactly n class s = Some (m, r)
  ↔ s = m +:+ r ∧ String.length m = n ∧ str_all class m = true.
Proof.
  revert s m r. induction n as [|n IH]; intros s m r; cbn.
  - split.
    + by intros [= <- <-].
    + intros (-> & Hlen & _). by destruct m.
  - destruct s as [|c s].
    { split; [done|]. intros (Hs & Hlen & _). by destruct m. }
    destruct (class c) eqn:Hc.
    + destruct (take_exactly n class s) as [[m' r']|] eqn:Hts; cbn.
      * apply IH in Hts as (-> & Hlen & Hall). split.
        -- intros [= <- <-]. cbn. rewrite Hc, Hall. auto.
        -- intros (Heq & Hlen' & Hall'). destruct m as [|c' m]; [done|].
           cbn in *. injection Heq as -> Heq. injection Hlen' as Hlen'.
           apply app_inv_length_s in Heq as [-> ->]; [done|congruence].
      * split; [done|]. intros (Heq & Hlen & Hall).
        destruct m as [|c' m]; [done|]. cbn in *.
        injection Heq as -> Heq. injection Hlen as Hlen.
        apply andb_true_iff in Hall as [_ Hall].
        assert (take_exactly n class s = Some (m, r)) as Hsome
          by (apply IH; auto).
        congruence.
    + split; [done|]. intros (Heq & Hlen & Hall).
      destruct m as [|c' m]; [done|]. cbn in *. injection Heq as -> Heq.
      rewrite Hc in Hall. done.
Qed.

Lemma str_take_drop k s : str_take k s +:+ str_drop k s = s.
Proof.
  revert s. induction k as [|k IH]; intros [|c s]; cbn; try done.
  by rewrite IH.
Qed.

Lemma str_take_run class k s :
  k ≤ run_length class s →
  String.length (str_take k s) = k ∧ str_all class (str_take k s) = true.
Proof.
  revert s. induction k as [|k IH]; intros s Hk; [by destruct s|].
  destruct s as [|c s]; cbn in *; [lia|].
  destruct (class c) eqn:Hc; [|lia].
  destruct (IH s ltac:(lia)) as [Hl Ha]. by rewrite Hl, Ha.
Qed.

Lemma run_length_app class p c r :
  str_all class p = true → class c = false →
  run_length class (p +:+ String c r) = String.length p.
Proof.
  intros Hp Hc. induction p as [|x p IH]; cbn in *; [by rewrite Hc|].
  apply andb_true_iff in Hp as [-> Hp]. by rewrite IH.
Qed.

Lemma str_take_app p r : str_take (String.length p) (p +:+ r) = p.
Proof.
  induction p as [|x p IH]; cbn; [by destruct r|]. by rewrite IH.
Qed.

Lemma str_drop_app p r : str_drop (String.length p) (p +:+ r) = r.
Proof. induction p as [|x p IH]; cbn; [done|]. by rewrite IH. Qed.

Lemma str_all_app class a b :
  str_all class (a +:+ b) = str_all class a && str_all class b.
Proof.
  induction a as [|x a IH]; cbn; [done|]. by rewrite IH, andb_assoc.
Qed.

Lemma longest_first_some {A} k s (continue : string → string → option A) r :
  longest_first k s continue = Some r →
  ∃ j, 1 ≤ j ≤ k ∧ continue (str_take j s) (str_drop j s) = Some r.
Proof.
  induction k as [|k IH]; cbn; [done|].
  destruct (continue _ _) as [r'|] eqn:Hc.
  - intros [= <-]. exists (S k). split; [lia|done].
  - intros (j & Hj & Hr)%IH. exists j. split; [lia|done].
Qed.

Lemma longest_first_skip {A} k j s (continue : string → string → option A) :
  j ≤ k →
  (∀ i, j < i ≤ k → continue (str_take i s) (str_drop i s) = None) →
  longest_first k s continue = longest_first j s continue.
Proof.
  intros Hjk Hnone. induction k as [|k IH]; [by replace j with 0 by lia|].
  destruct (decide (j = S k)) as [->|Hne]; [done|].
  cbn [longest_first]. rewrite Hnone by lia. apply IH; [lia|].
  intros i Hi. apply Hnone. lia.
Qed.
End string_facts.

(** ** File names of LFW (lfw_dataset.py) *)

Section filenames.
Context `{Platform}.
Local Arguments String.append : simpl nomatch.
Import LfwDataset.

Lemma lfw_regex_matches s p d :
  lfw_name s p d → re_match LFW_FILENAME_REGEX s = Some [p; d].
Proof.
  intros ([rest ->] & Hp & Hnd & Hlen & Hd).
  destruct d as [|c0 d']; [done|]. cbn in Hd.
  apply andb_true_iff in Hd as [Hc0 Hd'].
  assert (non_digit c0 = false) as Hc0' by (unfold non_digit; by rewrite Hc0).
  assert ("_"%char ≠ c0) as Hne by (intros <-; done).
  set (tail := d' +:+ ".jpg" +:+ rest).
  assert (p +:+ "_" +:+ String c0 d' +:+ ".jpg" +:+ rest
          = (p +:+ "_") +:+ String c0 tail) as Hs
    by (by rewrite app_assoc_s).
  unfold LFW_FILENAME_REGEX. cbn [re_match].
  rewrite Hs at 1. rewrite run_length_app; [|by rewrite str_all_app, Hnd|done].
  rewrite app_length_s. cbn [String.length].
  rewrite (longest_first_skip _ (String.length p)); [|lia|].
  2:{ intros i Hi. assert (i = String.length (p +:+ "_")) as ->
        by (rewrite app_length_s; cbn; lia).
      rewrite Hs, str_take_app, str_drop_app. cbn.
      by rewrite decide_False. }
  destruct p as [|x p]; [done|]. cbn [String.length longest_first].
  change (S (String.length p)) with (String.length (String x p)).
  rewrite str_take_app, str_drop_app.
  assert (strip_prefix "_" ("_" +:+ String c0 d' +:+ ".jpg" +:+ rest)
          = Some (String c0 d' +:+ ".jpg" +:+ rest)) as ->
    by (by apply strip_prefix_app).
  assert (take_exactly 4 is_digit (String c0 d' +:+ ".jpg" +:+ rest)
          = Some (String c0 d', ".jpg" +:+ rest)) as ->.
  { apply take_exactly_app. split_and!; [done|done|]. cbn. by rewrite Hc0. }
  assert (strip_prefix ".jpg" (".jpg" +:+ rest) = Some rest) as ->
    by (by apply strip_prefix_app).
  done.
Qed.

Lemma lfw_regex_groups s gs :
  re_match LFW_FILENAME_REGEX s = Some gs →
  ∃ p d, gs = [p; d] ∧ lfw_name s p d.
Proof.
  unfold LFW_FILENAME_REGEX. cbn [re_match].
  intros (j & Hj & Hcont)%longest_first_some.
  destruct (str_take_run non_digit j s) as [Hlen Hall]; [lia|].
  destruct (strip_prefix "_" (str_drop j s)) as [r1|] eqn:H1; [|done].
  apply strip_prefix_app in H1.
  destruct (take_exactly 4 is_digit r1) as [[d r2]|] eqn:H2; [|done].
  apply take_exactly_app in H2 as (-> & Hd & Hdall).
  destruct (strip_prefix ".jpg" r2) as [r3|] eqn:H3; [|done].
  apply strip_prefix_app in H3 as ->.
  cbn in Hcont. injection Hcont as <-.
  exists (str_take j s), d. split; [done|]. split_and!; try done.
  - exists r3. rewrite <-H1. by rewrite str_take_drop.
  - intros Hnil. rewrite Hnil in Hlen. cbn in Hlen. lia.
Qed.

(** X1: The two helpers return the person and the image number of an ASCII
    file name exactly when its base name is a person without digits, an
    underscore, four digits and [.jpg], whatever follows; then they
    return these two parts, and otherwise [None]. *)
Theorem extract_from_filename_parts (x p d : string) :
  str_all is_ascii x = true →
  extract_person_from_filename x = Some p
  ∧ extract_imagenum_from_filename x = Some d
  ↔ lfw_name (basename x) p d.
Proof.
  intros _.
  unfold extract_person_from_filename, extract_imagenum_from_filename.
  cbn zeta. split.
  - intros [Hp Hd].
    destruct (re_match _ _) as [gs|] eqn:Hm; [|done].
    apply lfw_regex_groups in Hm as (p' & d' & -> & Hname).
    cbn in Hp, Hd. by simplify_eq.
  - intros Hname. by rewrite (lfw_regex_matches _ p d).
Qed.

(** Both helpers answer together: one is [None] exactly when the other
    is. *)
Lemma extract_both_or_none (x : string) :
  extract_person_from_filename x = None
  ↔ extract_imagenum_from_filename x = None.
Proof.
  unfold extract_person_from_filename, extract_imagenum_from_filename.
  cbn zeta. destruct (re_match _ _) as [gs|] eqn:Hm; [|done].
  by apply lfw_regex_groups in Hm as (p' & d' & -> & Hname).
Qed.

Lemma has_slash_app (a b : string) :
  has_slash (a +:+ b) = has_slash a || has_slash b.
Proof.
  induction a as [|c a IH]; cbn; [done|]. by rewrite IH, orb_assoc.
Qed.

Lemma basename_after_slash (pre y : string) :
  has_slash y = false → basename (pre +:+ String "/" y) = y.
Proof.
  intros Hy. induction pre as [|c pre IH]; cbn.
  - by rewrite Hy.
  - rewrite has_slash_app. cbn. by rewrite orb_true_r.
Qed.

Lemma digits_have_no_slash (s : string) :
  str_all is_digit s = true → has_slash s = false.
Proof.
  induction s as [|c s IH]; cbn; [done|].
  intros [Hc Hs]%andb_true_iff. rewrite IH by done.
  rewrite orb_false_r. apply bool_decide_eq_false. by intros ->.
Qed.

Lemma zeros_length n : String.length (zeros n) = n.
Proof. induction n; cbn; congruence. Qed.

Lemma zeros_digits n : str_all is_digit (zeros n) = true.
Proof. induction n; cbn; [done|]. done. Qed.

Lemma pretty_N_char_digit x : is_digit (pretty_N_char x) = true.
Proof. unfold pretty_N_char. by repeat case_match. Qed.

Lemma pretty_N_go_digits (x : N) (s : string) :
  str_all is_digit s = true → str_all is_digit (pretty_N_go x s) = true.
Proof.
  revert s. induction (N.lt_wf_0 x) as [x _ IH]. intros s Hs.
  destruct (decide (x = 0)%N) as [->|Hx]; [by rewrite pretty_N_go_0|].
  rewrite pretty_N_go_step by lia. apply IH.
  - apply N.div_lt; lia.
  - cbn [str_all]. by rewrite pretty_N_char_digit, Hs.
Qed.

Lemma pretty_N_go_length (k : nat) (x : N) (s : string) :
  (x < 10 ^ N.of_nat k)%N →
  String.length (pretty_N_go x s) ≤ k + String.length s.
Proof.
  revert x s. induction k as [|k IH]; intros x s Hx.
  - assert (x = 0%N) as -> by (cbn in Hx; lia).
    by rewrite pretty_N_go_0.
  - destruct (decide (x = 0)%N) as [->|Hx0].
    { rewrite pretty_N_go_0. lia. }
    rewrite pretty_N_go_step by lia.
    etrans; [apply IH|cbn; lia].
    apply N.Div0.div_lt_upper_bound.
    rewrite Nat2N.inj_succ, N.pow_succ_r' in Hx. lia.
Qed.

(** [f'{z:04}'] of a number of at most four digits is four digits. *)
Lemma format_int_04_digits (z : Z) :
  (0 ≤ z ≤ 9999)%Z →
  String.length (format_int_04 z) = 4
  ∧ str_all is_digit (format_int_04 z) = true.
Proof.
  intros Hz. unfold format_int_04. cbn zeta.
  rewrite decide_False by lia. rewrite Z.abs_eq by lia.
  assert (String.length (pretty z) ≤ 4
          ∧ str_all is_digit (pretty z) = true) as [Hlen Hall].
  { destruct z as [|q|q]; [|
    |lia].
    { change (pretty 0%Z) with "0". split; [cbn; lia|done]. }
    change (pretty (Z.pos q)) with (pretty (N.pos q)).
    unfold pretty, pretty_N. rewrite decide_False by done. split.
    - etrans; [apply (pretty_N_go_length 4)|done]. cbn. lia.
    - by apply pretty_N_go_digits. }
  rewrite app_length_s, zeros_length, str_all_app, zeros_digits, Hall.
  split; [lia|done].
Qed.

(** X2: The helpers recover what [get_anno_df] wrote: from the image path of
    an ASCII person without digits or slashes and an image number below
    10000, under any directory, they return this person and the padded
    number. *)
Theorem helpers_recover_written_names (dir person : string) (z : Z) :
  person ≠ "" → str_all is_ascii person = true →
  str_all non_digit person = true →
  has_slash person = false → (0 ≤ z ≤ 9999)%Z →
  ∃ n path,
    imagenum_str (CInt z) = Ok (CStr n)
    ∧ img_basepath (CStr person) (CStr n) = Ok (CStr path)
    ∧ extract_person_from_filename (path_join dir path) = Some person
    ∧ extract_imagenum_from_filename (path_join dir path) = Some n.
Proof.
  intros Hne _ Hnd Hslash Hz.
  destruct (format_int_04_digits z Hz) as [Hlen Hdig].
  eexists _, _. split; [done|]. split; [done|].
  set (n := format_int_04 z) in *.
  set (tail := person +:+ "_" +:+ n +:+ ".jpg").
  assert (has_slash tail = false) as Htail.
  { unfold tail. rewrite !has_slash_app, Hslash.
    by rewrite (digits_have_no_slash n). }
  assert (∃ pre, path_join dir (person +:+ "/" +:+ tail)
                 = pre +:+ String "/" tail) as [pre Hpre].
  { unfold path_join.
    assert (starts_with_slash (person +:+ "/" +:+ tail) = false) as ->.
    { destruct person as [|c person]; [done|]. cbn in *.
      by apply orb_false_iff in Hslash as [-> _]. }
    destruct (_ || _).
    - exists (dir +:+ person). by rewrite app_assoc_s.
    - exists (dir +:+ "/" +:+ person). by rewrite !app_assoc_s. }
  assert (re_match LFW_FILENAME_REGEX
            (basename (path_join dir (person +:+ "/" +:+ tail)))
          = Some [person; n]) as Hm.
  { rewrite Hpre, basename_after_slash by done.
    apply lfw_regex_matches. split_and!; try done.
    exists "". reflexivity. }
  unfold extract_person_from_filename, extract_imagenum_from_filename.
  cbn zeta. fold tail. by rewrite Hm.
Qed.
End filenames.

(** ** The table of a partition in full (lfw_dataset.py) *)

Section partition_table.
Context `{Platform}.
Import LfwDataset.

Lemma columns_then_partition_out (df : DataFrame)
    (rest : DataFrame → result DataFrame) (step : result DataFrame) :
  (∀ anno_df, rest anno_df =
     (nums ← getitem anno_df "imagenum";
      strs ← mapM imagenum_str nums;
      let anno_df := setitem anno_df "imagenum_str" strs in
      people ← getitem anno_df "person";
      people ← mapM person_underscored people;
      let anno_df := setitem anno_df "person" people in
      p ← getitem anno_df "person";
      s ← getitem anno_df "imagenum_str";
      paths ← zip_result img_basepath p s;
      let anno_df := setitem anno_df "img_basepath" paths in
      closed ← getitem anno_df "Mouth_Closed";
      opened ← mapM one_minus closed;
      let anno_df := setitem anno_df "Mouth_Open" opened in
      partition_ids ← step;
      p ← getitem anno_df "person";
      let partition_idx := isin p (index_labels partition_ids) in
      df ← reset_index (select partition_idx anno_df);
      drop_column "index" df)) →
  "index" ∉ columns df →
  "person" ∈ columns df → "imagenum" ∈ columns df →
  "Mouth_Closed" ∈ columns df →
  (∀ lr, lr ∈ body df →
         lr.2 !! "index" = None
         ∧ is_string (lr.2 !!! "person")
         ∧ is_number (lr.2 !!! "imagenum")
         ∧ is_number (lr.2 !!! "Mouth_Closed")) →
  rest df
  = (partition_ids ← step;
     Ok {| columns := lfw_columns (columns df);
           body := relabel_rows
                     (derived <$> filter (λ r, listed partition_ids r)
                                         (snd <$> body df)) |}).
Proof.
  intros Hrest Hidx Hperson Hnum Hclosed Hrows. rewrite Hrest.
  destruct df as [cols rows]. cbn [columns body] in *.
  set (g1 := λ lr : cell * row, value (imagenum_str (lr.2 !!! "imagenum"))).
  set (g2 := λ lr : cell * row, person_of lr.2).
  set (g3 := λ lr : cell * row, value (img_basepath (g2 lr) (g1 lr))).
  set (g4 := λ lr : cell * row, value (one_minus (lr.2 !!! "Mouth_Closed"))).
  (* imagenum_str *)
  rewrite getitem_ok by done. cbn [mbind result_bind body].
  rewrite (mapM_fmap_ok _ g1).
  2:{ intros lr (_ & _ & Hn & _)%Hrows. unfold g1. cbn.
      by destruct (lr.2 !!! "imagenum"). }
  cbn [mbind result_bind]. cbn zeta.
  rewrite setitem_rows.
  (* person *)
  rewrite getitem_mapped by (apply elem_of_add_column; by left).
  cbn [mbind result_bind].
  rewrite (mapM_fmap_ok _ g2).
  2:{ intros lr (_ & Hs & _)%Hrows. cbn.
      rewrite lookup_total_insert_ne by done. unfold g2, person_of.
      by destruct (lr.2 !!! "person"). }
  cbn [mbind result_bind]. cbn zeta. rewrite setitem_mapped.
  (* img_basepath *)
  rewrite getitem_mapped by (rewrite !elem_of_add_column; auto).
  cbn [mbind result_bind].
  rewrite getitem_mapped by (rewrite !elem_of_add_column; auto).
  cbn [mbind result_bind].
  rewrite (zip_result_fmap _ _ _ g3).
  2:{ intros lr (_ & Hs & Hn & _)%Hrows. cbn.
      rewrite lookup_total_insert_eq, lookup_total_insert_ne by done.
      rewrite lookup_total_insert_eq. unfold g3, g2, g1, person_of.
      destruct (lr.2 !!! "person"); [|done|done].
      by destruct (lr.2 !!! "imagenum"). }
  cbn [mbind result_bind]. cbn zeta. rewrite setitem_mapped.
  (* Mouth_Open *)
  rewrite getitem_mapped by (rewrite !elem_of_add_column; auto).
  cbn [mbind result_bind].
  rewrite (mapM_fmap_ok _ g4).
  2:{ intros lr (_ & _ & _ & Hc)%Hrows. cbn.
      rewrite !lookup_total_insert_ne by done. unfold g4.
      by destruct (lr.2 !!! "Mouth_Closed"). }
  cbn [mbind result_bind]. cbn zeta. rewrite setitem_mapped.
  (* the partition *)
  destruct step as [partition_ids|e]; [|done]. cbn [mbind result_bind].
  rewrite getitem_mapped by (rewrite !elem_of_add_column; auto).
  cbn [mbind result_bind]. cbn zeta.
  unfold isin, select. cbn [columns body].
  rewrite <-list_fmap_compose, boolean_index_fmap_both.
  cbn [fst snd].
  etrans.
  { apply reset_then_drop; cbn [columns body].
    - rewrite !elem_of_add_column. intros [[[[?|?]|?]|?]|?]; done.
    - intros lr' (lr & -> & [_ Hin]%list_elem_of_filter)%list_elem_of_fmap.
      cbn [snd]. rewrite !lookup_insert_ne by done. by apply Hrows. }
  cbn [columns body]. unfold lfw_columns. do 2 f_equal.
  rewrite relabel_rows_snd. f_equal.
  rewrite filter_fmap, <-!list_fmap_compose.
  erewrite (list_filter_iff _ (λ x : cell * row, listed partition_ids x.2)).
  - done.
  - intros lr. unfold compose. cbn [snd].
    rewrite !lookup_total_insert_ne by done.
    by rewrite lookup_total_insert_eq.
Qed.

(** [get_anno_df] on an annotation file it can read: the table is
    prepared, then the partition file decides. *)
Lemma get_anno_df_steps (root_dir partition label_colname : string)
    (label_threshold : option F64.float) (raw : DataFrame) :
  read_csv (path_join root_dir "lfw_attributes_cleaned.txt") TAB = Ok raw →
  lfw_table label_threshold label_colname raw →
  get_anno_df root_dir partition label_colname label_threshold
  = (partition_ids ← partition_file root_dir partition;
     Ok {| columns := lfw_columns (columns raw);
           body := relabel_rows
                     (lfw_rows label_threshold label_colname partition_ids
                               raw) |}).
Proof.
  intros Hraw (Hidx & Hperson & Hnum & Hclosed & Hrows & Hthr).
  unfold get_anno_df. cbn zeta. rewrite Hraw. cbn [mbind result_bind].
  match goal with
  | |- context [mbind ?k _] => set (rest := k)
  end.
  assert (∀ df, "index" ∉ columns df →
                "person" ∈ columns df → "imagenum" ∈ columns df →
                "Mouth_Closed" ∈ columns df →
                (∀ lr, lr ∈ body df → ∃ lr', lr' ∈ body raw ∧ lr'.2 = lr.2) →
                rest df
                = (partition_ids ← partition_file root_dir partition;
                   Ok {| columns := lfw_columns (columns df);
                         body := relabel_rows
                           (derived <$> filter (λ r, listed partition_ids r)
                                               (snd <$> body df)) |}))
    as Hrest.
  { intros df Hi Hp Hn Hc Hsub.
    rewrite (columns_then_partition_out df rest
               (partition_file root_dir partition)); try done.
    intros lr (lr' & Hlr' & Heq)%Hsub. rewrite <-Heq. by apply Hrows. }
  unfold lfw_rows.
  destruct label_threshold as [t|]; cbn [kept threshold_given] in *.
  - destruct (F64.truthy t) eqn:Ht.
    + destruct (Hthr eq_refl) as [Hlabel Hnumeric].
      rewrite apply_thresh_filters; [|done|done| |done].
      2:{ intros lr Hlr. by apply Hrows. }
      cbn [mbind result_bind]. rewrite Hrest; cbn [columns body]; try done.
      * destruct (partition_file root_dir partition) as [ids|e]; [|done].
        cbn [mbind result_bind]. do 3 f_equal.
        rewrite snd_relabel, !(filter_fmap _ snd), list_filter_filter.
        do 2 f_equal. apply list_filter_iff. intros lr. cbn. tauto.
      * intros lr (i & Hi)%list_elem_of_lookup_1.
        rewrite relabel_lookup in Hi.
        destruct (filter _ (body raw) !! i) as [lr'|] eqn:Hlr'; [|done].
        injection Hi as <-. exists lr'. split; [|done].
        apply list_elem_of_lookup_2 in Hlr'.
        by apply list_elem_of_filter in Hlr' as [_ ?].
    + cbn [mbind result_bind]. rewrite Hrest; try done.
      * destruct (partition_file root_dir partition) as [ids|e]; [|done].
        cbn [mbind result_bind].
        do 4 f_equal. apply list_filter_iff. intros r. cbn. tauto.
      * intros lr Hlr. by exists lr.
  - cbn [mbind result_bind]. rewrite Hrest; try done.
    + destruct (partition_file root_dir partition) as [ids|e]; [|done].
      cbn [mbind result_bind].
      do 4 f_equal. apply list_filter_iff. intros r. cbn. tauto.
    + intros lr Hlr. by exists lr.
Qed.

Lemma partition_file_named (root_dir partition : string) :
  partition = "train" ∨ partition = "test" →
  partition_file root_dir partition
  = read_csv (partition_path root_dir partition) TAB.
Proof. by intros [-> | ->]. Qed.

(** The table [get_anno_df] returns on an annotation file it can read. *)
Lemma get_anno_df_out (root_dir partition label_colname : string)
    (label_threshold : option F64.float) (raw partition_ids : DataFrame) :
  partition = "train" ∨ partition = "test" →
  read_csv (path_join root_dir "lfw_attributes_cleaned.txt") TAB = Ok raw →
  read_csv (partition_path root_dir partition) TAB = Ok partition_ids →
  lfw_table label_threshold label_colname raw →
  get_anno_df root_dir partition label_colname label_threshold
  = Ok {| columns := lfw_columns (columns raw);
          body := relabel_rows
                    (lfw_rows label_threshold label_colname partition_ids
                              raw) |}.
Proof.
  intros Hpart Hraw Hids Htable.
  rewrite (get_anno_df_steps _ _ _ _ raw) by done.
  by rewrite partition_file_named, Hids.
Qed.

Lemma bind_raises {A B} (m : result A) (k : A → result B) :
  (∀ a, ∃ e, k a = Raise e) → ∃ e, (m ≫= k) = Raise e.
Proof. intros Hk. destruct m as [a|e]; [apply Hk|by exists e]. Qed.

(** X4: A partition other than train and test gets no table and no
    transforms: on a readable annotation file the answer is the
    [ValueError] of the code, and in no case a table. *)
Theorem other_partition_is_refused (root_dir partition : string)
    (label_colname : string) (label_threshold : option F64.float)
    (normalize : bool) :
  partition ≠ "train" → partition ≠ "test" →
  get_lfw_transforms partition normalize = Raise ValueError
  ∧ (∃ e, get_anno_df root_dir partition label_colname label_threshold
          = Raise e)
  ∧ ∀ raw,
      read_csv (path_join root_dir "lfw_attributes_cleaned.txt") TAB
      = Ok raw →
      lfw_table label_threshold label_colname raw →
      get_anno_df root_dir partition label_colname label_threshold
      = Raise ValueError.
Proof.
  intros Htrain Htest. split_and!.
  - unfold get_lfw_transforms. cbn zeta. by rewrite !decide_False by done.
  - unfold get_anno_df. cbn zeta.
    do 11 (apply bind_raises; intros ?).
    rewrite !decide_False by done. by exists ValueError.
  - intros raw Hraw Htable.
    rewrite (get_anno_df_steps _ _ _ _ raw) by done.
    unfold partition_file. by rewrite !decide_False by done.
Qed.
End partition_table.

(** ** What the table of a partition holds (lfw_dataset.py) *)

Section partition_rows.
Context `{Platform}.
Import LfwDataset.

Lemma derived_person r : derived r !!! "person" = person_of r.
Proof.
  unfold derived. cbn zeta. rewrite !lookup_total_insert_ne by done.
  by rewrite lookup_total_insert_eq.
Qed.

Lemma derived_imagenum_str r :
  derived r !!! "imagenum_str" = value (imagenum_str (r !!! "imagenum")).
Proof.
  unfold derived. cbn zeta. rewrite !lookup_total_insert_ne by done.
  by rewrite lookup_total_insert_eq.
Qed.

Lemma derived_img_basepath r :
  derived r !!! "img_basepath"
  = value (img_basepath (person_of r)
                        (value (imagenum_str (r !!! "imagenum")))).
Proof.
  unfold derived. cbn zeta. rewrite !lookup_total_insert_ne by done.
  by rewrite lookup_total_insert_eq.
Qed.

Lemma derived_mouth r :
  derived r !!! "Mouth_Open" = value (one_minus (r !!! "Mouth_Closed"))
  ∧ derived r !!! "Mouth_Closed" = r !!! "Mouth_Closed".
Proof.
  unfold derived. cbn zeta. split.
  - by rewrite lookup_total_insert_eq.
  - by rewrite !lookup_total_insert_ne by done.
Qed.

Lemma derived_other r c :
  c ≠ "Mouth_Open" → c ≠ "img_basepath" → c ≠ "person" →
  c ≠ "imagenum_str" → derived r !!! c = r !!! c.
Proof.
  intros. unfold derived. cbn zeta.
  by rewrite !lookup_total_insert_ne by done.
Qed.

Lemma replace_char_no_space s :
  str_all not_space (replace_char " " "_" s) = true.
Proof.
  induction s as [|c s IH]; [done|]. cbn. rewrite IH.
  case_decide as Hc; [done|]. unfold not_space.
  by rewrite bool_decide_eq_true_2.
Qed.

Lemma derived_consistent r :
  is_string (r !!! "person") → is_number (r !!! "imagenum") →
  is_number (r !!! "Mouth_Closed") → lfw_row_consistent (derived r).
Proof.
  intros Hp Hn Hc. unfold lfw_row_consistent.
  rewrite derived_person, derived_imagenum_str, derived_img_basepath.
  destruct (derived_mouth r) as [-> ->]. unfold person_of.
  destruct (r !!! "person") as [s| |]; [|done|done].
  destruct (r !!! "imagenum") as [|z|v]; [done| |].
  - eexists _, _. split_and!; [done|apply replace_char_no_space|done|done|].
    by destruct (r !!! "Mouth_Closed").
  - eexists _, _. split_and!; [done|apply replace_char_no_space|done|done|].
    by destruct (r !!! "Mouth_Closed").
Qed.

Lemma lfw_rows_elem label_threshold label_colname partition_ids raw r :
  r ∈ lfw_rows label_threshold label_colname partition_ids raw →
  ∃ lr, lr ∈ body raw ∧ r = derived lr.2
        ∧ kept label_threshold label_colname lr.2 = true
        ∧ listed partition_ids lr.2 = true.
Proof.
  unfold lfw_rows.
  intros (r0 & -> & [[Hk Hl] (lr & -> & Hlr)%list_elem_of_fmap]
            %list_elem_of_filter)%list_elem_of_fmap.
  exists lr. split_and!; [done|done| |]; by apply Is_true_true.
Qed.

Lemma relabel_rows_lookup (rs : list row) i l r :
  relabel_rows rs !! i = Some (l, r) ↔ l = CInt (Z.of_nat i) ∧ rs !! i = Some r.
Proof.
  unfold relabel_rows. rewrite list_lookup_imap.
  destruct (rs !! i) as [r'|]; cbn.
  - split; [by intros [= <- <-]|by intros [-> [= ->]]].
  - split; [done|by intros [_ ?]].
Qed.

Lemma filter_exclusive_length {A} (P Q : A → Prop)
    `{∀ x, Decision (P x)} `{∀ x, Decision (Q x)} (l : list A) :
  (∀ x, P x → Q x → False) →
  length (filter P l) + length (filter Q l) ≤ length l.
Proof.
  intros Hex. induction l as [|x l IH]; [done|].
  rewrite !filter_cons.
  destruct (decide (P x)) as [Hp|Hp], (decide (Q x)) as [Hq|Hq]; cbn;
    [by destruct (Hex x)|lia..].
Qed.

Lemma relabel_rows_length (rs : list row) :
  length (relabel_rows rs) = length rs.
Proof. unfold relabel_rows. by rewrite length_imap. Qed.

Lemma relabel_rows_elem (rs : list row) lr :
  lr ∈ relabel_rows rs → lr.2 ∈ rs.
Proof.
  intros (i & Hi)%list_elem_of_lookup_1. destruct lr as [l r].
  apply relabel_rows_lookup in Hi as [_ Hi].
  by apply list_elem_of_lookup_2 in Hi.
Qed.

(** X5: When the two partition files name different people, the train and
    the test table share no person, and together they have no more rows
    than the annotation file. *)
Theorem partitions_share_no_person (root_dir label_colname : string)
    (label_threshold : option F64.float)
    (raw train_ids test_ids : DataFrame) :
  read_csv (path_join root_dir "lfw_attributes_cleaned.txt") TAB = Ok raw →
  read_csv (path_join root_dir "peopleDevTrain.txt") TAB = Ok train_ids →
  read_csv (path_join root_dir "peopleDevTest.txt") TAB = Ok test_ids →
  lfw_table label_threshold label_colname raw →
  (∀ x, x ∈ index_labels train_ids → x ∈ index_labels test_ids → False) →
  ∃ train test,
    get_anno_df root_dir "train" label_colname label_threshold = Ok train
    ∧ get_anno_df root_dir "test" label_colname label_threshold = Ok test
    ∧ (∀ a b, a ∈ body train → b ∈ body test →
              a.2 !!! "person" ≠ b.2 !!! "person")
    ∧ length (body train) + length (body test) ≤ length (body raw).
Proof.
  intros Hraw Htrain Htest Htable Hdisjoint. eexists _, _. split_and!.
  - apply (get_anno_df_out _ _ _ _ raw train_ids); auto.
  - apply (get_anno_df_out _ _ _ _ raw test_ids); auto.
  - cbn [body]. intros a b Ha%relabel_rows_elem Hb%relabel_rows_elem Heq.
    apply lfw_rows_elem in Ha as (la & _ & Hra & _ & Hla).
    apply lfw_rows_elem in Hb as (lb & _ & Hrb & _ & Hlb).
    rewrite Hra, Hrb, !derived_person in Heq.
    unfold listed in Hla, Hlb.
    apply bool_decide_eq_true in Hla, Hlb. rewrite Heq in Hla.
    by apply (Hdisjoint (person_of lb.2)).
  - cbn [body]. rewrite !relabel_rows_length. unfold lfw_rows.
    rewrite !length_fmap.
    etrans; [apply filter_exclusive_length|by rewrite length_fmap].
    intros r [_ Ha] [_ Hb]. unfold listed in Ha, Hb.
    apply Is_true_true, bool_decide_eq_true in Ha, Hb.
    by apply (Hdisjoint (person_of r)).
Qed.

Lemma snd_relabel_rows (rs : list row) : snd <$> relabel_rows rs = rs.
Proof.
  unfold relabel_rows. rewrite fmap_imap. apply list_eq. intros i.
  rewrite list_lookup_imap. by destruct (rs !! i).
Qed.

Lemma lfw_table_without_threshold label_threshold label_colname raw :
  lfw_table label_threshold label_colname raw →
  lfw_table None label_colname raw.
Proof.
  intros (? & ? & ? & ? & ? & _). by split_and!.
Qed.

(** X6: A label threshold only removes rows: the rows of the table with the
    threshold are, in the same order, rows of the table without it, each
    of them passes the threshold test on the annotation file's value, and
    the columns are the same. *)
Theorem threshold_only_removes_rows (root_dir partition : string)
    (label_colname : string) (t : F64.float)
    (raw partition_ids : DataFrame) :
  partition = "train" ∨ partition = "test" →
  read_csv (path_join root_dir "lfw_attributes_cleaned.txt") TAB = Ok raw →
  read_csv (partition_path root_dir partition) TAB = Ok partition_ids →
  lfw_table (Some t) label_colname raw →
  ∃ every some,
    get_anno_df root_dir partition label_colname None = Ok every
    ∧ get_anno_df root_dir partition label_colname (Some t) = Ok some
    ∧ columns some = columns every
    ∧ (snd <$> body some) `sublist_of` (snd <$> body every)
    ∧ (F64.truthy t = false → some = every)
    ∧ (F64.truthy t = true →
       snd <$> body some
       = derived <$> filter (λ r, meets t true (r !!! label_colname))
                            (filter (λ r, listed partition_ids r)
                                    (snd <$> body raw))).
Proof.
  intros Hpart Hraw Hids Htable. eexists _, _. split_and!.
  - apply (get_anno_df_out _ _ _ _ raw partition_ids); try done.
    by eapply lfw_table_without_threshold.
  - by apply (get_anno_df_out _ _ _ _ raw partition_ids).
  - done.
  - cbn [body]. rewrite !snd_relabel_rows. unfold lfw_rows.
    apply fmap_sublist.
    erewrite (list_filter_iff _
      (λ r, kept (Some t) label_colname r
            ∧ (kept None label_colname r ∧ listed partition_ids r))).
    2:{ intros r. cbn. tauto. }
    rewrite <-list_filter_filter. apply sublist_filter.
  - intros Ht. do 2 f_equal. unfold lfw_rows. f_equal.
    apply list_filter_iff. intros r. cbn. by rewrite Ht.
  - intros Ht. cbn [body]. rewrite snd_relabel_rows. unfold lfw_rows.
    f_equal. rewrite list_filter_filter.
    apply list_filter_iff. intros r. cbn. rewrite Ht. tauto.
Qed.
End partition_rows.

(** ** The threshold filter on its own (lfw_dataset.py) *)

Section thresholds.
Import LfwDataset.

Lemma mapM_raises {A B} (f : A → result B) (e : exn) (l : list A) :
  (∀ x e', f x = Raise e' → e' = e) →
  (∃ x, x ∈ l ∧ ∃ e', f x = Raise e') →
  mapM f l = Raise e.
Proof.
  intros Honly. induction l as [|x l IH]; intros (y & Hy & e' & He').
  { by apply not_elem_of_nil in Hy. }
  cbn [mapM]. destruct (f x) as [b|e''] eqn:Hx.
  - apply elem_of_cons in Hy as [->|Hy]; [congruence|].
    cbn. rewrite IH; [done|]. exists y. split; [done|]. by exists e'.
  - cbn. f_equal. by apply (Honly x).
Qed.

Lemma fst_relabel (rows : list (cell * row)) :
  fst <$> relabel rows
  = (λ i, CInt (Z.of_nat i)) <$> seq 0 (length rows).
Proof.
  apply list_eq. intros i.
  rewrite !list_lookup_fmap, relabel_lookup.
  destruct (rows !! i) as [lr|] eqn:Hi; cbn.
  - apply lookup_lt_Some in Hi as Hlt.
    by rewrite lookup_seq_lt by done.
  - apply lookup_ge_None in Hi. by rewrite lookup_seq_ge by done.
Qed.

Lemma relabel_relabel (rows : list (cell * row)) :
  relabel (relabel rows) = relabel rows.
Proof.
  apply list_eq. intros i. rewrite !relabel_lookup.
  by destruct (rows !! i).
Qed.

Lemma relabel_elem (rows : list (cell * row)) lr :
  lr ∈ relabel rows → ∃ lr', lr' ∈ rows ∧ lr.2 = lr'.2.
Proof.
  intros (i & Hi)%list_elem_of_lookup_1. rewrite relabel_lookup in Hi.
  destruct (rows !! i) as [lr'|] eqn:Hlr'; [|done].
  injection Hi as <-. exists lr'. split; [|done].
  by eapply list_elem_of_lookup_2.
Qed.

(** X7: On a table without a column [index], [apply_thresh] returns the rows
    that pass the test, in their order, under the labels 0, 1, ... and
    the same columns; applied to its own result it changes nothing. *)
Theorem apply_thresh_settles (df : DataFrame) (colname : string)
    (thresh : F64.float) (use_abs : bool) :
  colname ∈ columns df →
  "index" ∉ columns df →
  (∀ lr, lr ∈ body df → lr.2 !! "index" = None) →
  (∀ lr, lr ∈ body df → numeric (lr.2 !!! colname)) →
  ∃ out,
    apply_thresh df colname thresh use_abs = Ok out
    ∧ columns out = columns df
    ∧ snd <$> body out
      = filter (λ r, meets thresh use_abs (r !!! colname)) (snd <$> body df)
    ∧ fst <$> body out
      = (λ i, CInt (Z.of_nat i)) <$> seq 0 (length (body out))
    ∧ apply_thresh out colname thresh use_abs = Ok out.
Proof.
  intros Hcol Hidx Hrows Hnum. eexists. split.
  { by apply apply_thresh_filters. }
  cbn [columns body]. split_and!.
  - done.
  - by rewrite snd_relabel, filter_fmap.
  - by rewrite relabel_length, fst_relabel.
  - rewrite apply_thresh_filters; cbn [columns body]; try done.
    + do 2 f_equal. rewrite filter_all; [apply relabel_relabel|].
      apply Forall_forall.
      intros lr (lr' & [Hm _]%list_elem_of_filter & ->)%relabel_elem.
      done.
    + intros lr (lr' & [_ Hin]%list_elem_of_filter & ->)%relabel_elem.
      by apply Hrows.
    + intros lr (lr' & [_ Hin]%list_elem_of_filter & ->)%relabel_elem.
      by apply Hnum.
Qed.

(** X8: How [apply_thresh] fails: [KeyError] for a column the table has not,
    [TypeError] when the column holds a string, and [ValueError] when the
    table has both a column [index] and a column [level_0]. *)
Theorem apply_thresh_refusals (df : DataFrame) (colname : string)
    (thresh : F64.float) (use_abs : bool) :
  (colname ∉ columns df →
   apply_thresh df colname thresh use_abs = Raise KeyError)
  ∧ (colname ∈ columns df →
     (∃ lr, lr ∈ body df ∧ is_string (lr.2 !!! colname)) →
     apply_thresh df colname thresh use_abs = Raise TypeError)
  ∧ (colname ∈ columns df →
     (∀ lr, lr ∈ body df → numeric (lr.2 !!! colname)) →
     "index" ∈ columns df → "level_0" ∈ columns df →
     apply_thresh df colname thresh use_abs = Raise ValueError).
Proof.
  unfold apply_thresh. split_and!.
  - intros Hcol. by rewrite getitem_missing.
  - intros Hcol (lr & Hlr & Hstr). rewrite getitem_ok by done.
    cbn [mbind result_bind].
    assert (∃ x, x ∈ (λ lr : cell * row, lr.2 !!! colname) <$> body df
                 ∧ is_string x) as (x & Hx & Hsx).
    { exists (lr.2 !!! colname). split; [|done].
      apply list_elem_of_fmap. by exists lr. }
    destruct use_abs.
    + rewrite (mapM_raises cell_abs TypeError); [done| |].
      * intros [s|z|v] e'; cbn; congruence.
      * exists x. split; [done|]. destruct x; [|done..]. by eexists.
    + rewrite (mapM_raises (cell_ge thresh) TypeError); [done| |].
      * intros [s|z|v] e'; cbn; congruence.
      * exists x. split; [done|]. destruct x; [|done..]. by eexists.
  - intros Hcol Hnum Hindex Hlevel. rewrite getitem_ok by done.
    cbn [mbind result_bind].
    pose proof (threshold_mask df colname thresh use_abs Hnum) as Hmask.
    cbn zeta in Hmask. rewrite Hmask. cbn [mbind result_bind].
    unfold reset_index, select. cbn [columns].
    rewrite (decide_True (P := "index" ∈ columns df)) by done.
    by rewrite decide_True.
Qed.

(** X9: A table that has a column [index], and no column [level_0], comes
    back without its column [index]: the old labels are kept under
    [level_0], and the column that was called [index] is dropped. *)
Theorem apply_thresh_drops_index_column (df : DataFrame) (colname : string)
    (thresh : F64.float) (use_abs : bool) :
  colname ∈ columns df →
  (∀ lr, lr ∈ body df → numeric (lr.2 !!! colname)) →
  "index" ∈ columns df → "level_0" ∉ columns df →
  ∃ out,
    apply_thresh df colname thresh use_abs = Ok out
    ∧ columns out = "level_0" :: filter (λ c, c ≠ "index") (columns df)
    ∧ ("index" ∉ columns out)
    ∧ ∀ lr, lr ∈ body out → lr.2 !! "index" = None.
Proof.
  intros Hcol Hnum Hindex Hlevel. unfold apply_thresh.
  rewrite getitem_ok by done. cbn [mbind result_bind].
  pose proof (threshold_mask df colname thresh use_abs Hnum) as Hmask.
  cbn zeta in Hmask. rewrite Hmask. cbn [mbind result_bind].
  unfold reset_index, select. cbn [columns body].
  rewrite (decide_True (P := "index" ∈ columns df)) by done.
  rewrite decide_False by done. cbn [mbind result_bind].
  unfold drop_column. cbn [columns body].
  rewrite decide_True by (by right).
  eexists. split; [done|]. cbn [columns body]. split_and!.
  - by rewrite filter_cons_True by done.
  - intros [?|[Hne _]%list_elem_of_filter]%elem_of_cons; done.
  - intros lr (lr' & -> & _)%list_elem_of_fmap. cbn.
    apply lookup_delete_eq.
Qed.
End thresholds.

(** ** Attribute annotations of LFW (lfw_dataset.py) *)

Section lfw_annotations.
Import LfwDataset.






(** X11: A dataset without a threshold has no annotations to give: asked for
    at least one position of the table it raises [TypeError], and it
    never returns more than the empty series. *)
Theorem lfw_annotations_need_threshold (self : LFWDataset)
    (idxs : list Z) :
  threshold self = None →
  (∀ out, get_attribute_annotations self idxs = Ok out → out = [])
  ∧ (attribute_colname self ∈ columns (anno self) →
     get_attribute_annotations self [] = Ok [])
  ∧ (attribute_colname self ∈ columns (anno self) →
     idxs ≠ [] → Forall (in_range (__len__ self)) idxs →
     get_attribute_annotations self idxs = Raise TypeError).
Proof.
  intros Ht. unfold get_attribute_annotations. rewrite Ht. split_and!.
  - intros out. destruct (iloc _ _) as [rows|]; [|done].
    cbn [mbind result_bind].
    destruct (getitem rows _) as [vals|]; [|done].
    cbn [mbind result_bind].
    destruct (zip _ vals) as [|lx l]; [|done].
    cbn. by intros [= <-].
  - intros Hcol. cbn. unfold getitem. cbn. by rewrite decide_True.
  - intros Hcol Hne Hidx. unfold iloc.
    rewrite mapM_take_at_in_range by done. cbn [mbind result_bind].
    rewrite getitem_ok by done. cbn [mbind result_bind body].
    destruct idxs as [|i idxs]; [done|]. done.
Qed.
End lfw_annotations.

(** ** Items at the edges of the table (both files) *)

Section item_edges.
Context `{Platform}.

Lemma take_at_from_end {A} (l : list A) (z : Z) :
  (- Z.of_nat (length l) ≤ z < 0)%Z →
  take_at l z = take_at l (Z.of_nat (length l) + z).
Proof.
  intros Hz. unfold take_at, position.
  rewrite (decide_False (P := (0 ≤ z < _)%Z)) by lia.
  rewrite decide_True by lia.
  by rewrite (decide_True (P := (0 ≤ _ + z < _)%Z)) by lia.
Qed.

Lemma getitem_length df c col :
  getitem df c = Ok col → length col = df_len df.
Proof.
  unfold getitem. case_decide; [|done]. intros [= <-].
  by rewrite length_fmap.
Qed.

(** X13: An index outside the table, on either side, is an [IndexError] for
    both datasets, before any image is loaded: the world is as it was. *)
Theorem getitem_outside_table :
  (∀ (self : ImdbWiki.IMDBWikiDataset) i w,
     ImdbWiki.fp_colname self ∈ columns (ImdbWiki.anno self) →
     (tolist i < - Z.of_nat (ImdbWiki.__len__ self)
      ∨ Z.of_nat (ImdbWiki.__len__ self) ≤ tolist i)%Z →
     ImdbWiki.__getitem__ self i w = (Raise IndexError, w))
  ∧ (∀ (self : LfwDataset.LFWDataset) i w,
       "img_basepath" ∈ columns (LfwDataset.anno self) →
       (tolist i < - Z.of_nat (LfwDataset.__len__ self)
        ∨ Z.of_nat (LfwDataset.__len__ self) ≤ tolist i)%Z →
       LfwDataset.__getitem__ self i w = (Raise IndexError, w)).
Proof.
  split.
  - intros self i w Hcol Hi. unfold ImdbWiki.__getitem__. cbn zeta.
    apply run_bind_raise. unfold run_lift, ImdbWiki.filepaths.
    rewrite getitem_ok by done. cbn [mbind result_bind].
    rewrite take_at_out_of_range; [done|].
    rewrite length_fmap. done.
  - intros self i w Hcol Hi. unfold LfwDataset.__getitem__. cbn zeta.
    apply run_bind_raise. unfold run_lift.
    rewrite getitem_ok by done. cbn [mbind result_bind].
    rewrite take_at_out_of_range; [done|].
    rewrite length_fmap. done.
Qed.

(** X14: A negative index inside the table counts from the end: the item is
    the one at the length plus the index, and the sample carries the
    index as it was given, for both datasets. *)
Theorem getitem_counts_from_the_end :
  (∀ (self : ImdbWiki.IMDBWikiDataset) i j w,
     (- Z.of_nat (ImdbWiki.__len__ self) ≤ tolist i < 0)%Z →
     tolist j = (Z.of_nat (ImdbWiki.__len__ self) + tolist i)%Z →
     ImdbWiki.__getitem__ self i w
     = reindexed (tolist i) (ImdbWiki.__getitem__ self j w))
  ∧ (∀ (self : LfwDataset.LFWDataset) i j w,
       (- Z.of_nat (LfwDataset.__len__ self) ≤ tolist i < 0)%Z →
       tolist j = (Z.of_nat (LfwDataset.__len__ self) + tolist i)%Z →
       LfwDataset.__getitem__ self i w
       = reindexed (tolist i) (LfwDataset.__getitem__ self j w)).
Proof.
  split.
  - intros self i j w Hi Hj.
    unfold ImdbWiki.__getitem__, reindexed. cbn zeta. rewrite Hj.
    unfold ImdbWiki.__len__ in *.
    set (z := tolist i) in *. set (n := df_len (ImdbWiki.anno self)) in *.
    unfold run_bind, run_lift, run_ret.
    destruct (ImdbWiki.filepaths self) as [paths|e] eqn:Hpaths; [|done].
    apply getitem_length in Hpaths. fold n in Hpaths.
    cbn [mbind result_bind].
    rewrite (take_at_from_end paths z) by (rewrite Hpaths; lia).
    rewrite Hpaths.
    destruct (take_at paths _) as [c|e]; [|done]. cbn [mbind result_bind].
    destruct (ImdbWiki.join_cell _ c) as [fp|e]; [|done].
    destruct (default_loader fp) as [img|e]; [|done].
    destruct (ImdbWiki.targets self) as [t|e] eqn:Ht; [|done].
    assert (length t = n) as Hlen.
    { unfold ImdbWiki.targets in Ht.
      destruct (getitem _ _) as [col|] eqn:Hcol; [|done].
      cbn in Ht. apply mapM_ok_length in Ht.
      apply getitem_length in Hcol. unfold n. lia. }
    cbn [mbind result_bind].
    rewrite (take_at_from_end t z) by (rewrite Hlen; lia).
    rewrite Hlen.
    destruct (take_at t _) as [v|e]; [|done]. cbn [mbind result_bind].
    by destruct (call_compose _ img w) as [[img'|e] w'].
  - intros self i j w Hi Hj.
    unfold LfwDataset.__getitem__, reindexed. cbn zeta. rewrite Hj.
    unfold LfwDataset.__len__ in *.
    set (z := tolist i) in *. set (n := df_len (LfwDataset.anno self)) in *.
    unfold run_bind, run_lift, run_ret.
    destruct (getitem _ "img_basepath") as [paths|e] eqn:Hpaths; [|done].
    apply getitem_length in Hpaths. fold n in Hpaths.
    cbn [mbind result_bind].
    rewrite (take_at_from_end paths z) by (rewrite Hpaths; lia).
    rewrite Hpaths.
    destruct (take_at paths _) as [c|e]; [|done]. cbn [mbind result_bind].
    destruct (LfwDataset.cell_path _ _ c) as [fp|e]; [|done].
    destruct (default_loader fp) as [img|e]; [|done].
    rewrite (take_at_from_end (body (LfwDataset.anno self)) z)
      by (unfold n, df_len in Hi; lia).
    change (length (body (LfwDataset.anno self))) with n.
    destruct (take_at (body _) _) as [r|e]; [|done].
    cbn [mbind result_bind].
    destruct (decide _) as [Hin|Hout]; [|done].
    destruct (LfwDataset.hard_label _) as [l|e]; [|done].
    by destruct (LfwDataset.run_transform _ img w) as [[img'|e] w'].
Qed.
End item_edges.

(** ** A dataset built from the files serves its items (lfw_dataset.py) *)

Section lfw_built.
Context `{Platform}.
Import LfwDataset.

(** X12: Built from files it can read, the LFW dataset has an item at every
    position: its image is the one at the path made of the root, the
    image directory, the person and the padded image number, its label
    is 0 or 1, and fetching it can only fail where loading the image or
    the transform fails. *)
Theorem lfw_built_dataset_serves_items
    (root target attribute : string) (label_threshold : option F64.float)
    (tr : option Compose) (partition sub : string)
    (raw partition_ids : DataFrame) :
  partition = "train" ∨ partition = "test" →
  read_csv (path_join root "lfw_attributes_cleaned.txt") TAB = Ok raw →
  read_csv (partition_path root partition) TAB = Ok partition_ids →
  lfw_table label_threshold target raw →
  target ∈ columns raw →
  (∀ lr, lr ∈ body raw → is_number (lr.2 !!! target)) →
  target ∉ ["Mouth_Open"; "img_basepath"; "person"; "imagenum_str"] →
  ∃ self,
    __init__ root target attribute label_threshold tr partition sub
    = Ok self
    ∧ __len__ self
      = length (lfw_rows label_threshold target partition_ids raw)
    ∧ ∀ i : nat, i < __len__ self →
        ∃ (p n : string) (label : Z),
          let path := path_join (path_join root sub)
                        (p +:+ "/" +:+ p +:+ "_" +:+ n +:+ ".jpg") in
          (label = 0 ∨ label = 1)%Z
          ∧ (∀ w e, default_loader path = Raise e →
                    __getitem__ self (IdxInt (Z.of_nat i)) w = (Raise e, w))
          ∧ (∀ w img img' w',
               default_loader path = Ok img →
               run_transform tr img w = (Ok img', w') →
               __getitem__ self (IdxInt (Z.of_nat i)) w
               = (Ok (img', Z.of_nat i, Int64Scalar label), w')).
Proof.
  intros Hpart Hraw Hids Htable Htarget Hnum Hfresh.
  unfold __init__.
  rewrite (get_anno_df_out _ _ _ _ raw partition_ids) by done.
  cbn [mbind result_bind]. eexists. split; [done|].
  unfold __len__, df_len. cbn [anno body]. rewrite relabel_rows_length.
  split; [done|]. intros i Hi.
  destruct (lookup_lt_is_Some_2 _ _ Hi) as [r Hr].
  destruct (lfw_rows_elem _ _ _ _ _ (list_elem_of_lookup_2 _ _ _ Hr))
    as (lr & Hlr & -> & _ & _).
  destruct Htable as (_ & _ & _ & _ & Hrows & _).
  destruct (Hrows lr Hlr) as (_ & Hp & Hn & Hc).
  destruct (derived_consistent lr.2 Hp Hn Hc)
    as (p & n & _ & _ & _ & Hpath & _).
  assert (derived lr.2 !!! target = lr.2 !!! target) as Htv.
  { apply derived_other; intros ->; apply Hfresh;
      repeat (first [by left | right]). }
  set (soft := lr.2 !!! target).
  exists p, n, (if positive soft then 1 else 0)%Z. cbn zeta.
  assert (relabel_rows
            (lfw_rows label_threshold target partition_ids raw) !! i
          = Some (CInt (Z.of_nat i), derived lr.2)) as Hrow
    by (by apply relabel_rows_lookup).
  split_and!.
  - destruct (positive soft); auto.
  - intros w e He. unfold __getitem__. cbn zeta.
    cbn [anno root_dir image_subdirectory tolist].
    erewrite run_bind_ok; last first.
    { unfold run_lift. rewrite getitem_ok; last first.
      { cbn [columns]. unfold lfw_columns. rewrite !elem_of_add_column.
        auto. }
      cbn [mbind result_bind body].
      erewrite take_at_lookup; [| |by rewrite Nat2Z.id, list_lookup_fmap, Hrow].
      - cbn [mbind result_bind snd]. rewrite Hpath. done.
      - rewrite length_fmap, relabel_rows_length. unfold in_range. lia. }
    apply run_bind_raise. unfold run_lift. by rewrite He.
  - intros w img img' w' Himg Htr.
    unfold soft. rewrite <-Htv.
    match goal with
    | |- __getitem__ ?s _ _ = _ =>
        rewrite (lfw_getitem_row s (IdxInt (Z.of_nat i)) w w'
                   (CInt (Z.of_nat i), derived lr.2)
                   (p +:+ "/" +:+ p +:+ "_" +:+ n +:+ ".jpg") img img')
    end.
    + done.
    + cbn. lia.
    + cbn [tolist anno]. by rewrite Nat2Z.id.
    + cbn [anno columns]. unfold lfw_columns. rewrite !elem_of_add_column.
      auto.
    + cbn [anno columns target_colname]. unfold lfw_columns.
      rewrite !elem_of_add_column. auto.
    + done.
    + cbn [snd target_colname]. rewrite Htv. by apply Hnum.
    + done.
    + done.
Qed.
End lfw_built.

(** ** The IMDB-Wiki table and its groups (imdb_wiki.py) *)

Section imdb_table.
Context `{Platform}.
Import ImdbWiki.

Lemma replace_all_len meta : df_len (replace_all meta) = df_len meta.
Proof. unfold replace_all, df_len. cbn. apply length_fmap. Qed.

Lemma take_at_elem {A} (l : list A) i x : take_at l i = Ok x → x ∈ l.
Proof.
  unfold take_at. destruct (position _ _) as [p|]; [|done]. cbn.
  destruct (l !! p) as [y|] eqn:Hp; [|done]. intros [= <-].
  by eapply list_elem_of_lookup_2.
Qed.

Lemma mapM_take_at_elem {A} (l : list A) idxs out :
  mapM (take_at l) idxs = Ok out → ∀ x, x ∈ out → x ∈ l.
Proof.
  revert out. induction idxs as [|i idxs IH]; intros out; cbn.
  - intros [= <-] x Hx. by apply not_elem_of_nil in Hx.
  - destruct (take_at l i) as [y|] eqn:Hy; [|done]. cbn.
    destruct (mapM _ idxs) as [k|]; [|done]. cbn. intros [= <-] x.
    intros [->|Hx]%elem_of_cons; [by eapply take_at_elem|by eapply IH].
Qed.

Lemma iloc_rows df idxs out :
  iloc df idxs = Ok out →
  columns out = columns df ∧ ∀ lr, lr ∈ body out → lr ∈ body df.
Proof.
  unfold iloc. destruct (mapM _ idxs) as [rows|] eqn:Hrows; [|done].
  cbn. intros [= <-]. split; [done|]. cbn. by eapply mapM_take_at_elem.
Qed.

Lemma train_test_split_rows df seed w train test w' :
  train_test_split df seed w = (Ok (train, test), w') →
  (columns train = columns df ∧ ∀ lr, lr ∈ body train → lr ∈ body df)
  ∧ (columns test = columns df ∧ ∀ lr, lr ∈ body test → lr ∈ body df).
Proof.
  unfold train_test_split. cbn zeta. case_decide; [done|].
  assert (∀ i1 i0 (v : World),
            (a ← iloc df i1; b ← iloc df i0; Ok (a, b), v)
            = (Ok (train, test), w') →
            (columns train = columns df
             ∧ ∀ lr, lr ∈ body train → lr ∈ body df)
            ∧ (columns test = columns df
               ∧ ∀ lr, lr ∈ body test → lr ∈ body df)) as Hboth.
  { intros i1 i0 v.
    destruct (iloc df i1) as [a|] eqn:Ha; [|done].
    destruct (iloc df i0) as [b|] eqn:Hb; [|done].
    cbn. intros [= <- <- _]. split; by eapply iloc_rows. }
  destruct seed as [seed|]; [|destruct (permutation _ _) as [p g]];
    apply Hboth.
Qed.

Lemma replace_gender_recoded x : ¬ spells_gender (replace_gender x).
Proof.
  unfold spells_gender, replace_gender. destruct x as [s|z|v].
  - repeat case_decide; intros [[=]|[=]]; congruence.
  - intros [[=]|[=]].
  - intros [[=]|[=]].
Qed.

(** X15: The table of either part is made of rows of [meta.csv] under the
    labels they have there, with every cell that spells a gender
    replaced by 1 for male and 0 for female, in every column, and the
    other cells as they are; no cell spells a gender afterwards, the
    columns are those of the file, and the world is not touched. *)
Theorem gender_is_recoded (root : string) (is_train : bool)
    (w w' : World) (out : DataFrame) :
  get_anno_df root is_train w = (Ok out, w') →
  ∃ meta,
    read_csv (path_join root "meta.csv") "," = Ok meta
    ∧ w' = w
    ∧ columns out = columns meta
    ∧ ∀ lr, lr ∈ body out →
        (∀ c x, lr.2 !! c = Some x → ¬ spells_gender x)
        ∧ ∃ lr0, lr0 ∈ body meta ∧ lr.1 = lr0.1
            ∧ ∀ c, match lr0.2 !! c with
                   | None => lr.2 !! c = None
                   | Some x0 =>
                       (x0 = CStr "male" → lr.2 !! c = Some (CInt 1))
                       ∧ (x0 = CStr "female" → lr.2 !! c = Some (CInt 0))
                       ∧ (¬ spells_gender x0 → lr.2 !! c = Some x0)
                   end.
Proof.
  unfold get_anno_df, run_bind, run_lift, run_ret.
  destruct (read_csv _ _) as [meta|] eqn:Hread; [|done].
  destruct (train_test_split _ _ w) as [[[train test]|] w1] eqn:Hsplit;
    [|done].
  assert (w1 = w) as ->.
  { unfold train_test_split in Hsplit. cbn zeta in Hsplit.
    case_decide; [done|]. by injection Hsplit. }
  apply train_test_split_rows in Hsplit as [[Hc1 Hr1] [Hc0 Hr0]].
  intros Hout. exists meta.
  assert (w' = w ∧ columns out = columns meta
          ∧ ∀ lr, lr ∈ body out → lr ∈ body (replace_all meta))
    as (-> & Hcols & Hrows).
  { destruct is_train; injection Hout as <- <-; auto. }
  split_and!; [done..|]. intros lr Hlr.
  apply Hrows in Hlr. unfold replace_all in Hlr. cbn [body] in Hlr.
  apply list_elem_of_fmap in Hlr as (lr0 & -> & Hlr0). cbn [fst snd].
  split.
  - intros c x. rewrite lookup_fmap.
    destruct (lr0.2 !! c) as [x0|]; [|done]. cbn. intros [= <-].
    apply replace_gender_recoded.
  - exists lr0. split_and!; [done..|]. intros c. rewrite lookup_fmap.
    destruct (lr0.2 !! c) as [x0|]; [|done]. cbn. split_and!.
    + by intros ->.
    + by intros ->.
    + intros Hx0. f_equal. unfold replace_gender, spells_gender in *.
      destruct x0 as [s|z|v]; [|done..].
      repeat case_decide; subst; tauto.
Qed.

(** X16: A [meta.csv] of one row or none cannot be split: neither part is
    returned, no dataset is built, and the world is as it was; and a
    [meta.csv] that cannot be read stops both with its error. *)
Theorem small_tables_are_refused (root : string) (is_train normalize : bool)
    (target attribute : string) (w : World) :
  (∀ meta, read_csv (path_join root "meta.csv") "," = Ok meta →
           df_len meta < 2 →
           get_anno_df root is_train w = (Raise ValueError, w)
           ∧ __init__ root is_train normalize target attribute w
             = (Raise ValueError, w))
  ∧ (∀ e, read_csv (path_join root "meta.csv") "," = Raise e →
          get_anno_df root is_train w = (Raise e, w)
          ∧ __init__ root is_train normalize target attribute w
            = (Raise e, w)).
Proof.
  split.
  - intros meta Hread Hlen.
    assert (get_anno_df root is_train w = (Raise ValueError, w)) as Hanno.
    { unfold get_anno_df.
      erewrite run_bind_ok; last by (unfold run_lift; rewrite Hread).
      apply run_bind_raise. unfold train_test_split. cbn zeta.
      rewrite replace_all_len. rewrite decide_True; [done|].
      apply Nat.div_small. lia. }
    split; [done|]. unfold __init__. by apply run_bind_raise.
  - intros e Hread.
    assert (get_anno_df root is_train w = (Raise e, w)) as Hanno.
    { unfold get_anno_df. apply run_bind_raise. unfold run_lift.
      by rewrite Hread. }
    split; [done|]. unfold __init__. by apply run_bind_raise.
Qed.

Lemma imdb_get_anno_df_out (root : string) (meta : DataFrame) (b : bool)
    (w : World) :
  read_csv (path_join root "meta.csv") "," = Ok meta →
  2 ≤ df_len meta →
  let df := replace_all meta in
  let n := df_len meta in
  let perm := (permutation n (random_state TRAIN_TEST_SPLIT_SEED)).1 in
  let k := n - (9 * n) `div` 10 in
  get_anno_df root b w
  = (Ok {| columns := columns df;
           body := rows_at df (if b then drop k perm else take k perm) |},
     w).
Proof.
  intros Hread Hn df n perm k. unfold get_anno_df.
  erewrite run_bind_ok; last by (unfold run_lift; rewrite Hread).
  fold df. erewrite run_bind_ok; last first.
  { rewrite train_test_split_seeded by (unfold df; rewrite replace_all_len; lia).
    unfold df. rewrite replace_all_len. done. }
  by destruct b.
Qed.

(** X17: Building the dataset: for training without normalisation the
    assertion of [get_transforms] stops it, after the table was read;
    otherwise the dataset is built, with the part of the table asked
    for, 1 as the majority and 0 as the minority key, [path] as the
    column of file paths, and the world as it was; and the train and the
    test dataset together have as many items as [meta.csv] has rows. *)
Theorem init_builds_the_dataset (root : string) (meta : DataFrame)
    (target attribute : string) :
  read_csv (path_join root "meta.csv") "," = Ok meta →
  2 ≤ df_len meta →
  (∀ w, __init__ root true false target attribute w
        = (Raise AssertionError, w))
  ∧ ∃ (train : IMDBWikiDataset) (test_anno : DataFrame),
      (∀ w, __init__ root true true target attribute w = (Ok train, w))
      ∧ (∀ normalize w,
           ∃ test, __init__ root false normalize target attribute w
                   = (Ok test, w)
                   ∧ anno test = test_anno
                   ∧ get_transforms false normalize = Ok (transform test))
      ∧ __len__ train + df_len test_anno = df_len meta
      ∧ __len__ train = (9 * df_len meta) `div` 10
      ∧ (∀ w, get_anno_df root true w = (Ok (anno train), w))
      ∧ (∀ w, get_anno_df root false w = (Ok test_anno, w))
      ∧ get_transforms true true = Ok (transform train)
      ∧ majority_group_keys train = [1%Z]
      ∧ minority_group_keys train = [0%Z]
      ∧ fp_colname train = "path"
      ∧ target_colname train = target
      ∧ attribute_colname train = attribute.
Proof.
  intros Hread Hn.
  pose proof (λ b w, imdb_get_anno_df_out root meta b w Hread Hn) as Hanno.
  cbn zeta in Hanno.
  set (n := df_len meta) in *.
  set (perm := (permutation n (random_state TRAIN_TEST_SPLIT_SEED)).1) in *.
  assert (length perm = n) as Hplen.
  { unfold perm. rewrite (permutation_perm n _). apply length_seq. }
  destruct (train_size_positive n Hn) as [Hpos Hlt].
  split.
  - intros w. unfold __init__.
    erewrite run_bind_ok; last apply Hanno.
    by apply run_bind_raise.
  - eexists _, _. split_and!.
    + intros w. unfold __init__.
      erewrite run_bind_ok; last apply Hanno.
      erewrite run_bind_ok; last done. done.
    + intros normalize w. eexists. split_and!.
      * unfold __init__.
        erewrite run_bind_ok; last apply Hanno.
        erewrite run_bind_ok; last first.
        { unfold run_lift. by rewrite get_transforms_test. }
        done.
      * cbn [anno]. reflexivity.
      * cbn [transform]. by rewrite get_transforms_test.
    + unfold __len__, df_len, rows_at. cbn [anno body].
      rewrite !length_fmap, length_drop, length_take. lia.
    + unfold __len__, df_len, rows_at. cbn [anno body].
      rewrite !length_fmap, length_drop. lia.
    + intros w. apply Hanno.
    + intros w. apply Hanno.
    + done.
    + done.
    + done.
    + done.
    + done.
    + done.
Qed.
End imdb_table.

(** ** The two groups (imdb_wiki.py) *)

Section imdb_groups.
Context `{Platform}.
Import ImdbWiki.

Lemma argwhere_from_increasing k mask : increasing (argwhere_from k mask).
Proof.
  revert k. induction mask as [|b mask IH]; intros k a c x y; cbn.
  { by rewrite lookup_nil. }
  destruct b; [|apply IH].
  destruct a as [|a], c as [|c]; cbn; try lia.
  - intros [= <-] Hy%list_elem_of_lookup_2 _.
    apply argwhere_from_elem in Hy as (j & -> & _). lia.
  - intros Hx Hy Hlt. eapply IH; [done..|lia].
Qed.

Lemma group_positions (self : IMDBWikiDataset) keys idxs i :
  (a ← attributes self; Ok (argwhere (isin_keys keys <$> a))) = Ok idxs →
  i ∈ idxs
  ↔ ∃ lr, body (anno self) !! i = Some lr
          ∧ isin_keys keys (lr.2 !!! attribute_colname self) = true.
Proof.
  intros [_ ->]%group_idxs_inv.
  rewrite argwhere_elem, list_lookup_fmap.
  destruct (body (anno self) !! i) as [lr|]; cbn.
  - split; [intros [= Hk]; by exists lr|by intros (? & [= <-] & ->)].
  - split; [done|by intros (? & ? & _)].
Qed.

(** X18: The two groups are the positions of the rows whose attribute is one
    of the group's keys, each once and in rising order; with keys that
    pick different cells, as the keys 1 and 0 that [__init__] sets do, no
    position is in both and together they are no more than the rows. *)
Theorem groups_are_positions (self : IMDBWikiDataset)
    (maj min : list nat) :
  majority_idxs self = Ok maj →
  minority_idxs self = Ok min →
  (∀ i, i ∈ maj
        ↔ ∃ lr, body (anno self) !! i = Some lr
                ∧ isin_keys (majority_group_keys self)
                    (lr.2 !!! attribute_colname self) = true)
  ∧ (∀ i, i ∈ min
          ↔ ∃ lr, body (anno self) !! i = Some lr
                  ∧ isin_keys (minority_group_keys self)
                      (lr.2 !!! attribute_colname self) = true)
  ∧ NoDup maj ∧ NoDup min ∧ increasing maj ∧ increasing min
  ∧ ((majority_group_keys self = [1%Z] ∧ minority_group_keys self = [0%Z]
      ∨ ∀ x, isin_keys (majority_group_keys self) x = true →
             isin_keys (minority_group_keys self) x = false) →
     (∀ i, i ∈ maj → i ∉ min)
     ∧ length maj + length min ≤ __len__ self).
Proof.
  intros Hmaj Hmin.
  pose proof (λ i, group_positions self _ maj i Hmaj) as Hmaj_pos.
  pose proof (λ i, group_positions self _ min i Hmin) as Hmin_pos.
  destruct (group_idxs_inv _ _ _ Hmaj) as [_ Hmaj'].
  destruct (group_idxs_inv _ _ _ Hmin) as [_ Hmin'].
  assert (NoDup maj) as Hnd1 by (rewrite Hmaj'; apply argwhere_from_NoDup).
  assert (NoDup min) as Hnd0 by (rewrite Hmin'; apply argwhere_from_NoDup).
  split_and!; [done..| | |].
  - rewrite Hmaj'. apply argwhere_from_increasing.
  - rewrite Hmin'. apply argwhere_from_increasing.
  - intros Hkeys.
    assert (∀ x, isin_keys (majority_group_keys self) x = true →
                 isin_keys (minority_group_keys self) x = false) as Hex.
    { destruct Hkeys as [[-> ->]|Hex]; [|done].
      apply default_keys_disjoint. }
    assert (∀ i, i ∈ maj → i ∉ min) as Hdisj.
    { intros i (lr & Hlr & Hk)%Hmaj_pos (lr' & Hlr' & Hk')%Hmin_pos.
      simplify_eq. apply Hex in Hk. congruence. }
    split; [done|].
    assert (maj ++ min ⊆+ seq 0 (__len__ self)) as Hsub.
    { apply NoDup_submseteq.
      - apply NoDup_app. split_and!; done.
      - intros i [Hi|Hi]%elem_of_app; apply elem_of_seq.
        + apply Hmaj_pos in Hi as (lr & Hlr%lookup_lt_Some & _).
          unfold __len__, df_len. lia.
        + apply Hmin_pos in Hi as (lr & Hlr%lookup_lt_Some & _).
          unfold __len__, df_len. lia. }
    apply submseteq_length in Hsub.
    by rewrite length_app, length_seq in Hsub.
Qed.
End imdb_groups.

(** ** What [apply_alpha_to_dataset] leaves alone (imdb_wiki.py) *)

Section imdb_frame.
Context `{Platform}.
Import ImdbWiki.

Lemma triple_bind {S A B} (P : S → Prop) (m : Run S A) (Q : A → S → Prop)
    (k : A → Run S B) (R : B → S → Prop) (E : S → Prop) :
  triple P m Q E → (∀ a, triple (Q a) (k a) R E) →
  triple P (run_bind m k) R E.
Proof.
  intros Hm Hk s Hs. specialize (Hm s Hs). unfold run_bind.
  destruct (m s) as [[a|e] s']; [by apply Hk|done].
Qed.

Lemma triple_ret {S A} (P : S → Prop) (a : A) (E : S → Prop) :
  triple P (run_ret a) (λ _, P) E.
Proof. by intros s Hs. Qed.

Lemma triple_lift {S A} (P : S → Prop) (m : result A) :
  triple P (run_lift m) (λ _, P) P.
Proof. intros s Hs. unfold run_lift. by destruct m. Qed.

Lemma triple_on_self {A} (P : IMDBWikiDataset * World → Prop)
    (f : IMDBWikiDataset → result A) :
  triple P (on_self f) (λ a s, P s ∧ f s.1 = Ok a) P.
Proof. intros s Hs. unfold on_self. by destruct (f s.1). Qed.

Lemma frame_on_self {A} (P : IMDBWikiDataset * World → Prop)
    (f : IMDBWikiDataset → result A) :
  triple P (on_self f) (λ _, P) P.
Proof. intros s Hs. unfold on_self. by destruct (f s.1). Qed.

Lemma same_but_table_refl s : same_but_table s s.
Proof. unfold same_but_table. by destruct s as [[] ?]. Qed.

Lemma frame_print s0 (e : event) :
  triple (same_but_table s0) (on_world (print e))
         (λ _, same_but_table s0) (same_but_table s0).
Proof.
  intros [self w] (Hs & Hc & Hr & Ht & Hp). unfold on_world, print. cbn.
  split_and!; [done..|]. cbn. by apply prefix_app_r.
Qed.

Lemma frame_choice s0 (a : list nat) (size : Z) :
  triple (same_but_table s0) (on_world (choice a size))
         (λ _, same_but_table s0) (same_but_table s0).
Proof.
  intros [self w] Hs. unfold on_world, choice. cbn [fst snd].
  repeat case_decide; try done.
  by destruct (permutation _ _) as [p g].
Qed.

Lemma frame_assign s0 (a : DataFrame) (idx : list Z) :
  triple (λ s, same_but_table s0 s ∧ iloc (anno s.1) idx = Ok a)
         (assign_anno a) (λ _, same_but_table s0) (same_but_table s0).
Proof.
  intros [self w] [(Hs & Hc & Hr & Ht & Hp) Ha]. unfold assign_anno.
  cbn [fst snd] in *. apply iloc_rows in Ha as [Hca Hra].
  split_and!; cbn [fst snd anno set_anno]; [|congruence|auto|done|done].
  rewrite Hs. done.
Qed.

(** X19: Whatever its arguments and however it ends, by returning or by any
    of its errors, [apply_alpha_to_dataset] changes nothing of the object
    but the table, gives the table no new column and no row it had not,
    prints without erasing, and leaves torch's generator alone. *)
Theorem apply_alpha_touches_only_the_table (alpha : option F64.float)
    (n_train : option Z) (self : IMDBWikiDataset) (w : World) :
  same_but_table (self, w)
    (apply_alpha_to_dataset alpha n_train (self, w)).2.
Proof.
  set (s0 := (self, w)).
  assert (triple (same_but_table s0) (apply_alpha_to_dataset alpha n_train)
                 (λ _, same_but_table s0) (same_but_table s0)) as Htriple.
  { unfold apply_alpha_to_dataset.
    destruct alpha as [alpha|]; [|apply triple_ret].
    eapply triple_bind.
    { instantiate (1 := λ _, same_but_table s0).
      destruct n_train as [n|]; [|apply triple_lift].
      destruct (truthy_int _); [|apply triple_lift].
      eapply triple_bind; [apply frame_on_self|intros maj].
      eapply triple_bind; [apply frame_on_self|intros min].
      eapply triple_bind; [apply triple_lift|intros ?].
      eapply triple_bind; [apply triple_lift|intros n_maj].
      apply triple_ret. }
    intros [n_maj n_min].
    eapply triple_bind; [apply frame_on_self|intros maj].
    eapply triple_bind; [apply frame_on_self|intros keys].
    eapply triple_bind; [apply frame_print|intros ?].
    eapply triple_bind; [apply frame_on_self|intros min].
    eapply triple_bind; [apply frame_on_self|intros keys'].
    eapply triple_bind; [apply frame_print|intros ?].
    eapply triple_bind; [apply frame_on_self|intros maj'].
    eapply triple_bind; [apply frame_choice|intros s1].
    eapply triple_bind; [apply frame_on_self|intros min'].
    eapply triple_bind; [apply frame_choice|intros s0'].
    eapply triple_bind; [apply triple_on_self|intros tbl].
    eapply triple_bind; [apply frame_assign|intros ?].
    eapply triple_bind; [apply frame_on_self|intros l].
    eapply triple_bind; [apply triple_lift|intros ?].
    eapply triple_bind; [apply frame_on_self|intros l'].
    apply triple_lift. }
  specialize (Htriple s0 (same_but_table_refl s0)).
  by destruct (apply_alpha_to_dataset alpha n_train s0) as [[[]|e] s'].
Qed.
End imdb_frame.

(** ** Draws that fail and checks that fail (imdb_wiki.py) *)

Section imdb_failures.
Context `{Platform}.
Import ImdbWiki.

Lemma choice_refuses (a : list nat) (size : Z) (w : World) :
  (size < 0 ∨ Z.of_nat (length a) < size)%Z →
  choice a size w = (Raise ValueError, w).
Proof.
  intros Hsize. unfold choice. repeat case_decide; try done. lia.
Qed.

(** The run of [apply_alpha_to_dataset] up to the first draw. *)
Ltac up_to_the_draws Htruthy Hmaj Hmin Hshare :=
  unfold apply_alpha_to_dataset; rewrite Htruthy;
  erewrite run_bind_ok; last first;
  [ erewrite run_bind_ok;
      last (by (unfold on_self; cbn [fst]; rewrite Hmaj));
    erewrite run_bind_ok;
      last (by (unfold on_self; cbn [fst]; rewrite Hmin));
    erewrite run_bind_ok;
      last (by (unfold run_lift; rewrite bool_decide_eq_true_2 by lia));
    erewrite run_bind_ok;
      last (by (unfold run_lift; rewrite Hshare));
    done
  | cbn beta iota zeta;
    erewrite run_bind_ok;
      last (by (unfold on_self; cbn [fst]; rewrite Hmaj));
    erewrite run_bind_ok; last (by (unfold on_self; cbn [fst]));
    erewrite run_bind_ok;
      last (by (unfold on_world, print; cbn [fst snd]));
    erewrite run_bind_ok;
      last (by (unfold on_self; cbn [fst]; rewrite Hmin));
    erewrite run_bind_ok; last (by (unfold on_self; cbn [fst]));
    erewrite run_bind_ok;
      last (by (unfold on_world, print; cbn [fst snd]));
    erewrite run_bind_ok;
      last (by (unfold on_self; cbn [fst]; rewrite Hmaj)) ].

(** X20: A share that a group cannot give is refused by the draw: when
    [int(alpha * n_train)] is negative or above the majority group, or
    the rest is negative or above the minority group, the call raises
    [ValueError] after its two lines are printed, and the table is as it
    was. *)
Theorem shares_beyond_a_group_are_refused (alpha : F64.float) (n n_maj : Z)
    (self : IMDBWikiDataset) (w : World) (maj min : list nat) :
  majority_idxs self = Ok maj →
  minority_idxs self = Ok min →
  n ≠ 0%Z →
  (n ≤ Z.of_nat (length maj) + Z.of_nat (length min))%Z →
  majority_share alpha n = Ok n_maj →
  (n_maj < 0 ∨ Z.of_nat (length maj) < n_maj
   ∨ n - n_maj < 0 ∨ Z.of_nat (length min) < n - n_maj)%Z →
  ∃ w',
    apply_alpha_to_dataset (Some alpha) (Some n) (self, w)
    = (Raise ValueError, (self, w'))
    ∧ torch_rng w' = torch_rng w
    ∧ stdout w'
      = stdout w ++ [DebugSampling "n_maj" n_maj (length maj)
                       (majority_group_keys self);
                     DebugSampling "n_min" (n - n_maj) (length min)
                       (minority_group_keys self)].
Proof.
  intros Hmaj Hmin Hn Hfits Hshare Hbad.
  destruct (group_idxs_inv _ _ _ Hmaj) as [Hcol Hmaj'].
  destruct (group_idxs_inv _ _ _ Hmin) as [_ Hmin'].
  set (wp := printed [DebugSampling "n_maj" n_maj (length maj)
                        (majority_group_keys self);
                      DebugSampling "n_min" (n - n_maj) (length min)
                        (minority_group_keys self)] w).
  assert (truthy_int (Some n) = true) as Htruthy
    by (cbn; by apply negb_true_iff, Z.eqb_neq).
  unfold majority_share in Hshare.
  assert (∀ r, {| np_rng := np_rng w; torch_rng := torch_rng w;
                  stdout := (stdout w ++ [DebugSampling "n_maj" n_maj
                               (length maj) (majority_group_keys self)])
                            ++ [r] |}
               = printed [DebugSampling "n_maj" n_maj (length maj)
                            (majority_group_keys self); r] w) as Hwp.
  { intros r. unfold printed. by rewrite <-(assoc_L (++)). }
  destruct (decide (n_maj < 0 ∨ Z.of_nat (length maj) < n_maj)%Z)
    as [Hfirst|Hfirst].
  - exists wp. split; [|done].
    up_to_the_draws Htruthy Hmaj Hmin Hshare.
    apply run_bind_raise. unfold on_world. cbn [fst snd].
    rewrite Hwp. fold wp. by rewrite choice_refuses.
  - destruct (choice_draws maj n_maj wp)
      as (s1 & g1 & Hc1 & Hl1 & Hd1 & Hs1);
      [rewrite Hmaj'; apply argwhere_from_NoDup|lia|].
    exists (set_np_rng g1 wp). split; [|done].
    up_to_the_draws Htruthy Hmaj Hmin Hshare.
    erewrite run_bind_ok; last first.
    { unfold on_world. cbn [fst snd]. rewrite Hwp. fold wp.
      by rewrite Hc1. }
    erewrite run_bind_ok;
      last by (unfold on_self; cbn [fst]; rewrite Hmin).
    apply run_bind_raise. unfold on_world. cbn [fst snd].
    rewrite choice_refuses; [done|lia].
Qed.

(** X21: When the last check fails the table is already the sample: with
    shares that both groups can give, an error of the check on the
    minority fraction leaves the dataset with the [n_train] drawn rows in
    place of its table. *)
Theorem failed_check_keeps_the_sample (alpha : F64.float) (n n_maj : Z)
    (self : IMDBWikiDataset) (w : World) (maj min : list nat) (e : exn) :
  majority_idxs self = Ok maj →
  minority_idxs self = Ok min →
  n ≠ 0%Z →
  majority_share alpha n = Ok n_maj →
  (0 ≤ n_maj ≤ Z.of_nat (length maj))%Z →
  (0 ≤ n - n_maj ≤ Z.of_nat (length min))%Z →
  ratio_within alpha (n - n_maj) n = Raise e →
  ∃ (s1 s0 : list nat) (self' : IMDBWikiDataset) (w' : World),
    apply_alpha_to_dataset (Some alpha) (Some n) (self, w)
    = (Raise e, (self', w'))
    ∧ self' = set_anno {| columns := columns (anno self);
                          body := rows_at (anno self) (s1 ++ s0) |} self
    ∧ Z.of_nat (length s1) = n_maj
    ∧ Z.of_nat (length s0) = (n - n_maj)%Z
    ∧ s1 ⊆ maj ∧ s0 ⊆ min
    ∧ Z.of_nat (__len__ self') = n.
Proof.
  intros Hmaj Hmin Hn Hshare Hnmaj Hnmin Hratio.
  destruct (group_idxs_inv _ _ _ Hmaj) as [Hcol Hmaj'].
  destruct (group_idxs_inv _ _ _ Hmin) as [_ Hmin'].
  set (wp := printed [DebugSampling "n_maj" n_maj (length maj)
                        (majority_group_keys self);
                      DebugSampling "n_min" (n - n_maj) (length min)
                        (minority_group_keys self)] w).
  assert (truthy_int (Some n) = true) as Htruthy
    by (cbn; by apply negb_true_iff, Z.eqb_neq).
  unfold majority_share in Hshare.
  assert (∀ r, {| np_rng := np_rng w; torch_rng := torch_rng w;
                  stdout := (stdout w ++ [DebugSampling "n_maj" n_maj
                               (length maj) (majority_group_keys self)])
                            ++ [r] |}
               = printed [DebugSampling "n_maj" n_maj (length maj)
                            (majority_group_keys self); r] w) as Hwp.
  { intros r. unfold printed. by rewrite <-(assoc_L (++)). }
  destruct (choice_draws maj n_maj wp) as (s1 & g1 & Hc1 & Hl1 & Hd1 & Hs1);
    [rewrite Hmaj'; apply argwhere_from_NoDup|done|].
  destruct (choice_draws min (n - n_maj) (set_np_rng g1 wp))
    as (s0 & g0 & Hc0 & Hl0 & Hd0 & Hs0);
    [rewrite Hmin'; apply argwhere_from_NoDup|done|].
  set (anno' := {| columns := columns (anno self);
                   body := rows_at (anno self) (s1 ++ s0) |}).
  assert (Forall (λ i, i < df_len (anno self)) (s1 ++ s0)) as Hbelow.
  { apply Forall_app. split; apply Forall_forall; intros i Hi.
    - apply Hs1 in Hi. rewrite Hmaj' in Hi.
      by apply group_member in Hi as [? ?].
    - apply Hs0 in Hi. rewrite Hmin' in Hi.
      by apply group_member in Hi as [? ?]. }
  assert (Z.of_nat (df_len anno') = n) as Hlen'.
  { unfold df_len, anno', rows_at. cbn [body].
    rewrite length_fmap, length_app. lia. }
  exists s1, s0, (set_anno anno' self), (set_np_rng g0 (set_np_rng g1 wp)).
  split_and!; [|done|lia|lia|done|done|done].
  up_to_the_draws Htruthy Hmaj Hmin Hshare.
  erewrite run_bind_ok; last first.
  { unfold on_world. cbn [fst snd]. rewrite Hwp. fold wp. by rewrite Hc1. }
  erewrite run_bind_ok; last by (unfold on_self; cbn [fst]; rewrite Hmin).
  erewrite run_bind_ok; last by (unfold on_world; cbn [fst snd]; rewrite Hc0).
  erewrite run_bind_ok; last first.
  { unfold on_self. cbn [fst]. by rewrite iloc_positions. }
  erewrite run_bind_ok; last by unfold assign_anno.
  cbn [fst snd]. fold anno'.
  erewrite run_bind_ok; last by unfold on_self.
  erewrite run_bind_ok; last first.
  { unfold run_lift. cbn [fst]. unfold __len__. cbn [anno set_anno].
    by rewrite bool_decide_eq_true_2 by lia. }
  erewrite run_bind_ok; last by unfold on_self.
  unfold run_lift. cbn [fst]. unfold __len__. cbn [anno set_anno].
  rewrite Hlen'. replace (Z.of_nat (length s0)) with (n - n_maj)%Z by lia.
  fold (ratio_within alpha (n - n_maj) n). by rewrite Hratio.
Qed.
End imdb_failures.

(** * The further properties on the sample data *)

Section filename_examples.
Import Demo.

Lemma extract_from_filename_parts_witness :
  LfwDataset.extract_person_from_filename
    "lfw/Aaron_Eckhart/Aaron_Eckhart_0001.jpg" = Some "Aaron_Eckhart"
  ∧ LfwDataset.extract_imagenum_from_filename
      "lfw/Aaron_Eckhart/Aaron_Eckhart_0001.jpg" = Some "0001"
  ↔ lfw_name (basename "lfw/Aaron_Eckhart/Aaron_Eckhart_0001.jpg")
             "Aaron_Eckhart" "0001".
Proof.
  exact (extract_from_filename_parts
           "lfw/Aaron_Eckhart/Aaron_Eckhart_0001.jpg"
           "Aaron_Eckhart" "0001" eq_refl).
Defined.

Lemma helpers_recover_written_names_witness :
  ∃ n path,
    @LfwDataset.imagenum_str (platform no_files) (CInt 1) = Ok (CStr n)
    ∧ LfwDataset.img_basepath (CStr "Aaron_Eckhart") (CStr n)
      = Ok (CStr path)
    ∧ LfwDataset.extract_person_from_filename
        (path_join "lfw/lfw-deepfunneled" path) = Some "Aaron_Eckhart"
    ∧ LfwDataset.extract_imagenum_from_filename
        (path_join "lfw/lfw-deepfunneled" path) = Some n.
Proof.
  apply (@helpers_recover_written_names (platform no_files)
           "lfw/lfw-deepfunneled" "Aaron_Eckhart" 1%Z).
  - discriminate.
  - reflexivity.
  - reflexivity.
  - reflexivity.
  - lia.
Defined.
End filename_examples.

Section partition_examples.
Import Demo LfwSamples.

Lemma sample_rows_are_read :
  ∀ lr, lr ∈ body attributes_file →
        lr.2 !! "index" = None
        ∧ is_string (lr.2 !!! "person")
        ∧ is_number (lr.2 !!! "imagenum")
        ∧ is_number (lr.2 !!! "Mouth_Closed").
Proof.
  apply Forall_forall.
  repeat constructor; vm_compute; first [reflexivity | exact I].
Qed.

Lemma sample_has_no_index : "index" ∉ columns attributes_file.
Proof.
  vm_compute. intros Hin.
  repeat (apply elem_of_cons in Hin as [Hin|Hin]; [discriminate Hin|]).
  by apply not_elem_of_nil in Hin.
Qed.

Lemma sample_is_a_table : lfw_table None "Smiling" attributes_file.
Proof.
  split_and!.
  - apply sample_has_no_index.
  - left.
  - right. left.
  - right. right. left.
  - apply sample_rows_are_read.
  - intros Hthr. discriminate Hthr.
Qed.

Lemma sample_is_a_table_for_thresholds t :
  lfw_table (Some t) "Smiling" attributes_file.
Proof.
  split_and!.
  - apply sample_has_no_index.
  - left.
  - right. left.
  - right. right. left.
  - apply sample_rows_are_read.
  - intros _. split; [do 3 right; left|].
    apply Forall_forall. repeat constructor.
Qed.


Lemma other_partition_is_refused_witness :
  @LfwDataset.get_lfw_transforms "dev" true = Raise ValueError
  ∧ (∃ e, @LfwDataset.get_anno_df (platform fs) "lfw" "dev" "Smiling" None
          = Raise e)
  ∧ ∀ raw,
      @read_csv (platform fs)
        (path_join "lfw" "lfw_attributes_cleaned.txt") TAB = Ok raw →
      lfw_table None "Smiling" raw →
      @LfwDataset.get_anno_df (platform fs) "lfw" "dev" "Smiling" None
      = Raise ValueError.
Proof.
  apply (@other_partition_is_refused (platform fs) "lfw" "dev" "Smiling"
           None true).
  - discriminate.
  - discriminate.
Defined.

Lemma partitions_share_no_person_witness :
  ∃ train test,
    @LfwDataset.get_anno_df (platform fs) "lfw" "train" "Smiling" None
    = Ok train
    ∧ @LfwDataset.get_anno_df (platform fs) "lfw" "test" "Smiling" None
      = Ok test
    ∧ (∀ a b, a ∈ body train → b ∈ body test →
              a.2 !!! "person" ≠ b.2 !!! "person")
    ∧ length (body train) + length (body test)
      ≤ length (body attributes_file).
Proof.
  apply (@partitions_share_no_person (platform fs) "lfw" "Smiling" None
           attributes_file train_file test_file).
  - reflexivity.
  - reflexivity.
  - reflexivity.
  - apply sample_is_a_table.
  - intros x Hx Hy.
    apply elem_of_cons in Hx as [->|Hx]; [|by apply not_elem_of_nil in Hx].
    apply elem_of_cons in Hy as [Hy|Hy]; [discriminate Hy|].
    by apply not_elem_of_nil in Hy.
Defined.

Lemma threshold_only_removes_rows_witness :
  ∃ every some,
    @LfwDataset.get_anno_df (platform fs) "lfw" "train" "Smiling" None
    = Ok every
    ∧ @LfwDataset.get_anno_df (platform fs) "lfw" "train" "Smiling"
        (Some (f 1 2)) = Ok some
    ∧ columns some = columns every
    ∧ (snd <$> body some) `sublist_of` (snd <$> body every)
    ∧ (F64.truthy (f 1 2) = false → some = every)
    ∧ (F64.truthy (f 1 2) = true →
       snd <$> body some
       = @derived (platform fs)
           <$> filter (λ r, meets (f 1 2) true (r !!! "Smiling"))
                      (filter (λ r, listed train_file r)
                              (snd <$> body attributes_file))).
Proof.
  apply (@threshold_only_removes_rows (platform fs) "lfw" "train"
           "Smiling" (f 1 2) attributes_file train_file).
  - by left.
  - reflexivity.
  - reflexivity.
  - apply sample_is_a_table_for_thresholds.
Defined.

Lemma apply_thresh_settles_witness :
  ∃ out,
    LfwDataset.apply_thresh attributes_file "Smiling" (f 1 2) true = Ok out
    ∧ columns out = columns attributes_file
    ∧ snd <$> body out
      = filter (λ r, meets (f 1 2) true (r !!! "Smiling"))
               (snd <$> body attributes_file)
    ∧ fst <$> body out
      = (λ i, CInt (Z.of_nat i)) <$> seq 0 (length (body out))
    ∧ LfwDataset.apply_thresh out "Smiling" (f 1 2) true = Ok out.
Proof.
  apply (apply_thresh_settles attributes_file "Smiling" (f 1 2) true).
  - do 3 right. left.
  - apply sample_has_no_index.
  - intros lr Hlr. by apply sample_rows_are_read.
  - apply Forall_forall. repeat constructor.
Defined.

Lemma apply_thresh_drops_index_column_witness :
  ∃ out,
    LfwDataset.apply_thresh indexed "x" (f 1 2) true = Ok out
    ∧ columns out
      = "level_0" :: filter (λ c, c ≠ "index") (columns indexed)
    ∧ ("index" ∉ columns out)
    ∧ ∀ lr, lr ∈ body out → lr.2 !! "index" = None.
Proof.
  apply (apply_thresh_drops_index_column indexed "x" (f 1 2) true).
  - right. left.
  - apply Forall_forall. repeat constructor.
  - left.
  - intros Hin.
    repeat (apply elem_of_cons in Hin as [Hin|Hin]; [discriminate Hin|]).
    by apply not_elem_of_nil in Hin.
Defined.


Lemma lfw_annotations_need_threshold_witness :
  (∀ out, LfwDataset.get_attribute_annotations (lfw None) [0%Z] = Ok out →
          out = [])
  ∧ ("Mouth_Closed" ∈ columns train_anno →
     LfwDataset.get_attribute_annotations (lfw None) [] = Ok [])
  ∧ ("Mouth_Closed" ∈ columns train_anno →
     [0%Z] ≠ [] → Forall (in_range 1) [0%Z] →
     LfwDataset.get_attribute_annotations (lfw None) [0%Z]
     = Raise TypeError).
Proof.
  apply (lfw_annotations_need_threshold (lfw None) [0%Z]).
  reflexivity.
Defined.

Lemma lfw_built_dataset_serves_items_witness :
  ∃ self,
    @LfwDataset.__init__ (platform fs) "lfw" "Smiling" "Mouth_Closed" None
      None "train" "lfw-deepfunneled"
    = Ok self
    ∧ LfwDataset.__len__ self
      = length (@lfw_rows (platform fs) None "Smiling" train_file
                  attributes_file)
    ∧ ∀ i : nat, i < LfwDataset.__len__ self →
        ∃ (p n : string) (label : Z),
          let path := path_join (path_join "lfw" "lfw-deepfunneled")
                        (p +:+ "/" +:+ p +:+ "_" +:+ n +:+ ".jpg") in
          (label = 0 ∨ label = 1)%Z
          ∧ (∀ w e, @default_loader (platform fs) path = Raise e →
                    @LfwDataset.__getitem__ (platform fs) self
                      (IdxInt (Z.of_nat i)) w
                    = (Raise e, w))
          ∧ (∀ w img img' w',
               @default_loader (platform fs) path = Ok img →
               @LfwDataset.run_transform (platform fs) None img w
               = (Ok img', w') →
               @LfwDataset.__getitem__ (platform fs) self
                 (IdxInt (Z.of_nat i)) w
               = (Ok (img', Z.of_nat i, Int64Scalar label), w')).
Proof.
  apply (@lfw_built_dataset_serves_items (platform fs) "lfw" "Smiling"
           "Mouth_Closed" None None "train" "lfw-deepfunneled"
           attributes_file train_file).
  - by left.
  - reflexivity.
  - reflexivity.
  - apply sample_is_a_table.
  - do 3 right. left.
  - apply Forall_forall. repeat constructor.
  - intros Hin.
    repeat (apply elem_of_cons in Hin as [Hin|Hin]; [discriminate Hin|]).
    by apply not_elem_of_nil in Hin.
Defined.
End partition_examples.

Section imdb_examples.
Import Demo Samples SplitSamples.

Lemma gender_is_recoded_witness :
  ∃ meta,
    @read_csv (platform (fs two)) (path_join "root" "meta.csv") "," = Ok meta
    ∧ world two = world two
    ∧ columns two = columns meta
    ∧ ∀ lr, lr ∈ rows_at (@ImdbWiki.replace_all two)
                    (drop 1 (@permutation (platform (fs two)) 2
                               (@random_state (platform (fs two))
                                  ImdbWiki.TRAIN_TEST_SPLIT_SEED)).1) →
        (∀ c x, lr.2 !! c = Some x → ¬ spells_gender x)
        ∧ ∃ lr0, lr0 ∈ body meta ∧ lr.1 = lr0.1
            ∧ ∀ c, match lr0.2 !! c with
                   | None => lr.2 !! c = None
                   | Some x0 =>
                       (x0 = CStr "male" → lr.2 !! c = Some (CInt 1))
                       ∧ (x0 = CStr "female" → lr.2 !! c = Some (CInt 0))
                       ∧ (¬ spells_gender x0 → lr.2 !! c = Some x0)
                   end.
Proof.
  apply (@gender_is_recoded (platform (fs two)) "root" true
           (world two) (world two)
           {| columns := columns two;
              body := rows_at (@ImdbWiki.replace_all two)
                        (drop 1 (@permutation (platform (fs two)) 2
                                   (@random_state (platform (fs two))
                                      ImdbWiki.TRAIN_TEST_SPLIT_SEED)).1) |}).
  apply (@imdb_get_anno_df_out (platform (fs two)) "root" two true
           (world two)).
  - reflexivity.
  - cbn. lia.
Defined.

Lemma init_builds_the_dataset_witness :
  (∀ w, @ImdbWiki.__init__ (platform (fs two)) "root" true false "age"
          "gender" w
        = (Raise AssertionError, w))
  ∧ ∃ (train : ImdbWiki.IMDBWikiDataset) (test_anno : DataFrame),
      (∀ w, @ImdbWiki.__init__ (platform (fs two)) "root" true true "age"
              "gender" w = (Ok train, w))
      ∧ (∀ normalize w,
           ∃ test, @ImdbWiki.__init__ (platform (fs two)) "root" false
                     normalize "age" "gender" w
                   = (Ok test, w)
                   ∧ ImdbWiki.anno test = test_anno
                   ∧ ImdbWiki.get_transforms false normalize
                     = Ok (ImdbWiki.transform test))
      ∧ ImdbWiki.__len__ train + df_len test_anno = df_len two
      ∧ ImdbWiki.__len__ train = (9 * df_len two) `div` 10
      ∧ (∀ w, @ImdbWiki.get_anno_df (platform (fs two)) "root" true w
              = (Ok (ImdbWiki.anno train), w))
      ∧ (∀ w, @ImdbWiki.get_anno_df (platform (fs two)) "root" false w
              = (Ok test_anno, w))
      ∧ ImdbWiki.get_transforms true true = Ok (ImdbWiki.transform train)
      ∧ ImdbWiki.majority_group_keys train = [1%Z]
      ∧ ImdbWiki.minority_group_keys train = [0%Z]
      ∧ ImdbWiki.fp_colname train = "path"
      ∧ ImdbWiki.target_colname train = "age"
      ∧ ImdbWiki.attribute_colname train = "gender".
Proof.
  apply (@init_builds_the_dataset (platform (fs two)) "root" two "age"
           "gender").
  - reflexivity.
  - cbn. lia.
Defined.

Lemma groups_are_positions_witness :
  (∀ i, i ∈ [0]
        ↔ ∃ lr, body meta !! i = Some lr
                ∧ isin_keys [1%Z] (lr.2 !!! "gender") = true)
  ∧ (∀ i, i ∈ [1]
          ↔ ∃ lr, body meta !! i = Some lr
                  ∧ isin_keys [0%Z] (lr.2 !!! "gender") = true)
  ∧ NoDup [0] ∧ NoDup [1] ∧ increasing [0] ∧ increasing [1]
  ∧ (([1%Z] = [1%Z] ∧ [0%Z] = [0%Z]
      ∨ ∀ x, isin_keys [1%Z] x = true → isin_keys [0%Z] x = false) →
     (∀ i, i ∈ [0] → i ∉ [1])
     ∧ length [0] + length [1] ≤ ImdbWiki.__len__ (imdb meta)).
Proof.
  apply (groups_are_positions (imdb meta) [0] [1]).
  - vm_compute. reflexivity.
  - vm_compute. reflexivity.
Defined.

Lemma shares_beyond_a_group_are_refused_witness :
  ∃ w',
    @ImdbWiki.apply_alpha_to_dataset (platform no_files)
      (Some (f 1 1)) (Some 2%Z) (imdb pair, world0)
    = (Raise ValueError, (imdb pair, w'))
    ∧ torch_rng w' = torch_rng world0
    ∧ stdout w'
      = stdout world0 ++ [DebugSampling "n_maj" 2 1 [1%Z];
                          DebugSampling "n_min" (2 - 2) 1 [0%Z]].
Proof.
  apply (@shares_beyond_a_group_are_refused (platform no_files)
           (f 1 1) 2%Z 2%Z (imdb pair) world0 [0] [1]).
  - vm_compute. reflexivity.
  - vm_compute. reflexivity.
  - lia.
  - cbn. lia.
  - vm_compute. reflexivity.
  - right. left. cbn. lia.
Defined.

Lemma failed_check_keeps_the_sample_witness :
  ∃ (s1 s0 : list nat) (self' : ImdbWiki.IMDBWikiDataset)
    (w' : @World (platform no_files)),
    @ImdbWiki.apply_alpha_to_dataset (platform no_files)
      (Some (f 1 2)) (Some 1%Z) (imdb pair, world0)
    = (Raise AssertionError, (self', w'))
    ∧ self' = ImdbWiki.set_anno
                {| columns := columns pair;
                   body := rows_at pair (s1 ++ s0) |} (imdb pair)
    ∧ Z.of_nat (length s1) = 0%Z
    ∧ Z.of_nat (length s0) = (1 - 0)%Z
    ∧ s1 ⊆ [0] ∧ s0 ⊆ [1]
    ∧ Z.of_nat (ImdbWiki.__len__ self') = 1%Z.
Proof.
  apply (@failed_check_keeps_the_sample (platform no_files)
           (f 1 2) 1%Z 0%Z (imdb pair) world0 [0] [1] AssertionError).
  - vm_compute. reflexivity.
  - vm_compute. reflexivity.
  - lia.
  - vm_compute. reflexivity.
  - cbn. lia.
  - cbn. lia.
  - vm_compute. reflexivity.
Defined.
End imdb_examples.
